(** * Warehouse companion: document numbers, document life cycles and the
      stock ledger

    A shallow embedding of the Django back end under [backend/]:
    [inventory/models.py], [inventory/views.py], [operations/models.py],
    [operations/views.py], [analytics/views.py] and the parts of
    [master/models.py] they read.

    Conventions of the embedding.
    - A database table is a finite map from primary keys to rows; a model
      instance is its primary key ([None] until the first save) together
      with a record of its column values.
    - Python attributes that the views assign values of several types to
      (date-time columns receive a host name, text and decimal columns
      receive raw request data) hold a [value].
    - A view is a function of the time of the call, the request, the key in
      the URL and the tables; it returns the response and the tables.
      [get_object] is the look-up of the key in the table of the view. What
      the framework does in front of a view body (routing, authentication,
      filter back ends) and with its result (serializers) is left out.
    - [Model.save] of the persistence layer stores the instance as it is
      handed over, after the [auto_now] columns are stamped and the declared
      unique constraints are checked; an exception raised while a request
      is served becomes a 500 response and leaves the tables as they were.
    - [DecimalField(decimal_places=2)] amounts are counted in hundredths.
    - Text is ASCII; [startswith] look-ups and [order_by] on a text column
      compare code points. *)

From Stdlib Require Import ZArith String Ascii List Bool Lia.
From Stdlib Require Import OrdersEx DecimalString.
From stdpp Require Import gmap strings list fin_maps sorting.


Local Open Scope Z_scope.

(** ** Python built-ins used by the models *)

Module Py.

(** [str(n)] and [f'{n}'] for an [int]. *)
Definition str (n : Z) : string := NilZero.string_of_int (Z.to_int n).

(** Zero padding of a digit string on the left up to [width] characters. *)
Definition zfill (width : nat) (digits : string) : string :=
  String.string_of_list_ascii
    (repeat "0"%char (width - String.length digits))
  +:+ digits.

(** [f'{n:03d}']: the sign comes first and counts towards the width. *)
Definition format_03d (n : Z) : string :=
  if n <? 0 then "-" +:+ zfill 2 (str (- n)) else zfill 3 (str n).

(** [s.startswith(p)]. *)
Definition startswith (p s : string) : bool := String.prefix p s.

(** [s.split(sep)] for a one-character separator: never an empty list. *)
Fixpoint split (sep : ascii) (s : string) : list string :=
  match s with
  | EmptyString => [EmptyString]
  | String c s' =>
      if Ascii.eqb c sep then EmptyString :: split sep s'
      else match split sep s' with
           | piece :: pieces => String c piece :: pieces
           | [] => [String c EmptyString]
           end
  end.

(** [s.split('-')[-1]]. *)
Definition last_piece (s : string) : string :=
  List.last (split "-" s) EmptyString.

(** ASCII characters that [str.strip] removes. *)
Definition isspace (c : ascii) : bool :=
  let n := N_of_ascii c in
  ((9 <=? n) && (n <=? 13) || (28 <=? n) && (n <=? 32))%N.

Fixpoint lstrip (s : string) : string :=
  match s with
  | String c s' => if isspace c then lstrip s' else s
  | EmptyString => EmptyString
  end.

Fixpoint rstrip (s : string) : string :=
  match s with
  | String c s' =>
      match rstrip s' with
      | EmptyString => if isspace c then EmptyString else String c EmptyString
      | r => String c r
      end
  | EmptyString => EmptyString
  end.

Definition digit_value (c : ascii) : option Z :=
  let n := N_of_ascii c in
  if ((48 <=? n) && (n <=? 57))%N then Some (Z.of_N n - 48) else None.

(** Digits of a decimal literal; single underscores may sit between two
    digits. [after_digit] tells whether the previous character was one. *)
Fixpoint digits (s : string) (acc : Z) (after_digit : bool) : option Z :=
  match s with
  | EmptyString => if after_digit then Some acc else None
  | String c s' =>
      match digit_value c with
      | Some d => digits s' (10 * acc + d) true
      | None =>
          if Ascii.eqb c "_" && after_digit then digits s' acc false
          else None
      end
  end.

(** [int(s)] in base ten; [None] stands for [ValueError]. *)
Definition int (s : string) : option Z :=
  match rstrip (lstrip s) with
  | String "+" body => digits body 0 false
  | String "-" body => Z.opp <$> digits body 0 false
  | body => digits body 0 false
  end.

End Py.

(** ** Values, users and requests *)

(** [timezone.now()]: the calendar year and the time elapsed within it. *)
Record datetime := { dt_year : Z; dt_clock : Z }.

(** A Python value held by an attribute that receives several types. *)
Inductive value :=
| VNone
| VStr (s : string)
| VInt (n : Z)
| VDecimal (hundredths : Z)
| VDatetime (t : datetime).

(** Primary key of an [accounts.User]. *)
Definition User := positive.

(** The request as the views read it, behind the [IsAuthenticated] gate:
    [request.user], [request._get_raw_host()] and [request.data]. *)
Record Request := {
  user : User;
  raw_host : string;
  data : gmap string value
}.

(** [request.data.get(key)] and [request.data.get(key, fallback)]. *)
Definition data_get (request : Request) (key : string) (fallback : value) : value :=
  default fallback (data request !! key).

(** ** The persistence layer *)

Module Orm.

Inductive exn :=
| ValueError
| IntegrityError
| FieldError (name : string).

Inductive result (A : Type) :=
| Ok (a : A)
| Raise (e : exn).
Arguments Ok {A} a.
Arguments Raise {A} e.

(** What [Model.save] needs to know of a model: the columns stamped by
    [auto_now] and [auto_now_add], and its [unique] and [unique_together]
    constraints. An instance is its primary key ([None] until it is first
    saved) together with its column values. *)
Class Model (R : Type) := {
  pre_save : datetime → bool → R → R;
  unique_clash : R → R → bool
}.

Section save.
Context {R : Type} `{Model R}.

(** Some other row of the table violates a unique constraint with [row]. *)
Definition clashes (key : positive) (row : R) (t : gmap positive R) : bool :=
  existsb (λ kr, negb (Pos.eqb (fst kr) key) && unique_clash row (snd kr))
          (map_to_list t).

(** [models.Model.save]: update the row under the instance's key, or
    insert it (under a new key when the instance has none). *)
Definition save_base (now : datetime) (pk : option positive) (obj : R)
    (t : gmap positive R) : result (gmap positive R * positive * R) :=
  let key := match pk with Some k => k | None => fresh (dom t) end in
  let adding := match t !! key with Some _ => false | None => true end in
  let row := pre_save now adding obj in
  if clashes key row t then Raise IntegrityError
  else Ok (<[key := row]> t, key, row).
End save.

(** Code-point order on text. *)
Definition str_lt (a b : string) : bool :=
  match String_as_OT.compare a b with Lt => true | _ => false end.

(** [order_by('-column').first()] over the values of the column. *)
Definition first_desc (l : list string) : option string :=
  fold_right (λ s best, match best with
                        | Some m => if str_lt m s then Some s else Some m
                        | None => Some s
                        end) None l.

(** A model with an auto-generated document number. *)
Class Numbered (R : Type) `{Model R} := {
  number : R → string;
  set_number : string → R → R;
  number_set_number : ∀ s r, number (set_number s r) = s;
  number_pre_save : ∀ now adding r, number (pre_save now adding r) = number r;
  unique_clash_number : ∀ a b, unique_clash a b = String.eqb (number a) (number b)
}.

Section numbering.
Context {R : Type} `{Numbered R}.

(** [f'PREFIX-{year}-'] *)
Definition year_prefix (prefix : string) (year : Z) : string :=
  prefix +:+ "-" +:+ Py.str year +:+ "-".

Definition numbers (t : gmap positive R) : list string :=
  (λ kr, number (snd kr)) <$> map_to_list t.

(** The block that opens the [save] method of the six document models,
    the same in each but for the prefix:
<<
    if not self.adjustment_no:
        year = timezone.now().year
        last_adjustment = Adjustment.objects.filter(
            adjustment_no__startswith=f'ADJ-{year}-'
        ).order_by('-adjustment_no').first()
        if last_adjustment:
            last_num = int(last_adjustment.adjustment_no.split('-')[-1])
            next_num = last_num + 1
        else:
            next_num = 1
        self.adjustment_no = f'ADJ-{year}-{next_num:03d}'
>>
*)
Definition assign_number (prefix : string) (now : datetime) (obj : R)
    (t : gmap positive R) : result R :=
  if String.eqb (number obj) EmptyString then
    let year := dt_year now in
    let last :=
      first_desc (List.filter (Py.startswith (year_prefix prefix year))
                              (numbers t)) in
    match last with
    | Some last_no =>
        match Py.int (Py.last_piece last_no) with
        | Some last_num =>
            let next_num := last_num + 1 in
            Ok (set_number (year_prefix prefix year +:+ Py.format_03d next_num) obj)
        | None => Raise ValueError
        end
    | None =>
        let next_num := 1 in
        Ok (set_number (year_prefix prefix year +:+ Py.format_03d next_num) obj)
    end
  else Ok obj.

(** [save] of a model whose only addition is the number. *)
Definition save_numbered (prefix : string) (now : datetime)
    (pk : option positive) (obj : R) (t : gmap positive R)
  : result (gmap positive R * positive * R) :=
  match assign_number prefix now obj t with
  | Ok obj' => save_base now pk obj' t
  | Raise e => Raise e
  end.
End numbering.

(** The numbers of the table that carry the prefix of the year are those of
    the documents 1 to [n] of that year. *)
Definition numbered_up_to {R : Type} `{Numbered R} (prefix : string)
    (year n : Z) (t : gmap positive R) : Prop :=
  ∀ s, s ∈ numbers t ∧ Py.startswith (year_prefix prefix year) s = true
       ↔ ∃ j, 1 ≤ j ≤ n ∧ s = year_prefix prefix year +:+ Py.format_03d j.


(** The highest number of the year in the table is that of document [m]:
    it is there, and every number with the prefix of the year is that of a
    document 1 to [m]. *)
Definition highest_number {R : Type} `{Numbered R} (prefix : string)
    (year m : Z) (t : gmap positive R) : Prop :=
  year_prefix prefix year +:+ Py.format_03d m ∈ numbers t
  ∧ ∀ s, s ∈ numbers t → Py.startswith (year_prefix prefix year) s = true →
         ∃ j, 1 ≤ j ≤ m ∧ s = year_prefix prefix year +:+ Py.format_03d j.

(** No number of the table carries the prefix of the year. *)
Definition no_number_of_year {R : Type} `{Numbered R} (prefix : string)
    (year : Z) (t : gmap positive R) : Prop :=
  ∀ s, s ∈ numbers t → Py.startswith (year_prefix prefix year) s = false.

(** New documents of one year, none with a number assigned beforehand. *)
Definition blank_in_year {R : Type} `{Numbered R} (year : Z)
    (objs : list (datetime * R)) : Prop :=
  Forall (λ no, dt_year (fst no) = year ∧ number (snd no) = EmptyString) objs.

(** [PREFIX-YYYY-001] to [PREFIX-YYYY-NNN], in order. *)
Definition year_sequence (prefix : string) (year : Z) (n : nat) : list string :=
  (λ j, year_prefix prefix year +:+ Py.format_03d j) <$> seqZ 1 (Z.of_nat n).

(** Creating instances one after the other, each saved at its own time. *)
Fixpoint create_all {R : Type}
    (save : datetime → option positive → R → gmap positive R
            → result (gmap positive R * positive * R))
    (objs : list (datetime * R)) (t : gmap positive R)
  : result (gmap positive R * list R) :=
  match objs with
  | [] => Ok (t, [])
  | (now, obj) :: rest =>
      match save now None obj t with
      | Ok (t', _, saved) =>
          match create_all save rest t' with
          | Ok (t'', l) => Ok (t'', saved :: l)
          | Raise e => Raise e
          end
      | Raise e => Raise e
      end
  end.

(** Sequential creation of up to [limit] documents of a year, in a table that
    holds none of that year, numbers them 001, 002, ... in order. *)
Definition numbers_in_sequence {R : Type} `{Numbered R}
    (save : datetime → option positive → R → gmap positive R
            → result (gmap positive R * positive * R))
    (prefix : string) (year : Z) (limit : nat) : Prop :=
  ∀ objs t,
    (length objs ≤ limit)%nat → blank_in_year year objs →
    no_number_of_year prefix year t →
    ∃ t' saved,
      create_all save objs t = Ok (t', saved)
      ∧ number <$> saved = year_sequence prefix year (length objs)
      ∧ NoDup (number <$> saved).

(** A new document gets the number after the highest one of its year, as
    long as that is below 1000. *)
Definition numbers_follow_highest {R : Type} `{Numbered R}
    (save : datetime → option positive → R → gmap positive R
            → result (gmap positive R * positive * R))
    (prefix : string) (year : Z) : Prop :=
  ∀ now obj t m,
    dt_year now = year → 1 ≤ m ≤ 999 → highest_number prefix year m t →
    number obj = EmptyString →
    ∃ t' key saved,
      save now None obj t = Ok (t', key, saved)
      ∧ t' !! key = Some saved
      ∧ number saved = year_prefix prefix year +:+ Py.format_03d (m + 1).

End Orm.

(** [AuditFields], the abstract base of the models. *)
Module AuditFields.
Record t := {
  created_at : value;  (* auto_now_add *)
  updated_at : value;  (* auto_now *)
  created_by : option User;
  updated_by : option User
}.

Definition pre_save (now : datetime) (adding : bool) (a : t) : t :=
  {| created_at := if adding then VDatetime now else created_at a;
     updated_at := VDatetime now;
     created_by := created_by a;
     updated_by := updated_by a |}.
End AuditFields.

(** ** master/models.py: the columns the stock queries read *)

Module Product.
Record t := {
  sku : string;
  name : string;
  minimum_stock : Z;
  maximum_stock : option Z;
  reorder_point : Z
}.
End Product.

Module Warehouse.
Record t := {
  code : string;
  name : string
}.
End Warehouse.

(** ** inventory/models.py *)

Module Stock.
Record t := {
  audit : AuditFields.t;
  product : positive;  (* ForeignKey(Product) *)
  warehouse : positive;  (* ForeignKey(Warehouse) *)
  location : positive;  (* ForeignKey(Location) *)
  quantity_available : Z;
  quantity_reserved : Z;
  quantity_allocated : Z;
  lot_number : option string;
  expiry_date : value;
  manufacturing_date : value;
  unit_cost : option Z;  (* hundredths *)
  total_value : option Z  (* hundredths *)
}.

Definition set_audit (v : AuditFields.t) (r : t) : t :=
  {| audit := v; product := product r; warehouse := warehouse r;
     location := location r; quantity_available := quantity_available r;
     quantity_reserved := quantity_reserved r;
     quantity_allocated := quantity_allocated r; lot_number := lot_number r;
     expiry_date := expiry_date r;
     manufacturing_date := manufacturing_date r; unit_cost := unit_cost r;
     total_value := total_value r |}.

Definition set_total_value (v : option Z) (r : t) : t :=
  {| audit := audit r; product := product r; warehouse := warehouse r;
     location := location r; quantity_available := quantity_available r;
     quantity_reserved := quantity_reserved r;
     quantity_allocated := quantity_allocated r; lot_number := lot_number r;
     expiry_date := expiry_date r;
     manufacturing_date := manufacturing_date r; unit_cost := unit_cost r;
     total_value := v |}.

(** [@property quantity_total] *)
Definition quantity_total (self : t) : Z :=
  quantity_available self + quantity_reserved self + quantity_allocated self.

(** [@property quantity_available_for_sale] *)
Definition quantity_available_for_sale (self : t) : Z :=
  quantity_available self - quantity_reserved self.

(** [unique_together = ['product', 'warehouse', 'location', 'lot_number']];
    a null lot number equals no other. *)
Definition unique_clash (a b : t) : bool :=
  Pos.eqb (product a) (product b) && Pos.eqb (warehouse a) (warehouse b)
  && Pos.eqb (location a) (location b)
  && match lot_number a, lot_number b with
     | Some x, Some y => String.eqb x y
     | _, _ => false
     end.

#[global] Instance model : Orm.Model t := {|
  Orm.pre_save now adding r :=
    set_audit (AuditFields.pre_save now adding (audit r)) r;
  Orm.unique_clash := unique_clash
|}.

(** [save]: [if self.unit_cost and self.quantity_total:] holds when the cost
    is neither [None] nor zero and the total is not zero. *)
Definition save (now : datetime) (pk : option positive) (self : t)
    (table : gmap positive t) : Orm.result (gmap positive t * positive * t) :=
  let self :=
    match unit_cost self with
    | Some cost =>
        if negb (cost =? 0) && negb (quantity_total self =? 0)
        then set_total_value (Some (cost * quantity_total self)) self
        else self
    | None => self
    end in
  Orm.save_base now pk self table.
End Stock.

Module StockBuffer.
Record t := {
  audit : AuditFields.t;
  product : positive;  (* OneToOneField(Product), related_name stock_buffer *)
  warehouse : positive;  (* ForeignKey(Warehouse), related_name stock_buffers *)
  minimum_quantity : Z;
  maximum_quantity : option Z;
  reorder_point : Z;
  lead_time_days : Z;
  safety_factor : Z  (* hundredths *)
}.
End StockBuffer.

Module Adjustment.
Record t := {
  audit : AuditFields.t;
  adjustment_no : string;  (* unique *)
  product_id : Z;
  warehouse_id : Z;
  location_id : Z;
  previous_qty : Z;
  adjusted_qty : Z;
  adjustment_type : string;
  category : string;
  reason : string;
  adjusted_by : User;
  approved_by : option User;
  approved_at : value;  (* DateTimeField *)
  cost_impact : option Z  (* hundredths *)
}.

Definition set_audit (v : AuditFields.t) (r : t) : t :=
  {| audit := v; adjustment_no := adjustment_no r;
     product_id := product_id r; warehouse_id := warehouse_id r;
     location_id := location_id r; previous_qty := previous_qty r;
     adjusted_qty := adjusted_qty r; adjustment_type := adjustment_type r;
     category := category r; reason := reason r;
     adjusted_by := adjusted_by r; approved_by := approved_by r;
     approved_at := approved_at r; cost_impact := cost_impact r |}.

Definition set_adjustment_no (v : string) (r : t) : t :=
  {| audit := audit r; adjustment_no := v; product_id := product_id r;
     warehouse_id := warehouse_id r; location_id := location_id r;
     previous_qty := previous_qty r; adjusted_qty := adjusted_qty r;
     adjustment_type := adjustment_type r; category := category r;
     reason := reason r; adjusted_by := adjusted_by r;
     approved_by := approved_by r; approved_at := approved_at r;
     cost_impact := cost_impact r |}.

Definition set_approved_by (v : option User) (r : t) : t :=
  {| audit := audit r; adjustment_no := adjustment_no r;
     product_id := product_id r; warehouse_id := warehouse_id r;
     location_id := location_id r; previous_qty := previous_qty r;
     adjusted_qty := adjusted_qty r; adjustment_type := adjustment_type r;
     category := category r; reason := reason r;
     adjusted_by := adjusted_by r; approved_by := v;
     approved_at := approved_at r; cost_impact := cost_impact r |}.

Definition set_approved_at (v : value) (r : t) : t :=
  {| audit := audit r; adjustment_no := adjustment_no r;
     product_id := product_id r; warehouse_id := warehouse_id r;
     location_id := location_id r; previous_qty := previous_qty r;
     adjusted_qty := adjusted_qty r; adjustment_type := adjustment_type r;
     category := category r; reason := reason r;
     adjusted_by := adjusted_by r; approved_by := approved_by r;
     approved_at := v; cost_impact := cost_impact r |}.

#[global] Instance model : Orm.Model t := {|
  Orm.pre_save now adding r :=
    set_audit (AuditFields.pre_save now adding (audit r)) r;
  Orm.unique_clash a b := String.eqb (adjustment_no a) (adjustment_no b)
|}.

#[global] Instance numbered : Orm.Numbered t := {|
  Orm.number := adjustment_no;
  Orm.set_number := set_adjustment_no;
  Orm.number_set_number := λ _ _, eq_refl;
  Orm.number_pre_save := λ now adding r,
    match adding as b return adjustment_no (Orm.pre_save now b r) = adjustment_no r with
    | true => eq_refl
    | false => eq_refl
    end;
  Orm.unique_clash_number := λ _ _, eq_refl
|}.

Definition save (now : datetime) (pk : option positive) (self : t)
    (table : gmap positive t) : Orm.result (gmap positive t * positive * t) :=
  Orm.save_numbered "ADJ" now pk self table.
End Adjustment.

Module Transfer.

Record t := {
  audit : AuditFields.t;
  transfer_no : string;  (* unique *)
  from_warehouse_id : Z;
  from_location_id : Z;
  to_warehouse_id : Z;
  to_location_id : Z;
  product_id : Z;
  quantity : Z;
  unit_cost : Z;  (* hundredths *)
  requested_by : User;
  approved_by : option User;
  transferred_by : option User;
  status : string;  (* default 'pending' *)
  requested_at : value;  (* auto_now_add *)
  approved_at : value;  (* DateTimeField *)
  transferred_at : value;  (* DateTimeField *)
  notes : option string
}.

Definition set_audit (v : AuditFields.t) (r : t) : t :=
  {| audit := v; transfer_no := transfer_no r;
     from_warehouse_id := from_warehouse_id r;
     from_location_id := from_location_id r;
     to_warehouse_id := to_warehouse_id r;
     to_location_id := to_location_id r; product_id := product_id r;
     quantity := quantity r; unit_cost := unit_cost r;
     requested_by := requested_by r; approved_by := approved_by r;
     transferred_by := transferred_by r; status := status r;
     requested_at := requested_at r; approved_at := approved_at r;
     transferred_at := transferred_at r; notes := notes r |}.

Definition set_transfer_no (v : string) (r : t) : t :=
  {| audit := audit r; transfer_no := v;
     from_warehouse_id := from_warehouse_id r;
     from_location_id := from_location_id r;
     to_warehouse_id := to_warehouse_id r;
     to_location_id := to_location_id r; product_id := product_id r;
     quantity := quantity r; unit_cost := unit_cost r;
     requested_by := requested_by r; approved_by := approved_by r;
     transferred_by := transferred_by r; status := status r;
     requested_at := requested_at r; approved_at := approved_at r;
     transferred_at := transferred_at r; notes := notes r |}.

Definition set_approved_by (v : option User) (r : t) : t :=
  {| audit := audit r; transfer_no := transfer_no r;
     from_warehouse_id := from_warehouse_id r;
     from_location_id := from_location_id r;
     to_warehouse_id := to_warehouse_id r;
     to_location_id := to_location_id r; product_id := product_id r;
     quantity := quantity r; unit_cost := unit_cost r;
     requested_by := requested_by r; approved_by := v;
     transferred_by := transferred_by r; status := status r;
     requested_at := requested_at r; approved_at := approved_at r;
     transferred_at := transferred_at r; notes := notes r |}.

Definition set_transferred_by (v : option User) (r : t) : t :=
  {| audit := audit r; transfer_no := transfer_no r;
     from_warehouse_id := from_warehouse_id r;
     from_location_id := from_location_id r;
     to_warehouse_id := to_warehouse_id r;
     to_location_id := to_location_id r; product_id := product_id r;
     quantity := quantity r; unit_cost := unit_cost r;
     requested_by := requested_by r; approved_by := approved_by r;
     transferred_by := v; status := status r; requested_at := requested_at r;
     approved_at := approved_at r; transferred_at := transferred_at r;
     notes := notes r |}.

Definition set_status (v : string) (r : t) : t :=
  {| audit := audit r; transfer_no := transfer_no r;
     from_warehouse_id := from_warehouse_id r;
     from_location_id := from_location_id r;
     to_warehouse_id := to_warehouse_id r;
     to_location_id := to_location_id r; product_id := product_id r;
     quantity := quantity r; unit_cost := unit_cost r;
     requested_by := requested_by r; approved_by := approved_by r;
     transferred_by := transferred_by r; status := v;
     requested_at := requested_at r; approved_at := approved_at r;
     transferred_at := transferred_at r; notes := notes r |}.

Definition set_requested_at (v : value) (r : t) : t :=
  {| audit := audit r; transfer_no := transfer_no r;
     from_warehouse_id := from_warehouse_id r;
     from_location_id := from_location_id r;
     to_warehouse_id := to_warehouse_id r;
     to_location_id := to_location_id r; product_id := product_id r;
     quantity := quantity r; unit_cost := unit_cost r;
     requested_by := requested_by r; approved_by := approved_by r;
     transferred_by := transferred_by r; status := status r;
     requested_at := v; approved_at := approved_at r;
     transferred_at := transferred_at r; notes := notes r |}.

Definition set_approved_at (v : value) (r : t) : t :=
  {| audit := audit r; transfer_no := transfer_no r;
     from_warehouse_id := from_warehouse_id r;
     from_location_id := from_location_id r;
     to_warehouse_id := to_warehouse_id r;
     to_location_id := to_location_id r; product_id := product_id r;
     quantity := quantity r; unit_cost := unit_cost r;
     requested_by := requested_by r; approved_by := approved_by r;
     transferred_by := transferred_by r; status := status r;
     requested_at := requested_at r; approved_at := v;
     transferred_at := transferred_at r; notes := notes r |}.

Definition set_transferred_at (v : value) (r : t) : t :=
  {| audit := audit r; transfer_no := transfer_no r;
     from_warehouse_id := from_warehouse_id r;
     from_location_id := from_location_id r;
     to_warehouse_id := to_warehouse_id r;
     to_location_id := to_location_id r; product_id := product_id r;
     quantity := quantity r; unit_cost := unit_cost r;
     requested_by := requested_by r; approved_by := approved_by r;
     transferred_by := transferred_by r; status := status r;
     requested_at := requested_at r; approved_at := approved_at r;
     transferred_at := v; notes := notes r |}.

#[global] Instance model : Orm.Model t := {|
  Orm.pre_save now adding r :=
    set_audit (AuditFields.pre_save now adding (audit r))
      (if adding then set_requested_at (VDatetime now) r else r);
  Orm.unique_clash a b := String.eqb (transfer_no a) (transfer_no b)
|}.

#[global] Instance numbered : Orm.Numbered t := {|
  Orm.number := transfer_no;
  Orm.set_number := set_transfer_no;
  Orm.number_set_number := λ _ _, eq_refl;
  Orm.number_pre_save := λ now adding r,
    match adding as b return transfer_no (Orm.pre_save now b r) = transfer_no r with
    | true => eq_refl
    | false => eq_refl
    end;
  Orm.unique_clash_number := λ _ _, eq_refl
|}.

Definition save (now : datetime) (pk : option positive) (self : t)
    (table : gmap positive t) : Orm.result (gmap positive t * positive * t) :=
  Orm.save_numbered "TRF" now pk self table.
End Transfer.

(** ** operations/models.py *)

Module Receiving.
Definition RECEIVING_STATUS_CHOICES : list (string * string) :=
  [("draft", "Draft"); ("received", "Received"); ("inspected", "Inspected");
   ("approved", "Approved"); ("rejected", "Rejected")].

Record t := {
  audit : AuditFields.t;
  receiving_no : string;  (* unique *)
  supplier_id : Z;
  purchase_order_no : option string;
  warehouse_id : Z;
  location_id : Z;
  received_by : User;
  received_at : value;  (* auto_now_add *)
  status : string;  (* default 'draft' *)
  inspected_by : option User;
  inspected_at : value;  (* DateTimeField *)
  approved_by : option User;
  approved_at : value;  (* DateTimeField *)
  notes : option string;
  rejection_reason : value  (* TextField *)
}.

Definition set_audit (v : AuditFields.t) (r : t) : t :=
  {| audit := v; receiving_no := receiving_no r;
     supplier_id := supplier_id r; purchase_order_no := purchase_order_no r;
     warehouse_id := warehouse_id r; location_id := location_id r;
     received_by := received_by r; received_at := received_at r;
     status := status r; inspected_by := inspected_by r;
     inspected_at := inspected_at r; approved_by := approved_by r;
     approved_at := approved_at r; notes := notes r;
     rejection_reason := rejection_reason r |}.

Definition set_receiving_no (v : string) (r : t) : t :=
  {| audit := audit r; receiving_no := v; supplier_id := supplier_id r;
     purchase_order_no := purchase_order_no r;
     warehouse_id := warehouse_id r; location_id := location_id r;
     received_by := received_by r; received_at := received_at r;
     status := status r; inspected_by := inspected_by r;
     inspected_at := inspected_at r; approved_by := approved_by r;
     approved_at := approved_at r; notes := notes r;
     rejection_reason := rejection_reason r |}.

Definition set_received_at (v : value) (r : t) : t :=
  {| audit := audit r; receiving_no := receiving_no r;
     supplier_id := supplier_id r; purchase_order_no := purchase_order_no r;
     warehouse_id := warehouse_id r; location_id := location_id r;
     received_by := received_by r; received_at := v; status := status r;
     inspected_by := inspected_by r; inspected_at := inspected_at r;
     approved_by := approved_by r; approved_at := approved_at r;
     notes := notes r; rejection_reason := rejection_reason r |}.

Definition set_status (v : string) (r : t) : t :=
  {| audit := audit r; receiving_no := receiving_no r;
     supplier_id := supplier_id r; purchase_order_no := purchase_order_no r;
     warehouse_id := warehouse_id r; location_id := location_id r;
     received_by := received_by r; received_at := received_at r; status := v;
     inspected_by := inspected_by r; inspected_at := inspected_at r;
     approved_by := approved_by r; approved_at := approved_at r;
     notes := notes r; rejection_reason := rejection_reason r |}.

Definition set_inspected_by (v : option User) (r : t) : t :=
  {| audit := audit r; receiving_no := receiving_no r;
     supplier_id := supplier_id r; purchase_order_no := purchase_order_no r;
     warehouse_id := warehouse_id r; location_id := location_id r;
     received_by := received_by r; received_at := received_at r;
     status := status r; inspected_by := v; inspected_at := inspected_at r;
     approved_by := approved_by r; approved_at := approved_at r;
     notes := notes r; rejection_reason := rejection_reason r |}.

Definition set_inspected_at (v : value) (r : t) : t :=
  {| audit := audit r; receiving_no := receiving_no r;
     supplier_id := supplier_id r; purchase_order_no := purchase_order_no r;
     warehouse_id := warehouse_id r; location_id := location_id r;
     received_by := received_by r; received_at := received_at r;
     status := status r; inspected_by := inspected_by r; inspected_at := v;
     approved_by := approved_by r; approved_at := approved_at r;
     notes := notes r; rejection_reason := rejection_reason r |}.

Definition set_approved_by (v : option User) (r : t) : t :=
  {| audit := audit r; receiving_no := receiving_no r;
     supplier_id := supplier_id r; purchase_order_no := purchase_order_no r;
     warehouse_id := warehouse_id r; location_id := location_id r;
     received_by := received_by r; received_at := received_at r;
     status := status r; inspected_by := inspected_by r;
     inspected_at := inspected_at r; approved_by := v;
     approved_at := approved_at r; notes := notes r;
     rejection_reason := rejection_reason r |}.

Definition set_approved_at (v : value) (r : t) : t :=
  {| audit := audit r; receiving_no := receiving_no r;
     supplier_id := supplier_id r; purchase_order_no := purchase_order_no r;
     warehouse_id := warehouse_id r; location_id := location_id r;
     received_by := received_by r; received_at := received_at r;
     status := status r; inspected_by := inspected_by r;
     inspected_at := inspected_at r; approved_by := approved_by r;
     approved_at := v; notes := notes r;
     rejection_reason := rejection_reason r |}.

Definition set_rejection_reason (v : value) (r : t) : t :=
  {| audit := audit r; receiving_no := receiving_no r;
     supplier_id := supplier_id r; purchase_order_no := purchase_order_no r;
     warehouse_id := warehouse_id r; location_id := location_id r;
     received_by := received_by r; received_at := received_at r;
     status := status r; inspected_by := inspected_by r;
     inspected_at := inspected_at r; approved_by := approved_by r;
     approved_at := approved_at r; notes := notes r; rejection_reason := v |}.

#[global] Instance model : Orm.Model t := {|
  Orm.pre_save now adding r :=
    set_audit (AuditFields.pre_save now adding (audit r))
      (if adding then set_received_at (VDatetime now) r else r);
  Orm.unique_clash a b := String.eqb (receiving_no a) (receiving_no b)
|}.

#[global] Instance numbered : Orm.Numbered t := {|
  Orm.number := receiving_no;
  Orm.set_number := set_receiving_no;
  Orm.number_set_number := λ _ _, eq_refl;
  Orm.number_pre_save := λ now adding r,
    match adding as b return receiving_no (Orm.pre_save now b r) = receiving_no r with
    | true => eq_refl
    | false => eq_refl
    end;
  Orm.unique_clash_number := λ _ _, eq_refl
|}.

Definition save (now : datetime) (pk : option positive) (self : t)
    (table : gmap positive t) : Orm.result (gmap positive t * positive * t) :=
  Orm.save_numbered "RCV" now pk self table.
End Receiving.

Module Shipment.
Definition SHIPMENT_STATUS_CHOICES : list (string * string) :=
  [("draft", "Draft"); ("packed", "Packed"); ("shipped", "Shipped");
   ("delivered", "Delivered"); ("cancelled", "Cancelled")].

Record t := {
  audit : AuditFields.t;
  shipment_no : string;  (* unique *)
  order_no : string;
  customer_name : string;
  customer_address : string;
  warehouse_id : Z;
  location_id : Z;
  packed_by : User;
  packed_at : value;  (* DateTimeField *)
  shipped_by : option User;
  shipped_at : value;  (* DateTimeField *)
  delivered_at : value;  (* DateTimeField *)
  carrier : value;  (* CharField *)
  tracking_number : value;  (* CharField *)
  status : string;  (* default 'draft' *)
  notes : option string
}.

Definition set_audit (v : AuditFields.t) (r : t) : t :=
  {| audit := v; shipment_no := shipment_no r; order_no := order_no r;
     customer_name := customer_name r;
     customer_address := customer_address r; warehouse_id := warehouse_id r;
     location_id := location_id r; packed_by := packed_by r;
     packed_at := packed_at r; shipped_by := shipped_by r;
     shipped_at := shipped_at r; delivered_at := delivered_at r;
     carrier := carrier r; tracking_number := tracking_number r;
     status := status r; notes := notes r |}.

Definition set_shipment_no (v : string) (r : t) : t :=
  {| audit := audit r; shipment_no := v; order_no := order_no r;
     customer_name := customer_name r;
     customer_address := customer_address r; warehouse_id := warehouse_id r;
     location_id := location_id r; packed_by := packed_by r;
     packed_at := packed_at r; shipped_by := shipped_by r;
     shipped_at := shipped_at r; delivered_at := delivered_at r;
     carrier := carrier r; tracking_number := tracking_number r;
     status := status r; notes := notes r |}.

Definition set_packed_at (v : value) (r : t) : t :=
  {| audit := audit r; shipment_no := shipment_no r; order_no := order_no r;
     customer_name := customer_name r;
     customer_address := customer_address r; warehouse_id := warehouse_id r;
     location_id := location_id r; packed_by := packed_by r; packed_at := v;
     shipped_by := shipped_by r; shipped_at := shipped_at r;
     delivered_at := delivered_at r; carrier := carrier r;
     tracking_number := tracking_number r; status := status r;
     notes := notes r |}.

Definition set_shipped_by (v : option User) (r : t) : t :=
  {| audit := audit r; shipment_no := shipment_no r; order_no := order_no r;
     customer_name := customer_name r;
     customer_address := customer_address r; warehouse_id := warehouse_id r;
     location_id := location_id r; packed_by := packed_by r;
     packed_at := packed_at r; shipped_by := v; shipped_at := shipped_at r;
     delivered_at := delivered_at r; carrier := carrier r;
     tracking_number := tracking_number r; status := status r;
     notes := notes r |}.

Definition set_shipped_at (v : value) (r : t) : t :=
  {| audit := audit r; shipment_no := shipment_no r; order_no := order_no r;
     customer_name := customer_name r;
     customer_address := customer_address r; warehouse_id := warehouse_id r;
     location_id := location_id r; packed_by := packed_by r;
     packed_at := packed_at r; shipped_by := shipped_by r; shipped_at := v;
     delivered_at := delivered_at r; carrier := carrier r;
     tracking_number := tracking_number r; status := status r;
     notes := notes r |}.

Definition set_delivered_at (v : value) (r : t) : t :=
  {| audit := audit r; shipment_no := shipment_no r; order_no := order_no r;
     customer_name := customer_name r;
     customer_address := customer_address r; warehouse_id := warehouse_id r;
     location_id := location_id r; packed_by := packed_by r;
     packed_at := packed_at r; shipped_by := shipped_by r;
     shipped_at := shipped_at r; delivered_at := v; carrier := carrier r;
     tracking_number := tracking_number r; status := status r;
     notes := notes r |}.

Definition set_carrier (v : value) (r : t) : t :=
  {| audit := audit r; shipment_no := shipment_no r; order_no := order_no r;
     customer_name := customer_name r;
     customer_address := customer_address r; warehouse_id := warehouse_id r;
     location_id := location_id r; packed_by := packed_by r;
     packed_at := packed_at r; shipped_by := shipped_by r;
     shipped_at := shipped_at r; delivered_at := delivered_at r;
     carrier := v; tracking_number := tracking_number r; status := status r;
     notes := notes r |}.

Definition set_tracking_number (v : value) (r : t) : t :=
  {| audit := audit r; shipment_no := shipment_no r; order_no := order_no r;
     customer_name := customer_name r;
     customer_address := customer_address r; warehouse_id := warehouse_id r;
     location_id := location_id r; packed_by := packed_by r;
     packed_at := packed_at r; shipped_by := shipped_by r;
     shipped_at := shipped_at r; delivered_at := delivered_at r;
     carrier := carrier r; tracking_number := v; status := status r;
     notes := notes r |}.

Definition set_status (v : string) (r : t) : t :=
  {| audit := audit r; shipment_no := shipment_no r; order_no := order_no r;
     customer_name := customer_name r;
     customer_address := customer_address r; warehouse_id := warehouse_id r;
     location_id := location_id r; packed_by := packed_by r;
     packed_at := packed_at r; shipped_by := shipped_by r;
     shipped_at := shipped_at r; delivered_at := delivered_at r;
     carrier := carrier r; tracking_number := tracking_number r; status := v;
     notes := notes r |}.

#[global] Instance model : Orm.Model t := {|
  Orm.pre_save now adding r :=
    set_audit (AuditFields.pre_save now adding (audit r)) r;
  Orm.unique_clash a b := String.eqb (shipment_no a) (shipment_no b)
|}.

#[global] Instance numbered : Orm.Numbered t := {|
  Orm.number := shipment_no;
  Orm.set_number := set_shipment_no;
  Orm.number_set_number := λ _ _, eq_refl;
  Orm.number_pre_save := λ now adding r,
    match adding as b return shipment_no (Orm.pre_save now b r) = shipment_no r with
    | true => eq_refl
    | false => eq_refl
    end;
  Orm.unique_clash_number := λ _ _, eq_refl
|}.

Definition save (now : datetime) (pk : option positive) (self : t)
    (table : gmap positive t) : Orm.result (gmap positive t * positive * t) :=
  Orm.save_numbered "SHP" now pk self table.
End Shipment.

Module Return.
Definition RETURN_STATUS_CHOICES : list (string * string) :=
  [("received", "Received"); ("inspected", "Inspected");
   ("approved", "Approved"); ("rejected", "Rejected");
   ("processed", "Processed")].

Record t := {
  audit : AuditFields.t;
  return_no : string;  (* unique *)
  original_order_no : string;
  customer_name : string;
  customer_address : string;
  return_reason : string;
  received_by : User;
  received_at : value;  (* auto_now_add *)
  inspected_by : option User;
  inspected_at : value;  (* DateTimeField *)
  approved_by : option User;
  approved_at : value;  (* DateTimeField *)
  processed_by : option User;
  processed_at : value;  (* DateTimeField *)
  status : string;  (* default 'received' *)
  refund_amount : value;  (* DecimalField *)
  notes : option string;
  rejection_reason : option string
}.

Definition set_audit (v : AuditFields.t) (r : t) : t :=
  {| audit := v; return_no := return_no r;
     original_order_no := original_order_no r;
     customer_name := customer_name r;
     customer_address := customer_address r;
     return_reason := return_reason r; received_by := received_by r;
     received_at := received_at r; inspected_by := inspected_by r;
     inspected_at := inspected_at r; approved_by := approved_by r;
     approved_at := approved_at r; processed_by := processed_by r;
     processed_at := processed_at r; status := status r;
     refund_amount := refund_amount r; notes := notes r;
     rejection_reason := rejection_reason r |}.

Definition set_return_no (v : string) (r : t) : t :=
  {| audit := audit r; return_no := v;
     original_order_no := original_order_no r;
     customer_name := customer_name r;
     customer_address := customer_address r;
     return_reason := return_reason r; received_by := received_by r;
     received_at := received_at r; inspected_by := inspected_by r;
     inspected_at := inspected_at r; approved_by := approved_by r;
     approved_at := approved_at r; processed_by := processed_by r;
     processed_at := processed_at r; status := status r;
     refund_amount := refund_amount r; notes := notes r;
     rejection_reason := rejection_reason r |}.

Definition set_received_at (v : value) (r : t) : t :=
  {| audit := audit r; return_no := return_no r;
     original_order_no := original_order_no r;
     customer_name := customer_name r;
     customer_address := customer_address r;
     return_reason := return_reason r; received_by := received_by r;
     received_at := v; inspected_by := inspected_by r;
     inspected_at := inspected_at r; approved_by := approved_by r;
     approved_at := approved_at r; processed_by := processed_by r;
     processed_at := processed_at r; status := status r;
     refund_amount := refund_amount r; notes := notes r;
     rejection_reason := rejection_reason r |}.

Definition set_inspected_by (v : option User) (r : t) : t :=
  {| audit := audit r; return_no := return_no r;
     original_order_no := original_order_no r;
     customer_name := customer_name r;
     customer_address := customer_address r;
     return_reason := return_reason r; received_by := received_by r;
     received_at := received_at r; inspected_by := v;
     inspected_at := inspected_at r; approved_by := approved_by r;
     approved_at := approved_at r; processed_by := processed_by r;
     processed_at := processed_at r; status := status r;
     refund_amount := refund_amount r; notes := notes r;
     rejection_reason := rejection_reason r |}.

Definition set_inspected_at (v : value) (r : t) : t :=
  {| audit := audit r; return_no := return_no r;
     original_order_no := original_order_no r;
     customer_name := customer_name r;
     customer_address := customer_address r;
     return_reason := return_reason r; received_by := received_by r;
     received_at := received_at r; inspected_by := inspected_by r;
     inspected_at := v; approved_by := approved_by r;
     approved_at := approved_at r; processed_by := processed_by r;
     processed_at := processed_at r; status := status r;
     refund_amount := refund_amount r; notes := notes r;
     rejection_reason := rejection_reason r |}.

Definition set_approved_by (v : option User) (r : t) : t :=
  {| audit := audit r; return_no := return_no r;
     original_order_no := original_order_no r;
     customer_name := customer_name r;
     customer_address := customer_address r;
     return_reason := return_reason r; received_by := received_by r;
     received_at := received_at r; inspected_by := inspected_by r;
     inspected_at := inspected_at r; approved_by := v;
     approved_at := approved_at r; processed_by := processed_by r;
     processed_at := processed_at r; status := status r;
     refund_amount := refund_amount r; notes := notes r;
     rejection_reason := rejection_reason r |}.

Definition set_approved_at (v : value) (r : t) : t :=
  {| audit := audit r; return_no := return_no r;
     original_order_no := original_order_no r;
     customer_name := customer_name r;
     customer_address := customer_address r;
     return_reason := return_reason r; received_by := received_by r;
     received_at := received_at r; inspected_by := inspected_by r;
     inspected_at := inspected_at r; approved_by := approved_by r;
     approved_at := v; processed_by := processed_by r;
     processed_at := processed_at r; status := status r;
     refund_amount := refund_amount r; notes := notes r;
     rejection_reason := rejection_reason r |}.

Definition set_processed_by (v : option User) (r : t) : t :=
  {| audit := audit r; return_no := return_no r;
     original_order_no := original_order_no r;
     customer_name := customer_name r;
     customer_address := customer_address r;
     return_reason := return_reason r; received_by := received_by r;
     received_at := received_at r; inspected_by := inspected_by r;
     inspected_at := inspected_at r; approved_by := approved_by r;
     approved_at := approved_at r; processed_by := v;
     processed_at := processed_at r; status := status r;
     refund_amount := refund_amount r; notes := notes r;
     rejection_reason := rejection_reason r |}.

Definition set_processed_at (v : value) (r : t) : t :=
  {| audit := audit r; return_no := return_no r;
     original_order_no := original_order_no r;
     customer_name := customer_name r;
     customer_address := customer_address r;
     return_reason := return_reason r; received_by := received_by r;
     received_at := received_at r; inspected_by := inspected_by r;
     inspected_at := inspected_at r; approved_by := approved_by r;
     approved_at := approved_at r; processed_by := processed_by r;
     processed_at := v; status := status r; refund_amount := refund_amount r;
     notes := notes r; rejection_reason := rejection_reason r |}.

Definition set_status (v : string) (r : t) : t :=
  {| audit := audit r; return_no := return_no r;
     original_order_no := original_order_no r;
     customer_name := customer_name r;
     customer_address := customer_address r;
     return_reason := return_reason r; received_by := received_by r;
     received_at := received_at r; inspected_by := inspected_by r;
     inspected_at := inspected_at r; approved_by := approved_by r;
     approved_at := approved_at r; processed_by := processed_by r;
     processed_at := processed_at r; status := v;
     refund_amount := refund_amount r; notes := notes r;
     rejection_reason := rejection_reason r |}.

Definition set_refund_amount (v : value) (r : t) : t :=
  {| audit := audit r; return_no := return_no r;
     original_order_no := original_order_no r;
     customer_name := customer_name r;
     customer_address := customer_address r;
     return_reason := return_reason r; received_by := received_by r;
     received_at := received_at r; inspected_by := inspected_by r;
     inspected_at := inspected_at r; approved_by := approved_by r;
     approved_at := approved_at r; processed_by := processed_by r;
     processed_at := processed_at r; status := status r; refund_amount := v;
     notes := notes r; rejection_reason := rejection_reason r |}.

#[global] Instance model : Orm.Model t := {|
  Orm.pre_save now adding r :=
    set_audit (AuditFields.pre_save now adding (audit r))
      (if adding then set_received_at (VDatetime now) r else r);
  Orm.unique_clash a b := String.eqb (return_no a) (return_no b)
|}.

#[global] Instance numbered : Orm.Numbered t := {|
  Orm.number := return_no;
  Orm.set_number := set_return_no;
  Orm.number_set_number := λ _ _, eq_refl;
  Orm.number_pre_save := λ now adding r,
    match adding as b return return_no (Orm.pre_save now b r) = return_no r with
    | true => eq_refl
    | false => eq_refl
    end;
  Orm.unique_clash_number := λ _ _, eq_refl
|}.

Definition save (now : datetime) (pk : option positive) (self : t)
    (table : gmap positive t) : Orm.result (gmap positive t * positive * t) :=
  Orm.save_numbered "RTN" now pk self table.
End Return.

Module Order.
Definition ORDER_STATUS_CHOICES : list (string * string) :=
  [("pending", "Pending"); ("confirmed", "Confirmed");
   ("processing", "Processing"); ("shipped", "Shipped");
   ("delivered", "Delivered"); ("cancelled", "Cancelled")].

Record t := {
  audit : AuditFields.t;
  order_no : string;  (* unique *)
  customer_name : string;
  customer_email : string;
  customer_phone : string;
  customer_address : string;
  order_type : string;  (* default 'standard' *)
  status : string;  (* default 'pending' *)
  subtotal : Z;  (* hundredths *)
  tax_amount : Z;  (* hundredths *)
  shipping_amount : Z;  (* hundredths *)
  discount_amount : Z;  (* hundredths *)
  total_amount : Z;  (* hundredths *)
  processed_by : option User;
  processed_at : value;  (* DateTimeField *)
  shipped_at : value;  (* DateTimeField *)
  delivered_at : value;  (* DateTimeField *)
  customer_notes : option string;
  internal_notes : option string
}.

Definition set_audit (v : AuditFields.t) (r : t) : t :=
  {| audit := v; order_no := order_no r; customer_name := customer_name r;
     customer_email := customer_email r; customer_phone := customer_phone r;
     customer_address := customer_address r; order_type := order_type r;
     status := status r; subtotal := subtotal r; tax_amount := tax_amount r;
     shipping_amount := shipping_amount r;
     discount_amount := discount_amount r; total_amount := total_amount r;
     processed_by := processed_by r; processed_at := processed_at r;
     shipped_at := shipped_at r; delivered_at := delivered_at r;
     customer_notes := customer_notes r; internal_notes := internal_notes r |}.

Definition set_order_no (v : string) (r : t) : t :=
  {| audit := audit r; order_no := v; customer_name := customer_name r;
     customer_email := customer_email r; customer_phone := customer_phone r;
     customer_address := customer_address r; order_type := order_type r;
     status := status r; subtotal := subtotal r; tax_amount := tax_amount r;
     shipping_amount := shipping_amount r;
     discount_amount := discount_amount r; total_amount := total_amount r;
     processed_by := processed_by r; processed_at := processed_at r;
     shipped_at := shipped_at r; delivered_at := delivered_at r;
     customer_notes := customer_notes r; internal_notes := internal_notes r |}.

Definition set_status (v : string) (r : t) : t :=
  {| audit := audit r; order_no := order_no r;
     customer_name := customer_name r; customer_email := customer_email r;
     customer_phone := customer_phone r;
     customer_address := customer_address r; order_type := order_type r;
     status := v; subtotal := subtotal r; tax_amount := tax_amount r;
     shipping_amount := shipping_amount r;
     discount_amount := discount_amount r; total_amount := total_amount r;
     processed_by := processed_by r; processed_at := processed_at r;
     shipped_at := shipped_at r; delivered_at := delivered_at r;
     customer_notes := customer_notes r; internal_notes := internal_notes r |}.

Definition set_total_amount (v : Z) (r : t) : t :=
  {| audit := audit r; order_no := order_no r;
     customer_name := customer_name r; customer_email := customer_email r;
     customer_phone := customer_phone r;
     customer_address := customer_address r; order_type := order_type r;
     status := status r; subtotal := subtotal r; tax_amount := tax_amount r;
     shipping_amount := shipping_amount r;
     discount_amount := discount_amount r; total_amount := v;
     processed_by := processed_by r; processed_at := processed_at r;
     shipped_at := shipped_at r; delivered_at := delivered_at r;
     customer_notes := customer_notes r; internal_notes := internal_notes r |}.

Definition set_processed_by (v : option User) (r : t) : t :=
  {| audit := audit r; order_no := order_no r;
     customer_name := customer_name r; customer_email := customer_email r;
     customer_phone := customer_phone r;
     customer_address := customer_address r; order_type := order_type r;
     status := status r; subtotal := subtotal r; tax_amount := tax_amount r;
     shipping_amount := shipping_amount r;
     discount_amount := discount_amount r; total_amount := total_amount r;
     processed_by := v; processed_at := processed_at r;
     shipped_at := shipped_at r; delivered_at := delivered_at r;
     customer_notes := customer_notes r; internal_notes := internal_notes r |}.

Definition set_processed_at (v : value) (r : t) : t :=
  {| audit := audit r; order_no := order_no r;
     customer_name := customer_name r; customer_email := customer_email r;
     customer_phone := customer_phone r;
     customer_address := customer_address r; order_type := order_type r;
     status := status r; subtotal := subtotal r; tax_amount := tax_amount r;
     shipping_amount := shipping_amount r;
     discount_amount := discount_amount r; total_amount := total_amount r;
     processed_by := processed_by r; processed_at := v;
     shipped_at := shipped_at r; delivered_at := delivered_at r;
     customer_notes := customer_notes r; internal_notes := internal_notes r |}.

Definition set_shipped_at (v : value) (r : t) : t :=
  {| audit := audit r; order_no := order_no r;
     customer_name := customer_name r; customer_email := customer_email r;
     customer_phone := customer_phone r;
     customer_address := customer_address r; order_type := order_type r;
     status := status r; subtotal := subtotal r; tax_amount := tax_amount r;
     shipping_amount := shipping_amount r;
     discount_amount := discount_amount r; total_amount := total_amount r;
     processed_by := processed_by r; processed_at := processed_at r;
     shipped_at := v; delivered_at := delivered_at r;
     customer_notes := customer_notes r; internal_notes := internal_notes r |}.

Definition set_delivered_at (v : value) (r : t) : t :=
  {| audit := audit r; order_no := order_no r;
     customer_name := customer_name r; customer_email := customer_email r;
     customer_phone := customer_phone r;
     customer_address := customer_address r; order_type := order_type r;
     status := status r; subtotal := subtotal r; tax_amount := tax_amount r;
     shipping_amount := shipping_amount r;
     discount_amount := discount_amount r; total_amount := total_amount r;
     processed_by := processed_by r; processed_at := processed_at r;
     shipped_at := shipped_at r; delivered_at := v;
     customer_notes := customer_notes r; internal_notes := internal_notes r |}.

#[global] Instance model : Orm.Model t := {|
  Orm.pre_save now adding r :=
    set_audit (AuditFields.pre_save now adding (audit r)) r;
  Orm.unique_clash a b := String.eqb (order_no a) (order_no b)
|}.

#[global] Instance numbered : Orm.Numbered t := {|
  Orm.number := order_no;
  Orm.set_number := set_order_no;
  Orm.number_set_number := λ _ _, eq_refl;
  Orm.number_pre_save := λ now adding r,
    match adding as b return order_no (Orm.pre_save now b r) = order_no r with
    | true => eq_refl
    | false => eq_refl
    end;
  Orm.unique_clash_number := λ _ _, eq_refl
|}.

(** [save]: the number block, then
    [self.total_amount = self.subtotal + self.tax_amount +
     self.shipping_amount - self.discount_amount]. *)
Definition save (now : datetime) (pk : option positive) (self : t)
    (table : gmap positive t) : Orm.result (gmap positive t * positive * t) :=
  match Orm.assign_number "ORD" now self table with
  | Orm.Ok self =>
      let self :=
        set_total_amount
          (subtotal self + tax_amount self + shipping_amount self
           - discount_amount self) self in
      Orm.save_base now pk self table
  | Orm.Raise e => Orm.Raise e
  end.
End Order.

(** ** The tables *)

Record DB := {
  products : gmap positive Product.t;
  warehouses : gmap positive Warehouse.t;
  stocks : gmap positive Stock.t;
  stock_buffers : gmap positive StockBuffer.t;
  adjustments : gmap positive Adjustment.t;
  transfers : gmap positive Transfer.t;
  receivings : gmap positive Receiving.t;
  shipments : gmap positive Shipment.t;
  returns : gmap positive Return.t;
  orders : gmap positive Order.t
}.

Definition set_adjustments (v : gmap positive Adjustment.t) (r : DB) : DB :=
  {| products := products r; warehouses := warehouses r; stocks := stocks r;
     stock_buffers := stock_buffers r; adjustments := v;
     transfers := transfers r; receivings := receivings r;
     shipments := shipments r; returns := returns r; orders := orders r |}.

Definition set_transfers (v : gmap positive Transfer.t) (r : DB) : DB :=
  {| products := products r; warehouses := warehouses r; stocks := stocks r;
     stock_buffers := stock_buffers r; adjustments := adjustments r;
     transfers := v; receivings := receivings r; shipments := shipments r;
     returns := returns r; orders := orders r |}.

Definition set_receivings (v : gmap positive Receiving.t) (r : DB) : DB :=
  {| products := products r; warehouses := warehouses r; stocks := stocks r;
     stock_buffers := stock_buffers r; adjustments := adjustments r;
     transfers := transfers r; receivings := v; shipments := shipments r;
     returns := returns r; orders := orders r |}.

Definition set_shipments (v : gmap positive Shipment.t) (r : DB) : DB :=
  {| products := products r; warehouses := warehouses r; stocks := stocks r;
     stock_buffers := stock_buffers r; adjustments := adjustments r;
     transfers := transfers r; receivings := receivings r; shipments := v;
     returns := returns r; orders := orders r |}.

Definition set_returns (v : gmap positive Return.t) (r : DB) : DB :=
  {| products := products r; warehouses := warehouses r; stocks := stocks r;
     stock_buffers := stock_buffers r; adjustments := adjustments r;
     transfers := transfers r; receivings := receivings r;
     shipments := shipments r; returns := v; orders := orders r |}.

Definition set_orders (v : gmap positive Order.t) (r : DB) : DB :=
  {| products := products r; warehouses := warehouses r; stocks := stocks r;
     stock_buffers := stock_buffers r; adjustments := adjustments r;
     transfers := transfers r; receivings := receivings r;
     shipments := shipments r; returns := returns r; orders := v |}.

(** ** Responses *)

(** A JSON response with its status code; an uncaught exception is a 500,
    [get_object] on an unknown key a 404. *)
Inductive Response (A : Type) :=
| HTTP_200 (body : A)
| HTTP_400 (error : string)
| HTTP_404
| HTTP_500 (e : Orm.exn).
Arguments HTTP_200 {A} body.
Arguments HTTP_400 {A} error.
Arguments HTTP_404 {A}.
Arguments HTTP_500 {A} e.

(** [obj.save()] followed by [return Response(serializer.data)]: the saved
    instance is written to its table and returned. *)
Definition save_and_respond {R : Type}
    (saved : Orm.result (gmap positive R * positive * R))
    (store : gmap positive R → DB → DB) (db : DB) : Response R * DB :=
  match saved with
  | Orm.Ok (table, _, obj) => (HTTP_200 obj, store table db)
  | Orm.Raise e => (HTTP_500 e, db)
  end.

(** ** inventory/views.py *)

Module StockViewSet.

(** Reorder point of the product a stock row points to ([product__reorder_point]). *)
Definition product_reorder_point (db : DB) (stock : Stock.t) : option Z :=
  Product.reorder_point <$> products db !! Stock.product stock.

(** The relations a look-up on [Stock] can follow to [StockBuffer] rows, by
    name. inventory/models.py declares none: the foreign keys of
    [StockBuffer] are reached as [stock_buffer] from [Product] and as
    [stock_buffers] from [Warehouse]. *)
Definition stock_buffer_relations
  : list (string * (DB → Stock.t → list StockBuffer.t)) := [].

Definition resolve (name : string)
  : option (DB → Stock.t → list StockBuffer.t) :=
  snd <$> List.find (λ nr, String.eqb (fst nr) name) stock_buffer_relations.

(** [low_stock]: the filter
<<
    Q(quantity_available__lte=F('product__reorder_point')) |
    Q(stock_buffers__minimum_quantity__isnull=False,
      quantity_available__lte=F('stock_buffers__minimum_quantity'))
>>
    A name that resolves to no field of the model raises [FieldError]. *)
Definition low_stock (db : DB) : Response (list (positive * Stock.t)) :=
  match resolve "stock_buffers" with
  | None => HTTP_500 (Orm.FieldError "stock_buffers")
  | Some stock_buffers =>
      HTTP_200
        (List.filter
           (λ ks,
              match product_reorder_point db (snd ks) with
              | Some reorder_point =>
                  (Stock.quantity_available (snd ks) <=? reorder_point)
                  || existsb
                       (λ b, Stock.quantity_available (snd ks)
                             <=? StockBuffer.minimum_quantity b)
                       (stock_buffers db (snd ks))
              | None => false
              end)
           (map_to_list (stocks db)))
  end.

End StockViewSet.

Module AdjustmentViewSet.

(** [approve]; [if adjustment.approved_by:] holds when an approver is set. *)
Definition approve (now : datetime) (request : Request) (pk : positive)
    (db : DB) : Response Adjustment.t * DB :=
  match adjustments db !! pk with
  | None => (HTTP_404, db)
  | Some adjustment =>
      match Adjustment.approved_by adjustment with
      | Some _ => (HTTP_400 "Adjustment already approved", db)
      | None =>
          let adjustment :=
            Adjustment.set_approved_by (Some (user request)) adjustment in
          let adjustment :=
            Adjustment.set_approved_at (VStr (raw_host request)) adjustment in
          save_and_respond
            (Adjustment.save now (Some pk) adjustment (adjustments db))
            set_adjustments db
      end
  end.

End AdjustmentViewSet.

Module TransferViewSet.

Definition approve (now : datetime) (request : Request) (pk : positive)
    (db : DB) : Response Transfer.t * DB :=
  match transfers db !! pk with
  | None => (HTTP_404, db)
  | Some transfer =>
      if negb (String.eqb (Transfer.status transfer) "pending")
      then (HTTP_400 "Transfer is not pending", db)
      else
        let transfer :=
          Transfer.set_approved_by (Some (user request)) transfer in
        let transfer :=
          Transfer.set_approved_at (VStr (raw_host request)) transfer in
        let transfer := Transfer.set_status "approved" transfer in
        save_and_respond
          (Transfer.save now (Some pk) transfer (transfers db))
          set_transfers db
  end.

Definition execute (now : datetime) (request : Request) (pk : positive)
    (db : DB) : Response Transfer.t * DB :=
  match transfers db !! pk with
  | None => (HTTP_404, db)
  | Some transfer =>
      if negb (String.eqb (Transfer.status transfer) "approved")
      then (HTTP_400 "Transfer must be approved first", db)
      else
        let transfer :=
          Transfer.set_transferred_by (Some (user request)) transfer in
        let transfer :=
          Transfer.set_transferred_at (VStr (raw_host request)) transfer in
        let transfer := Transfer.set_status "completed" transfer in
        save_and_respond
          (Transfer.save now (Some pk) transfer (transfers db))
          set_transfers db
  end.

End TransferViewSet.

(** ** operations/views.py *)

Module ReceivingViewSet.

Definition inspect (now : datetime) (request : Request) (pk : positive)
    (db : DB) : Response Receiving.t * DB :=
  match receivings db !! pk with
  | None => (HTTP_404, db)
  | Some receiving =>
      let receiving :=
        Receiving.set_inspected_by (Some (user request)) receiving in
      let receiving :=
        Receiving.set_inspected_at (VStr (raw_host request)) receiving in
      let receiving := Receiving.set_status "inspected" receiving in
      save_and_respond
        (Receiving.save now (Some pk) receiving (receivings db))
        set_receivings db
  end.

Definition approve (now : datetime) (request : Request) (pk : positive)
    (db : DB) : Response Receiving.t * DB :=
  match receivings db !! pk with
  | None => (HTTP_404, db)
  | Some receiving =>
      let receiving :=
        Receiving.set_approved_by (Some (user request)) receiving in
      let receiving :=
        Receiving.set_approved_at (VStr (raw_host request)) receiving in
      let receiving := Receiving.set_status "approved" receiving in
      save_and_respond
        (Receiving.save now (Some pk) receiving (receivings db))
        set_receivings db
  end.

Definition reject (now : datetime) (request : Request) (pk : positive)
    (db : DB) : Response Receiving.t * DB :=
  match receivings db !! pk with
  | None => (HTTP_404, db)
  | Some receiving =>
      let receiving := Receiving.set_status "rejected" receiving in
      let receiving :=
        Receiving.set_rejection_reason
          (data_get request "reason" (VStr EmptyString)) receiving in
      save_and_respond
        (Receiving.save now (Some pk) receiving (receivings db))
        set_receivings db
  end.

End ReceivingViewSet.

Module ShipmentViewSet.

Definition pack (now : datetime) (request : Request) (pk : positive)
    (db : DB) : Response Shipment.t * DB :=
  match shipments db !! pk with
  | None => (HTTP_404, db)
  | Some shipment =>
      let shipment :=
        Shipment.set_packed_at (VStr (raw_host request)) shipment in
      let shipment := Shipment.set_status "packed" shipment in
      save_and_respond
        (Shipment.save now (Some pk) shipment (shipments db))
        set_shipments db
  end.

Definition ship (now : datetime) (request : Request) (pk : positive)
    (db : DB) : Response Shipment.t * DB :=
  match shipments db !! pk with
  | None => (HTTP_404, db)
  | Some shipment =>
      let shipment := Shipment.set_shipped_by (Some (user request)) shipment in
      let shipment :=
        Shipment.set_shipped_at (VStr (raw_host request)) shipment in
      let shipment :=
        Shipment.set_carrier (data_get request "carrier" VNone) shipment in
      let shipment :=
        Shipment.set_tracking_number
          (data_get request "tracking_number" VNone) shipment in
      let shipment := Shipment.set_status "shipped" shipment in
      save_and_respond
        (Shipment.save now (Some pk) shipment (shipments db))
        set_shipments db
  end.

Definition deliver (now : datetime) (request : Request) (pk : positive)
    (db : DB) : Response Shipment.t * DB :=
  match shipments db !! pk with
  | None => (HTTP_404, db)
  | Some shipment =>
      let shipment :=
        Shipment.set_delivered_at (VStr (raw_host request)) shipment in
      let shipment := Shipment.set_status "delivered" shipment in
      save_and_respond
        (Shipment.save now (Some pk) shipment (shipments db))
        set_shipments db
  end.

End ShipmentViewSet.

Module ReturnViewSet.

Definition inspect (now : datetime) (request : Request) (pk : positive)
    (db : DB) : Response Return.t * DB :=
  match returns db !! pk with
  | None => (HTTP_404, db)
  | Some return_record =>
      let return_record :=
        Return.set_inspected_by (Some (user request)) return_record in
      let return_record :=
        Return.set_inspected_at (VStr (raw_host request)) return_record in
      let return_record := Return.set_status "inspected" return_record in
      save_and_respond
        (Return.save now (Some pk) return_record (returns db))
        set_returns db
  end.

Definition approve (now : datetime) (request : Request) (pk : positive)
    (db : DB) : Response Return.t * DB :=
  match returns db !! pk with
  | None => (HTTP_404, db)
  | Some return_record =>
      let return_record :=
        Return.set_approved_by (Some (user request)) return_record in
      let return_record :=
        Return.set_approved_at (VStr (raw_host request)) return_record in
      let return_record :=
        Return.set_refund_amount
          (data_get request "refund_amount" VNone) return_record in
      let return_record := Return.set_status "approved" return_record in
      save_and_respond
        (Return.save now (Some pk) return_record (returns db))
        set_returns db
  end.

Definition process (now : datetime) (request : Request) (pk : positive)
    (db : DB) : Response Return.t * DB :=
  match returns db !! pk with
  | None => (HTTP_404, db)
  | Some return_record =>
      let return_record :=
        Return.set_processed_by (Some (user request)) return_record in
      let return_record :=
        Return.set_processed_at (VStr (raw_host request)) return_record in
      let return_record := Return.set_status "processed" return_record in
      save_and_respond
        (Return.save now (Some pk) return_record (returns db))
        set_returns db
  end.

End ReturnViewSet.

Module OrderViewSet.

Definition confirm (now : datetime) (request : Request) (pk : positive)
    (db : DB) : Response Order.t * DB :=
  match orders db !! pk with
  | None => (HTTP_404, db)
  | Some order =>
      let order := Order.set_status "confirmed" order in
      save_and_respond (Order.save now (Some pk) order (orders db))
        set_orders db
  end.

Definition process (now : datetime) (request : Request) (pk : positive)
    (db : DB) : Response Order.t * DB :=
  match orders db !! pk with
  | None => (HTTP_404, db)
  | Some order =>
      let order := Order.set_processed_by (Some (user request)) order in
      let order := Order.set_processed_at (VStr (raw_host request)) order in
      let order := Order.set_status "processing" order in
      save_and_respond (Order.save now (Some pk) order (orders db))
        set_orders db
  end.

Definition ship (now : datetime) (request : Request) (pk : positive)
    (db : DB) : Response Order.t * DB :=
  match orders db !! pk with
  | None => (HTTP_404, db)
  | Some order =>
      let order := Order.set_shipped_at (VStr (raw_host request)) order in
      let order := Order.set_status "shipped" order in
      save_and_respond (Order.save now (Some pk) order (orders db))
        set_orders db
  end.

Definition deliver (now : datetime) (request : Request) (pk : positive)
    (db : DB) : Response Order.t * DB :=
  match orders db !! pk with
  | None => (HTTP_404, db)
  | Some order =>
      let order := Order.set_delivered_at (VStr (raw_host request)) order in
      let order := Order.set_status "delivered" order in
      save_and_respond (Order.save now (Some pk) order (orders db))
        set_orders db
  end.

End OrderViewSet.

(** ** analytics/views.py *)

Module Analytics.

(** A row of the [low_stock_items] query: the stock row with the product
    and the warehouse its foreign keys join. *)
Record low_stock_item := {
  stock_pk : positive;
  stock : Stock.t;
  product : Product.t;
  warehouse : Warehouse.t
}.

(** [annotate(shortage=F('product__reorder_point') - F('quantity_available'))] *)
Definition shortage (item : low_stock_item) : Z :=
  Product.reorder_point (product item) - Stock.quantity_available (stock item).

Definition shortage_le (a b : low_stock_item) : Prop := shortage a ≤ shortage b.

#[global] Instance shortage_le_dec : RelDecision shortage_le :=
  λ a b, decide (shortage a ≤ shortage b).

Definition join (db : DB) (ks : positive * Stock.t) : option low_stock_item :=
  p ← products db !! Stock.product (snd ks);
  w ← warehouses db !! Stock.warehouse (snd ks);
  Some {| stock_pk := fst ks; stock := snd ks; product := p; warehouse := w |}.

(** [Stock.objects.filter(quantity_available__lte=F('product__reorder_point'))
     .values(...).annotate(shortage=...).order_by('shortage')] *)
Definition low_stock_items (db : DB) : list low_stock_item :=
  merge_sort shortage_le
    (List.filter
       (λ item, Stock.quantity_available (stock item)
                <=? Product.reorder_point (product item))
       (omap (join db) (map_to_list (stocks db)))).

(** One dictionary of the report. *)
Record report_row := {
  product_id : positive;
  product_name : string;
  product_sku : string;
  minimum_stock : Z;
  current_quantity : Z;
  row_shortage : Z;
  warehouse_name : string
}.

Definition report_row_of (item : low_stock_item) : report_row :=
  {| product_id := Stock.product (stock item);
     product_name := Product.name (product item);
     product_sku := Product.sku (product item);
     minimum_stock := Product.minimum_stock (product item);
     current_quantity := Stock.quantity_available (stock item);
     row_shortage := Z.max 0 (shortage item);
     warehouse_name := Warehouse.name (warehouse item) |}.

Definition low_stock_report (db : DB) : Response (list report_row) :=
  HTTP_200 (report_row_of <$> low_stock_items db).

End Analytics.

(** ** Frames *)

(** The stock ledger and the master data it points to are the same in both. *)
Definition same_ledger (db db' : DB) : Prop :=
  stocks db' = stocks db ∧ stock_buffers db' = stock_buffers db
  ∧ products db' = products db ∧ warehouses db' = warehouses db.

(** The documents of operations/models.py are the same in both. *)
Definition same_operations (db db' : DB) : Prop :=
  receivings db' = receivings db ∧ shipments db' = shipments db
  ∧ returns db' = returns db ∧ orders db' = orders db.


(** ** Sample rows *)

Module Sample.

Definition now : datetime := {| dt_year := 2025; dt_clock := 86400 |}.

Definition request : Request :=
  {| user := 7%positive; raw_host := "localhost:8000"; data := ∅ |}.

Definition audit : AuditFields.t :=
  {| AuditFields.created_at := VNone; AuditFields.updated_at := VNone;
     AuditFields.created_by := None; AuditFields.updated_by := None |}.

(** A new adjustment, as the serializer builds it: no number yet. *)
Definition adjustment : Adjustment.t :=
  {| Adjustment.audit := audit; Adjustment.adjustment_no := EmptyString;
     Adjustment.product_id := 1; Adjustment.warehouse_id := 1;
     Adjustment.location_id := 1; Adjustment.previous_qty := 10;
     Adjustment.adjusted_qty := 8; Adjustment.adjustment_type := "decrease";
     Adjustment.category := "damage"; Adjustment.reason := "broken";
     Adjustment.adjusted_by := 3%positive; Adjustment.approved_by := None;
     Adjustment.approved_at := VNone; Adjustment.cost_impact := None |}.

(** A stored adjustment that user 5 has approved. *)
Definition approved_adjustment : Adjustment.t :=
  Adjustment.set_approved_at (VDatetime now)
    (Adjustment.set_approved_by (Some 5%positive)
       (Adjustment.set_adjustment_no "ADJ-2025-001" adjustment)).

(** A stored transfer in status [pending]. *)
Definition transfer : Transfer.t :=
  {| Transfer.audit := audit; Transfer.transfer_no := "TRF-2025-001";
     Transfer.from_warehouse_id := 1; Transfer.from_location_id := 1;
     Transfer.to_warehouse_id := 2; Transfer.to_location_id := 2;
     Transfer.product_id := 1; Transfer.quantity := 10;
     Transfer.unit_cost := 250; Transfer.requested_by := 3%positive;
     Transfer.approved_by := None; Transfer.transferred_by := None;
     Transfer.status := "pending"; Transfer.requested_at := VDatetime now;
     Transfer.approved_at := VNone; Transfer.transferred_at := VNone;
     Transfer.notes := None |}.

(** A stored receiving in status [draft]. *)
Definition receiving : Receiving.t :=
  {| Receiving.audit := audit; Receiving.receiving_no := "RCV-2025-001";
     Receiving.supplier_id := 1; Receiving.purchase_order_no := None;
     Receiving.warehouse_id := 1; Receiving.location_id := 1;
     Receiving.received_by := 3%positive;
     Receiving.received_at := VDatetime now; Receiving.status := "draft";
     Receiving.inspected_by := None; Receiving.inspected_at := VNone;
     Receiving.approved_by := None; Receiving.approved_at := VNone;
     Receiving.notes := None; Receiving.rejection_reason := VNone |}.

(** A stored shipment in status [draft]. *)
Definition shipment : Shipment.t :=
  {| Shipment.audit := audit; Shipment.shipment_no := "SHP-2025-001";
     Shipment.order_no := "ORD-2025-001"; Shipment.customer_name := "Ana";
     Shipment.customer_address := "Manila"; Shipment.warehouse_id := 1;
     Shipment.location_id := 1; Shipment.packed_by := 3%positive;
     Shipment.packed_at := VNone; Shipment.shipped_by := None;
     Shipment.shipped_at := VNone; Shipment.delivered_at := VNone;
     Shipment.carrier := VNone; Shipment.tracking_number := VNone;
     Shipment.status := "draft"; Shipment.notes := None |}.

(** A stored return in status [received]. *)
Definition return_record : Return.t :=
  {| Return.audit := audit; Return.return_no := "RTN-2025-001";
     Return.original_order_no := "ORD-2025-001";
     Return.customer_name := "Ana"; Return.customer_address := "Manila";
     Return.return_reason := "defective"; Return.received_by := 3%positive;
     Return.received_at := VDatetime now; Return.inspected_by := None;
     Return.inspected_at := VNone; Return.approved_by := None;
     Return.approved_at := VNone; Return.processed_by := None;
     Return.processed_at := VNone; Return.status := "received";
     Return.refund_amount := VNone; Return.notes := None;
     Return.rejection_reason := None |}.

(** A new order: subtotal 100, tax 8, shipping 5, discount 10. *)
Definition order : Order.t :=
  {| Order.audit := audit; Order.order_no := EmptyString;
     Order.customer_name := "Ana"; Order.customer_email := "ana@example.com";
     Order.customer_phone := "555"; Order.customer_address := "Manila";
     Order.order_type := "standard"; Order.status := "pending";
     Order.subtotal := 10000; Order.tax_amount := 800;
     Order.shipping_amount := 500; Order.discount_amount := 1000;
     Order.total_amount := 0; Order.processed_by := None;
     Order.processed_at := VNone; Order.shipped_at := VNone;
     Order.delivered_at := VNone; Order.customer_notes := None;
     Order.internal_notes := None |}.

(** A stored order in status [delivered]. *)
Definition delivered_order : Order.t :=
  Order.set_status "delivered" (Order.set_order_no "ORD-2025-001" order).

(** A stock row whose quantities are all zero, with a cost of 2.50 and a
    total value of 10.00 left from before. *)
Definition empty_stock : Stock.t :=
  {| Stock.audit := audit; Stock.product := 1%positive;
     Stock.warehouse := 1%positive; Stock.location := 1%positive;
     Stock.quantity_available := 0; Stock.quantity_reserved := 0;
     Stock.quantity_allocated := 0; Stock.lot_number := None;
     Stock.expiry_date := VNone; Stock.manufacturing_date := VNone;
     Stock.unit_cost := Some 250; Stock.total_value := Some 1000 |}.

(** Five pieces available of a product whose reorder point is 3 and whose
    stock buffer asks for a minimum of 10. *)
Definition stock : Stock.t :=
  {| Stock.audit := audit; Stock.product := 1%positive;
     Stock.warehouse := 1%positive; Stock.location := 1%positive;
     Stock.quantity_available := 5; Stock.quantity_reserved := 0;
     Stock.quantity_allocated := 0; Stock.lot_number := None;
     Stock.expiry_date := VNone; Stock.manufacturing_date := VNone;
     Stock.unit_cost := Some 250; Stock.total_value := Some 1250 |}.

Definition product : Product.t :=
  {| Product.sku := "SKU-1"; Product.name := "Widget";
     Product.minimum_stock := 0; Product.maximum_stock := None;
     Product.reorder_point := 3 |}.

Definition warehouse : Warehouse.t :=
  {| Warehouse.code := "WH-001"; Warehouse.name := "Main" |}.

Definition stock_buffer : StockBuffer.t :=
  {| StockBuffer.audit := audit; StockBuffer.product := 1%positive;
     StockBuffer.warehouse := 1%positive; StockBuffer.minimum_quantity := 10;
     StockBuffer.maximum_quantity := None; StockBuffer.reorder_point := 3;
     StockBuffer.lead_time_days := 1; StockBuffer.safety_factor := 20 |}.

(** The same tables after user 5 approved the transfer. *)
Definition approved_transfer : Transfer.t :=
  Transfer.set_status "approved"
    (Transfer.set_approved_by (Some 5%positive) transfer).

Definition db : DB :=
  {| products := {[1%positive := product]};
     warehouses := {[1%positive := warehouse]};
     stocks := {[1%positive := stock]};
     stock_buffers := {[1%positive := stock_buffer]};
     adjustments := {[1%positive := approved_adjustment]};
     transfers := {[1%positive := transfer]};
     receivings := {[1%positive := receiving]};
     shipments := {[1%positive := shipment]};
     returns := {[1%positive := return_record]};
     orders := {[1%positive := delivered_order]} |}.

(** Two pieces available of the same product: at or below its reorder
    point. *)
Definition low_stock : Stock.t :=
  {| Stock.audit := audit; Stock.product := 1%positive;
     Stock.warehouse := 1%positive; Stock.location := 1%positive;
     Stock.quantity_available := 2; Stock.quantity_reserved := 0;
     Stock.quantity_allocated := 0; Stock.lot_number := None;
     Stock.expiry_date := VNone; Stock.manufacturing_date := VNone;
     Stock.unit_cost := Some 250; Stock.total_value := None |}.

Definition db_low : DB :=
  {| products := {[1%positive := product]};
     warehouses := {[1%positive := warehouse]};
     stocks := {[1%positive := low_stock]};
     stock_buffers := ∅;
     adjustments := ∅; transfers := ∅; receivings := ∅; shipments := ∅;
     returns := ∅; orders := ∅ |}.


End Sample.

From Stdlib Require DecimalPos DecimalZ.

(** ** More Python built-ins *)

Module PyStr.

(** [sep.join(parts)] *)
Fixpoint join (sep : string) (parts : list string) : string :=
  match parts with
  | [] => EmptyString
  | part :: rest =>
      match rest with
      | [] => part
      | _ :: _ => part +:+ sep +:+ join sep rest
      end
  end.

(** Every character is one of 0 to 9. *)
Fixpoint all_digits (s : string) : bool :=
  match s with
  | EmptyString => true
  | String c s' =>
      match Py.digit_value c with
      | Some _ => all_digits s'
      | None => false
      end
  end.

(** [s.isdigit()] on ASCII text: not empty, and digits only. *)
Definition isdigit (s : string) : bool :=
  match s with
  | EmptyString => false
  | String _ _ => all_digits s
  end.

(** [sep in s] for a one-character separator. *)
Fixpoint contains (sep : ascii) (s : string) : bool :=
  match s with
  | EmptyString => false
  | String c s' => Ascii.eqb c sep || contains sep s'
  end.

End PyStr.

(** ** master/models.py: locations *)

Module Location.
Record t := {
  audit : AuditFields.t;
  warehouse : positive;  (* ForeignKey(Warehouse) *)
  zone : string;  (* default 'storage' *)
  aisle : option string;
  rack : string;
  bin : string;
  level : option Z;
  code : string;  (* unique *)
  barcode : option string;
  capacity : option Z;
  current_utilization : Z;  (* hundredths *)
  description : option string;
  status : string  (* default 'active' *)
}.

Definition set_audit (v : AuditFields.t) (r : t) : t :=
  {| audit := v; warehouse := warehouse r; zone := zone r; aisle := aisle r;
     rack := rack r; bin := bin r; level := level r; code := code r;
     barcode := barcode r; capacity := capacity r;
     current_utilization := current_utilization r;
     description := description r; status := status r |}.

Definition set_code (v : string) (r : t) : t :=
  {| audit := audit r; warehouse := warehouse r; zone := zone r;
     aisle := aisle r; rack := rack r; bin := bin r; level := level r;
     code := v; barcode := barcode r; capacity := capacity r;
     current_utilization := current_utilization r;
     description := description r; status := status r |}.

(** [unique_together = ['warehouse', 'aisle', 'rack', 'bin', 'level']]; a
    null aisle or level equals no other. *)
Definition same_place (a b : t) : bool :=
  Pos.eqb (warehouse a) (warehouse b)
  && match aisle a, aisle b with
     | Some x, Some y => String.eqb x y
     | _, _ => false
     end
  && String.eqb (rack a) (rack b) && String.eqb (bin a) (bin b)
  && match level a, level b with
     | Some x, Some y => x =? y
     | _, _ => false
     end.

#[global] Instance model : Orm.Model t := {|
  Orm.pre_save now adding r :=
    set_audit (AuditFields.pre_save now adding (audit r)) r;
  Orm.unique_clash a b := String.eqb (code a) (code b) || same_place a b
|}.

(** The list built by [save]: [if self.aisle:] holds for an aisle that is
    neither [None] nor empty, [if self.level:] for a level that is neither
    [None] nor 0. *)
Definition parts (self : t) : list string :=
  (match aisle self with
   | Some a => if String.eqb a EmptyString then [] else [a]
   | None => []
   end)
  ++ [rack self; bin self]
  ++ (match level self with
      | Some n => if n =? 0 then [] else [Py.str n]
      | None => []
      end).

(** [save]: the code is derived when the instance has none. *)
Definition save (now : datetime) (pk : option positive) (self : t)
    (table : gmap positive t) : Orm.result (gmap positive t * positive * t) :=
  let self :=
    if String.eqb (code self) EmptyString
    then set_code (PyStr.join "-" (parts self)) self
    else self in
  Orm.save_base now pk self table.
End Location.

(** ** operations/models.py: order lines *)

Module OrderItem.
Record t := {
  order : positive;  (* ForeignKey(Order) *)
  product_id : Z;
  quantity : Z;
  unit_price : Z;  (* hundredths *)
  discount_percent : Z  (* hundredths of a percent *)
}.

End OrderItem.

(** ** Aggregates of the persistence layer *)

Module Aggregate.

(** [Count(column, distinct=True)] *)
Definition count_distinct (keys : list positive) : Z :=
  Z.of_nat (size (list_to_set keys : gset positive)).

(** [Sum(column)]: null values are skipped, and the sum of no value is null. *)
Definition sum (values : list (option Z)) : option Z :=
  match omap id values with
  | [] => None
  | x :: xs => Some (foldr Z.add 0 (x :: xs))
  end.

(** [Count('id', filter=Q(...))] and [.filter(...).count()] *)
Definition count {A : Type} (f : A → bool) (rows : list A) : Z :=
  Z.of_nat (length (List.filter f rows)).

End Aggregate.

(** ** inventory/views.py, operations/views.py, analytics/views.py: the
       summaries *)

Module Summary.

Definition stock_rows (db : DB) : list Stock.t := snd <$> map_to_list (stocks db).

(** [quantity_available__lte=F('product__reorder_point')] *)
Definition at_reorder_point (db : DB) (stock : Stock.t) : bool :=
  match StockViewSet.product_reorder_point db stock with
  | Some reorder_point => Stock.quantity_available stock <=? reorder_point
  | None => false
  end.

Record stock_summary := {
  total_products : Z;
  total_warehouses : Z;
  total_value : option Z;
  total_quantity : option Z;
  low_stock_items : Z
}.

(** [StockViewSet.summary] *)
Definition StockViewSet_summary (db : DB) : stock_summary :=
  {| total_products := Aggregate.count_distinct (Stock.product <$> stock_rows db);
     total_warehouses :=
       Aggregate.count_distinct (Stock.warehouse <$> stock_rows db);
     total_value := Aggregate.sum (Stock.total_value <$> stock_rows db);
     total_quantity :=
       Aggregate.sum ((λ s, Some (Stock.quantity_available s)) <$> stock_rows db);
     low_stock_items := Aggregate.count (at_reorder_point db) (stock_rows db) |}.

Record inventory := {
  inv_total_products : Z;
  inv_total_warehouses : Z;
  inv_total_locations : Z;
  inv_total_stock_value : option Z;
  inv_total_quantity : option Z;
  inv_active_products : Z;
  inv_low_stock_items : Z
}.

(** [inventory_summary] of analytics/views.py *)
Definition inventory_summary (db : DB) : inventory :=
  {| inv_total_products :=
       Aggregate.count_distinct (Stock.product <$> stock_rows db);
     inv_total_warehouses :=
       Aggregate.count_distinct (Stock.warehouse <$> stock_rows db);
     inv_total_locations :=
       Aggregate.count_distinct (Stock.location <$> stock_rows db);
     inv_total_stock_value := Aggregate.sum (Stock.total_value <$> stock_rows db);
     inv_total_quantity :=
       Aggregate.sum ((λ s, Some (Stock.quantity_available s)) <$> stock_rows db);
     inv_active_products :=
       Aggregate.count_distinct
         (Stock.product
          <$> List.filter (λ s, 0 <? Stock.quantity_available s) (stock_rows db));
     inv_low_stock_items :=
       Aggregate.count (at_reorder_point db) (stock_rows db) |}.

Definition order_rows (db : DB) : list Order.t := snd <$> map_to_list (orders db).

Record order_summary := {
  total_orders : Z;
  pending_orders : Z;
  processing_orders : Z;
  shipped_orders : Z;
  delivered_orders : Z;
  total_revenue : option Z
}.

Definition has_status (status : string) (order : Order.t) : bool :=
  String.eqb (Order.status order) status.

(** [OrderViewSet.summary] *)
Definition OrderViewSet_summary (db : DB) : order_summary :=
  {| total_orders := Aggregate.count (λ _, true) (order_rows db);
     pending_orders := Aggregate.count (has_status "pending") (order_rows db);
     processing_orders :=
       Aggregate.count (has_status "processing") (order_rows db);
     shipped_orders := Aggregate.count (has_status "shipped") (order_rows db);
     delivered_orders :=
       Aggregate.count (has_status "delivered") (order_rows db);
     total_revenue :=
       Aggregate.sum ((λ o, Some (Order.total_amount o)) <$> order_rows db) |}.

(** The orders outside the four statuses the summary counts. *)
Definition uncounted (order : Order.t) : bool :=
  negb (has_status "pending" order || has_status "processing" order
        || has_status "shipped" order || has_status "delivered" order).



End Summary.

(** ** inventory/views.py: the pending lists and the buffer of a product *)

Module Pending.

(** Later date-times first; the columns ordered by are never null in the
    table, and values that are no date-times are not told apart. *)
Definition newer_first (a b : value) : Prop :=
  match a, b with
  | VDatetime x, VDatetime y =>
      dt_year y < dt_year x ∨ (dt_year y = dt_year x ∧ dt_clock y ≤ dt_clock x)
  | _, _ => True
  end.

#[global] Instance newer_first_dec : RelDecision newer_first :=
  λ a b,
    match a as a', b as b' return Decision (newer_first a' b') with
    | VDatetime x, VDatetime y =>
        decide (dt_year y < dt_year x
                ∨ (dt_year y = dt_year x ∧ dt_clock y ≤ dt_clock x))
    | _, _ => left I
    end.

Definition adjustment_order (a b : positive * Adjustment.t) : Prop :=
  newer_first (AuditFields.created_at (Adjustment.audit (snd a)))
              (AuditFields.created_at (Adjustment.audit (snd b))).

#[global] Instance adjustment_order_dec : RelDecision adjustment_order :=
  λ a b, newer_first_dec _ _.

Definition transfer_order (a b : positive * Transfer.t) : Prop :=
  newer_first (Transfer.requested_at (snd a)) (Transfer.requested_at (snd b)).

#[global] Instance transfer_order_dec : RelDecision transfer_order :=
  λ a b, newer_first_dec _ _.



End Pending.

Module StockBufferViewSet.

Inductive exn :=
| ValueError
| MultipleObjectsReturned.

(** The responses of [by_product]; here the 400 and the 404 both carry an
    error message. *)
Inductive Reply :=
| Reply_200 (pk : positive) (body : StockBuffer.t)
| Reply_400 (error : string)
| Reply_404 (error : string)
| Reply_500 (e : exn).

(** [by_product], on the value of [request.query_params.get('product_id')].
    [StockBuffer.objects.get(product_id=...)] turns the text into a number
    with [int]. *)
Definition by_product (product_id : option string) (db : DB) : Reply :=
  match product_id with
  | None => Reply_400 "product_id parameter required"
  | Some param =>
      if String.eqb param EmptyString
      then Reply_400 "product_id parameter required"
      else
        match Py.int param with
        | None => Reply_500 ValueError
        | Some n =>
            match List.filter
                    (λ kb, Z.pos (StockBuffer.product (snd kb)) =? n)
                    (map_to_list (stock_buffers db)) with
            | [] => Reply_404 "Stock buffer not found"
            | [kb] => Reply_200 (fst kb) (snd kb)
            | _ :: _ :: _ => Reply_500 MultipleObjectsReturned
            end
        end
  end.

End StockBufferViewSet.

(** ** What the number block promises *)

Module Numbering.

(** [PREFIX-YYYY-] followed by three digits or more and nothing else. *)
Definition generated (prefix : string) (year : Z) (s : string) : Prop :=
  ∃ d, s = Orm.year_prefix prefix year +:+ d
       ∧ PyStr.all_digits d = true ∧ (3 ≤ String.length d)%nat.

(** Every number of the table with the prefix of the year has that shape. *)
Definition well_numbered {R : Type} `{Orm.Numbered R} (prefix : string)
    (year : Z) (t : gmap positive R) : Prop :=
  ∀ s, s ∈ Orm.numbers t →
       Py.startswith (Orm.year_prefix prefix year) s = true →
       generated prefix year s.

(** A successful [save] stores the instance, with the number it had or, when
    it had none, with a generated one. *)
Definition numbers_every_document {R : Type} `{Orm.Numbered R}
    (save : datetime → option positive → R → gmap positive R
            → Orm.result (gmap positive R * positive * R))
    (prefix : string) : Prop :=
  ∀ now pk obj t t' key saved,
    save now pk obj t = Orm.Ok (t', key, saved) →
    t' !! key = Some saved
    ∧ (Orm.number obj ≠ EmptyString → Orm.number saved = Orm.number obj)
    ∧ (Orm.number obj = EmptyString →
       generated prefix (dt_year now) (Orm.number saved)).

(** In a well-numbered table the creation of a document without a number
    either succeeds and leaves the table well numbered, or fails on the
    unique constraint; [int] never fails. *)
Definition never_unparsable {R : Type} `{Orm.Numbered R}
    (save : datetime → option positive → R → gmap positive R
            → Orm.result (gmap positive R * positive * R))
    (prefix : string) : Prop :=
  ∀ now obj t,
    well_numbered prefix (dt_year now) t → Orm.number obj = EmptyString →
    save now None obj t = Orm.Raise Orm.IntegrityError
    ∨ ∃ t' key saved,
        save now None obj t = Orm.Ok (t', key, saved)
        ∧ well_numbered prefix (dt_year now) t'.

(** A stored number of the year that is the greatest in text order and whose
    last piece is no number stops every creation of that year. *)
Definition blocked_by_unparsable {R : Type} `{Orm.Numbered R}
    (save : datetime → option positive → R → gmap positive R
            → Orm.result (gmap positive R * positive * R))
    (prefix : string) : Prop :=
  ∀ now obj t s,
    s ∈ Orm.numbers t →
    Py.startswith (Orm.year_prefix prefix (dt_year now)) s = true →
    Py.int (Py.last_piece s) = None →
    (∀ s', s' ∈ Orm.numbers t →
           Py.startswith (Orm.year_prefix prefix (dt_year now)) s' = true →
           Orm.str_lt s s' = false) →
    Orm.number obj = EmptyString →
    save now None obj t = Orm.Raise Orm.ValueError.

(** Documents of one year do not count for another: after a first batch of
    new documents in year [y], a batch in year [y'] is numbered from 001. *)
Definition restarts_each_year {R : Type} `{Orm.Numbered R}
    (save : datetime → option positive → R → gmap positive R
            → Orm.result (gmap positive R * positive * R))
    (prefix : string) : Prop :=
  ∀ y y' objs objs' t,
    0 ≤ y → 0 ≤ y' → y ≠ y' →
    (length objs ≤ 1000)%nat → (length objs' ≤ 1000)%nat →
    Orm.blank_in_year y objs → Orm.blank_in_year y' objs' →
    Orm.no_number_of_year prefix y t → Orm.no_number_of_year prefix y' t →
    ∃ t1 saved t2 saved',
      Orm.create_all save objs t = Orm.Ok (t1, saved)
      ∧ Orm.create_all save objs' t1 = Orm.Ok (t2, saved')
      ∧ Orm.number <$> saved = Orm.year_sequence prefix y (length objs)
      ∧ Orm.number <$> saved' = Orm.year_sequence prefix y' (length objs').

End Numbering.

(** ** More sample rows *)

Module Fixture.

Definition next_year : datetime := {| dt_year := 2026; dt_clock := 3600 |}.

(** An adjustment stored with a number that was typed in by hand. *)
Definition hand_numbered_adjustment : Adjustment.t :=
  Adjustment.set_adjustment_no "ADJ-2025-A01" Sample.adjustment.



End Fixture.

(** ** Frames of the operations views *)

Module Frame.

(** The documents of inventory/models.py are the same in both. *)
Definition same_inventory (db db' : DB) : Prop :=
  adjustments db' = adjustments db ∧ transfers db' = transfers db.

(** [db'] differs from [db] at most in the receiving [pk]. *)
Definition only_receiving (pk : positive) (db db' : DB) : Prop :=
  same_ledger db db' ∧ same_inventory db db'
  ∧ shipments db' = shipments db ∧ returns db' = returns db
  ∧ orders db' = orders db
  ∧ ∀ k, k ≠ pk → receivings db' !! k = receivings db !! k.

(** [db'] differs from [db] at most in the shipment [pk]. *)
Definition only_shipment (pk : positive) (db db' : DB) : Prop :=
  same_ledger db db' ∧ same_inventory db db'
  ∧ receivings db' = receivings db ∧ returns db' = returns db
  ∧ orders db' = orders db
  ∧ ∀ k, k ≠ pk → shipments db' !! k = shipments db !! k.

(** [db'] differs from [db] at most in the return [pk]. *)
Definition only_return (pk : positive) (db db' : DB) : Prop :=
  same_ledger db db' ∧ same_inventory db db'
  ∧ receivings db' = receivings db ∧ shipments db' = shipments db
  ∧ orders db' = orders db
  ∧ ∀ k, k ≠ pk → returns db' !! k = returns db !! k.

(** [db'] differs from [db] at most in the order [pk]. *)
Definition only_order (pk : positive) (db db' : DB) : Prop :=
  same_ledger db db' ∧ same_inventory db db'
  ∧ receivings db' = receivings db ∧ shipments db' = shipments db
  ∧ returns db' = returns db
  ∧ ∀ k, k ≠ pk → orders db' !! k = orders db !! k.

End Frame.

(** ** Further sample rows *)

Module Fixture2.

(** Aisle A, rack 01, bin 02, level 1, in [warehouse]; no code yet. *)
Definition location (warehouse : positive) : Location.t :=
  {| Location.audit := Sample.audit; Location.warehouse := warehouse;
     Location.zone := "storage"; Location.aisle := Some "A";
     Location.rack := "01"; Location.bin := "02"; Location.level := Some 1;
     Location.code := EmptyString; Location.barcode := None;
     Location.capacity := None; Location.current_utilization := 0;
     Location.description := None; Location.status := "active" |}.


End Fixture2.

(** [OneToOneField(Product)]: no two stock buffers of one product. *)
Definition one_buffer_per_product (db : DB) : Prop :=
  ∀ k k' buffer buffer',
    stock_buffers db !! k = Some buffer →
    stock_buffers db !! k' = Some buffer' →
    StockBuffer.product buffer = StockBuffer.product buffer' → k = k'.


(** * Properties *)

(** ** Text helpers *)

Lemma append_nil (b : string) : EmptyString +:+ b = b.
Proof. reflexivity. Qed.

Lemma append_cons (x : ascii) (a b : string) :
  String x a +:+ b = String x (a +:+ b).
Proof. reflexivity. Qed.

Lemma append_assoc (a b c : string) : (a +:+ b) +:+ c = a +:+ (b +:+ c).
Proof.
  induction a as [|x a IH]; [done |]. by rewrite !append_cons, IH.
Qed.

Lemma append_inj_l (p a b : string) : p +:+ a = p +:+ b → a = b.
Proof.
  induction p as [|x p IH]; [done |].
  rewrite !append_cons. intros [= E]. auto.
Qed.

Lemma startswith_append (p s : string) : Py.startswith p (p +:+ s) = true.
Proof.
  unfold Py.startswith. induction p as [|x p IH].
  - by destruct s.
  - rewrite append_cons. simpl. destruct (ascii_dec x x) as [_|Hne]; [exact IH | by destruct Hne].
Qed.

Lemma startswith_exists (p s : string) :
  Py.startswith p s = true → ∃ rest, s = p +:+ rest.
Proof.
  unfold Py.startswith. revert s. induction p as [|x p IH]; intros s Hs.
  - by exists s.
  - destruct s as [|y s]; simpl in Hs; [done |].
    destruct (ascii_dec x y) as [->|]; [| done].
    destruct (IH s Hs) as [rest ->]. by exists rest.
Qed.

Lemma split_nonempty (sep : ascii) (s : string) : Py.split sep s ≠ [].
Proof.
  destruct s as [|c s]; simpl; [done |].
  destruct (Ascii.eqb c sep); [done |]. by destruct (Py.split sep s).
Qed.

Lemma split_append (sep : ascii) (a b : string) :
  Py.split sep (a +:+ String sep b) = Py.split sep a ++ Py.split sep b.
Proof.
  induction a as [|c a IH].
  - rewrite append_nil. simpl. by rewrite Ascii.eqb_refl.
  - rewrite append_cons. simpl. rewrite IH. destruct (Ascii.eqb c sep); [done |].
    pose proof (split_nonempty sep a) as Hne.
    by destruct (Py.split sep a).
Qed.

Lemma last_append_nonempty {A} (l1 l2 : list A) (d : A) :
  l2 ≠ [] → List.last (l1 ++ l2) d = List.last l2 d.
Proof.
  intros Hne. induction l1 as [|x l1 IH]; simpl; [done |].
  rewrite <- IH. destruct (l1 ++ l2) eqn:E; [| done].
  apply app_eq_nil in E as [_ ->]. done.
Qed.

Lemma last_piece_append (a b : string) :
  Py.last_piece (a +:+ String "-" b) = Py.last_piece b.
Proof.
  unfold Py.last_piece. rewrite split_append.
  apply last_append_nonempty, split_nonempty.
Qed.

(** ** Code-point order *)

Lemma str_lt_irrefl (a : string) : Orm.str_lt a a = false.
Proof.
  unfold Orm.str_lt. destruct (String_as_OT.compare_spec a a) as [_|Hlt|Hlt];
    try done; by destruct (StrictOrder_Irreflexive a).
Qed.

Lemma str_lt_trans (a b c : string) :
  Orm.str_lt a b = true → Orm.str_lt b c = true → Orm.str_lt a c = true.
Proof.
  unfold Orm.str_lt.
  destruct (String_as_OT.compare a b) eqn:Hab; try done.
  destruct (String_as_OT.compare b c) eqn:Hbc; try done.
  intros _ _.
  assert (String_as_OT.lt a c) as Hac
    by (eapply (@StrictOrder_Transitive _ _ String_as_OT.lt_strorder);
        [exact Hab | exact Hbc]).
  unfold String_as_OT.lt in Hac. by rewrite Hac.
Qed.

Lemma str_lt_total (a b : string) :
  Orm.str_lt a b = false → Orm.str_lt b a = false → a = b.
Proof.
  unfold Orm.str_lt.
  destruct (String_as_OT.compare_spec a b) as [E|Hlt|Hlt]; try done.
  unfold String_as_OT.lt in Hlt. by rewrite Hlt.
Qed.

Lemma str_lt_asym (a b : string) :
  Orm.str_lt a b = true → Orm.str_lt b a = false.
Proof.
  intros Hab. destruct (Orm.str_lt b a) eqn:Hba; [| done].
  pose proof (str_lt_trans _ _ _ Hab Hba) as H.
  by rewrite str_lt_irrefl in H.
Qed.

Lemma str_lt_append (p a b : string) :
  Orm.str_lt (p +:+ a) (p +:+ b) = Orm.str_lt a b.
Proof.
  unfold Orm.str_lt. induction p as [|x p IH]; [done |].
  rewrite !append_cons. simpl.
  destruct (Ascii_as_OT.compare_spec x x) as [_|Hlt|Hlt];
    [exact IH | |]; by destruct (StrictOrder_Irreflexive x).
Qed.

(** ** [order_by('-column').first()] returns the greatest value *)

Lemma first_desc_nil_iff (l : list string) :
  Orm.first_desc l = None ↔ l = [].
Proof.
  destruct l as [|x l]; simpl; [done |].
  split; [| done]. destruct (Orm.first_desc l) as [m|]; [| done].
  by destruct (Orm.str_lt m x).
Qed.

Lemma first_desc_greatest (l : list string) (m : string) :
  Orm.first_desc l = Some m →
  m ∈ l ∧ ∀ x, x ∈ l → Orm.str_lt m x = false.
Proof.
  revert m. induction l as [|y l IH]; simpl; intros m Hm; [done |].
  destruct (Orm.first_desc l) as [m0|] eqn:E.
  - destruct (IH m0 eq_refl) as [Hin Hmax].
    destruct (Orm.str_lt m0 y) eqn:Hlt; injection Hm as <-.
    + split; [left |]. intros x [->|Hx]%elem_of_cons.
      * apply str_lt_irrefl.
      * destruct (Orm.str_lt y x) eqn:Hyx; [| done].
        pose proof (str_lt_trans _ _ _ Hlt Hyx) as H.
        by rewrite (Hmax x Hx) in H.
    + split; [by right |]. intros x [->|Hx]%elem_of_cons; auto.
  - injection Hm as <-. apply first_desc_nil_iff in E as ->.
    split; [left |]. intros x [->|Hx]%elem_of_cons.
    + apply str_lt_irrefl.
    + by apply elem_of_nil in Hx.
Qed.

Lemma first_desc_unique (l : list string) (m : string) :
  m ∈ l → (∀ x, x ∈ l → Orm.str_lt m x = false) →
  Orm.first_desc l = Some m.
Proof.
  intros Hin Hmax. destruct (Orm.first_desc l) as [m'|] eqn:E.
  - destruct (first_desc_greatest _ _ E) as [Hin' Hmax'].
    f_equal. apply str_lt_total; auto.
  - apply first_desc_nil_iff in E as ->. by apply elem_of_nil in Hin.
Qed.

(** ** [f'{n:03d}'] on the numbers 1 to 1000 *)

Lemma format_03d_checked :
  forallb (λ k,
    match Py.int (Py.format_03d k) with Some n => n =? k | None => false end
    && String.eqb (Py.last_piece (Py.format_03d k)) (Py.format_03d k)
    && ((999 <=? k) || Orm.str_lt (Py.format_03d k) (Py.format_03d (k + 1)))
    && negb (Orm.str_lt "999" (Py.format_03d k)))
    (seqZ 1 1000) = true.
Proof. vm_compute. reflexivity. Qed.

Lemma format_03d_facts (k : Z) :
  1 ≤ k ≤ 1000 →
  Py.int (Py.format_03d k) = Some k
  ∧ Py.last_piece (Py.format_03d k) = Py.format_03d k
  ∧ (k < 999 → Orm.str_lt (Py.format_03d k) (Py.format_03d (k + 1)) = true)
  ∧ Orm.str_lt "999" (Py.format_03d k) = false.
Proof.
  intros Hk. pose proof format_03d_checked as Hall.
  rewrite forallb_forall in Hall.
  specialize (Hall k). rewrite <- list_elem_of_In, elem_of_seqZ in Hall.
  specialize (Hall ltac:(lia)).
  apply andb_prop in Hall as [Hall H4]. apply andb_prop in Hall as [Hall H3].
  apply andb_prop in Hall as [H1 H2].
  repeat split.
  - destruct (Py.int (Py.format_03d k)) as [n|]; [| done].
    apply Z.eqb_eq in H1. by subst.
  - by apply String.eqb_eq.
  - intros Hlt. apply orb_prop in H3 as [H3|H3]; [| done].
    apply Z.leb_le in H3. lia.
  - by apply negb_true_iff.
Qed.

Lemma format_03d_int (k : Z) :
  1 ≤ k ≤ 1000 → Py.int (Py.format_03d k) = Some k.
Proof. intros Hk. apply (format_03d_facts k Hk). Qed.

Lemma format_03d_inj (j k : Z) :
  1 ≤ j ≤ 1000 → 1 ≤ k ≤ 1000 → Py.format_03d j = Py.format_03d k → j = k.
Proof.
  intros Hj Hk E. pose proof (format_03d_int j Hj) as H.
  rewrite E, (format_03d_int k Hk) in H. by injection H.
Qed.

Lemma format_03d_increasing (d : nat) (j : Z) :
  1 ≤ j → j + Z.of_nat d + 1 ≤ 999 →
  Orm.str_lt (Py.format_03d j) (Py.format_03d (j + Z.of_nat d + 1)) = true.
Proof.
  induction d as [|d IH]; intros Hj Hle.
  - replace (j + Z.of_nat 0 + 1) with (j + 1) by lia.
    apply (format_03d_facts j); lia.
  - eapply str_lt_trans; [apply IH; lia |].
    replace (j + Z.of_nat (S d) + 1) with ((j + Z.of_nat d + 1) + 1) by lia.
    apply (format_03d_facts (j + Z.of_nat d + 1)); lia.
Qed.

Lemma format_03d_greatest (j n : Z) :
  1 ≤ j ≤ n → n ≤ 999 →
  Orm.str_lt (Py.format_03d n) (Py.format_03d j) = false.
Proof.
  intros Hj Hn. destruct (decide (j = n)) as [->|Hne].
  - apply str_lt_irrefl.
  - apply str_lt_asym.
    replace n with (j + Z.of_nat (Z.to_nat (n - j - 1)) + 1) by lia.
    apply format_03d_increasing; lia.
Qed.

(** ** [Model.save] *)

Section save_facts.
Context {R : Type} `{Orm.Model R}.
Implicit Types (t : gmap positive R) (obj row : R).

Lemma clashes_true_iff key row t :
  Orm.clashes key row t = true
  ↔ ∃ k r, t !! k = Some r ∧ k ≠ key ∧ Orm.unique_clash row r = true.
Proof.
  unfold Orm.clashes. rewrite existsb_exists. split.
  - intros [[k r] [Hin Hc]]. simpl in Hc.
    apply andb_prop in Hc as [Hk Hc].
    apply list_elem_of_In, elem_of_map_to_list in Hin.
    exists k, r. repeat split; [done | | done].
    intros ->. by rewrite Pos.eqb_refl in Hk.
  - intros (k & r & Hkr & Hne & Hc). exists (k, r). split.
    + by apply list_elem_of_In, elem_of_map_to_list.
    + simpl. rewrite Hc. by apply Pos.eqb_neq in Hne as ->.
Qed.

Lemma clashes_false key row t :
  (∀ k r, t !! k = Some r → k ≠ key → Orm.unique_clash row r = false) →
  Orm.clashes key row t = false.
Proof.
  intros Hno. destruct (Orm.clashes key row t) eqn:E; [| done].
  apply clashes_true_iff in E as (k & r & Hkr & Hne & Hc).
  by rewrite (Hno k r Hkr Hne) in Hc.
Qed.

Lemma fresh_key_unused t : t !! fresh (dom t) = None.
Proof. apply not_elem_of_dom, is_fresh. Qed.

Lemma save_base_insert now obj t :
  (∀ k r, t !! k = Some r →
          Orm.unique_clash (Orm.pre_save now true obj) r = false) →
  Orm.save_base now None obj t
  = Orm.Ok (<[fresh (dom t) := Orm.pre_save now true obj]> t,
            fresh (dom t), Orm.pre_save now true obj).
Proof.
  intros Hno. unfold Orm.save_base. rewrite fresh_key_unused.
  rewrite clashes_false; [done |]. intros k r Hkr _. by apply (Hno k).
Qed.

Lemma save_base_update now key obj t old :
  t !! key = Some old →
  (∀ k r, t !! k = Some r → k ≠ key →
          Orm.unique_clash (Orm.pre_save now false obj) r = false) →
  Orm.save_base now (Some key) obj t
  = Orm.Ok (<[key := Orm.pre_save now false obj]> t,
            key, Orm.pre_save now false obj).
Proof.
  intros Hold Hno. unfold Orm.save_base. rewrite Hold.
  by rewrite clashes_false.
Qed.

Lemma save_base_inv now pk obj t t' key row :
  Orm.save_base now pk obj t = Orm.Ok (t', key, row) →
  (∃ adding, row = Orm.pre_save now adding obj)
  ∧ t' = <[key := row]> t ∧ (∀ k, pk = Some k → key = k).
Proof.
  unfold Orm.save_base. destruct (Orm.clashes _ _ t); [done |].
  intros [= <- <- <-]. split; [by eexists |]. split; [done |]. by intros k ->.
Qed.
End save_facts.

(** ** The number block *)

Section numbering_facts.
Context {R : Type} `{Orm.Numbered R}.
Implicit Types (t : gmap positive R) (obj row : R).

Lemma elem_of_numbers t s :
  s ∈ Orm.numbers t ↔ ∃ k r, t !! k = Some r ∧ Orm.number r = s.
Proof.
  unfold Orm.numbers. rewrite list_elem_of_fmap. split.
  - intros [[k r] [-> Hin]]. apply elem_of_map_to_list in Hin. eauto.
  - intros (k & r & Hkr & <-). exists (k, r). split; [done |].
    by apply elem_of_map_to_list.
Qed.

Lemma year_prefix_append prefix year b :
  Orm.year_prefix prefix year +:+ b
  = (prefix +:+ "-" +:+ Py.str year) +:+ String "-" b.
Proof. unfold Orm.year_prefix. by rewrite !append_assoc. Qed.

Lemma last_piece_year_prefix prefix year b :
  Py.last_piece (Orm.year_prefix prefix year +:+ b) = Py.last_piece b.
Proof. rewrite year_prefix_append. apply last_piece_append. Qed.


Lemma elem_of_year_numbers prefix year n t s :
  Orm.numbered_up_to prefix year n t →
  s ∈ List.filter (Py.startswith (Orm.year_prefix prefix year)) (Orm.numbers t)
  ↔ ∃ j, 1 ≤ j ≤ n ∧ s = Orm.year_prefix prefix year +:+ Py.format_03d j.
Proof.
  intros Hinv. rewrite <- (Hinv s), list_elem_of_In, filter_In.
  rewrite <- list_elem_of_In. tauto.
Qed.

Lemma assign_number_first prefix now obj t :
  Orm.numbered_up_to prefix (dt_year now) 0 t → Orm.number obj = EmptyString →
  Orm.assign_number prefix now obj t
  = Orm.Ok (Orm.set_number
              (Orm.year_prefix prefix (dt_year now) +:+ Py.format_03d 1) obj).
Proof.
  intros Hinv Hblank. unfold Orm.assign_number. rewrite Hblank. simpl.
  destruct (Orm.first_desc _) as [m|] eqn:E; [| done].
  apply first_desc_greatest in E as [Hin _].
  apply (elem_of_year_numbers _ _ _ _ _ Hinv) in Hin as (j & Hj & _). lia.
Qed.

Lemma assign_number_after_greatest prefix now obj t g :
  1 ≤ g ≤ 1000 →
  Orm.year_prefix prefix (dt_year now) +:+ Py.format_03d g ∈ Orm.numbers t →
  (∀ s, s ∈ Orm.numbers t →
        Py.startswith (Orm.year_prefix prefix (dt_year now)) s = true →
        ∃ j, Orm.str_lt (Py.format_03d g) (Py.format_03d j) = false
             ∧ s = Orm.year_prefix prefix (dt_year now) +:+ Py.format_03d j) →
  Orm.number obj = EmptyString →
  Orm.assign_number prefix now obj t
  = Orm.Ok (Orm.set_number
              (Orm.year_prefix prefix (dt_year now) +:+ Py.format_03d (g + 1))
              obj).
Proof.
  intros Hg Hin Hmax Hblank. unfold Orm.assign_number.
  rewrite Hblank. simpl.
  rewrite (first_desc_unique _
             (Orm.year_prefix prefix (dt_year now) +:+ Py.format_03d g)).
  - rewrite last_piece_year_prefix.
    destruct (format_03d_facts g Hg) as (Hint & -> & _). by rewrite Hint.
  - apply list_elem_of_In, filter_In. split; [by apply list_elem_of_In |].
    apply startswith_append.
  - intros x [Hx Hpre]%list_elem_of_In%filter_In.
    apply list_elem_of_In in Hx.
    destruct (Hmax x Hx Hpre) as (j & Hj & ->). by rewrite str_lt_append.
Qed.

Lemma assign_number_after prefix now obj t n g :
  Orm.numbered_up_to prefix (dt_year now) n t →
  1 ≤ g ≤ n → n ≤ 1000 →
  (∀ j, 1 ≤ j ≤ n → Orm.str_lt (Py.format_03d g) (Py.format_03d j) = false) →
  Orm.number obj = EmptyString →
  Orm.assign_number prefix now obj t
  = Orm.Ok (Orm.set_number
              (Orm.year_prefix prefix (dt_year now) +:+ Py.format_03d (g + 1))
              obj).
Proof.
  intros Hinv Hg Hn Hmax Hblank.
  apply assign_number_after_greatest; [lia | | | done].
  - apply (Hinv _). exists g. split; [lia | done].
  - intros s Hs Hpre. destruct (Hinv s) as [(j & Hj & ->) _]; [done |].
    exists j. split; [by apply Hmax | done].
Qed.

(** Saving a new document when the highest number of the year is that of
    document [m], whatever gaps lie below it. *)
Lemma save_numbered_after_highest prefix :
  ∀ year, Orm.numbers_follow_highest (Orm.save_numbered prefix) prefix year.
Proof.
  intros year now obj t m <- Hm [Hin Hall] Hblank. unfold Orm.save_numbered.
  rewrite (assign_number_after_greatest prefix now obj t m);
    [| lia | done | | done].
  2: { intros s Hs Hpre. destruct (Hall s Hs Hpre) as (j & Hj & ->).
       exists j. split; [apply format_03d_greatest; lia | done]. }
  rewrite save_base_insert.
  - do 3 eexists. split; [reflexivity |].
    split; [by rewrite lookup_insert_eq |].
    by rewrite Orm.number_pre_save, Orm.number_set_number.
  - intros k r Hkr.
    rewrite Orm.unique_clash_number, Orm.number_pre_save,
      Orm.number_set_number.
    apply String.eqb_neq. intros E.
    destruct (Hall (Orm.number r)) as (j & Hj & Hs).
    { apply elem_of_numbers. eauto. }
    { rewrite <- E. apply startswith_append. }
    rewrite Hs in E. apply append_inj_l, format_03d_inj in E; lia.
Qed.

Lemma numbered_up_to_insert prefix year n t key row :
  0 ≤ n → t !! key = None →
  Orm.numbered_up_to prefix year n t →
  Orm.number row = Orm.year_prefix prefix year +:+ Py.format_03d (n + 1) →
  Orm.numbered_up_to prefix year (n + 1) (<[key := row]> t).
Proof.
  intros Hn Hfree Hinv Hrow s. split.
  - intros [(k & r & Hkr & Hs)%elem_of_numbers Hpre].
    destruct (decide (k = key)) as [->|Hne].
    + rewrite lookup_insert_eq in Hkr. injection Hkr as <-.
      exists (n + 1). split; [lia | congruence].
    + rewrite lookup_insert_ne in Hkr by done.
      destruct (Hinv s) as [(j & Hj & ->) _].
      { split; [| done]. apply elem_of_numbers. eauto. }
      exists j. split; [lia | done].
  - intros (j & Hj & ->). split; [| apply startswith_append].
    apply elem_of_numbers.
    destruct (decide (j = n + 1)) as [->|Hne].
    + exists key, row. by rewrite lookup_insert_eq.
    + destruct (Hinv (Orm.year_prefix prefix year +:+ Py.format_03d j))
        as [_ [(k & r & Hkr & Hs)%elem_of_numbers _]].
      { exists j. split; [lia | done]. }
      exists k, r. split; [| done]. rewrite lookup_insert_ne; [done |].
      intros <-. by rewrite Hfree in Hkr.
Qed.

(** Saving the document after the first [n] of the year, [n] below 1000. *)
Lemma save_numbered_next prefix now obj t n :
  0 ≤ n < 1000 →
  Orm.numbered_up_to prefix (dt_year now) n t → Orm.number obj = EmptyString →
  ∃ key row,
    Orm.save_numbered prefix now None obj t = Orm.Ok (<[key := row]> t, key, row)
    ∧ Orm.number row
      = Orm.year_prefix prefix (dt_year now) +:+ Py.format_03d (n + 1)
    ∧ Orm.numbered_up_to prefix (dt_year now) (n + 1) (<[key := row]> t).
Proof.
  intros Hn Hinv Hblank. unfold Orm.save_numbered.
  assert (Orm.assign_number prefix now obj t
          = Orm.Ok (Orm.set_number
                      (Orm.year_prefix prefix (dt_year now)
                       +:+ Py.format_03d (n + 1)) obj)) as ->.
  { destruct (decide (n = 0)) as [->|Hpos].
    - by apply assign_number_first.
    - apply (assign_number_after _ _ _ _ n n); try done; try lia.
      intros j Hj. apply format_03d_greatest; lia. }
  set (obj' := Orm.set_number _ obj).
  assert (Orm.number (Orm.pre_save now true obj')
          = Orm.year_prefix prefix (dt_year now) +:+ Py.format_03d (n + 1))
    as Hrow by (unfold obj'; by rewrite Orm.number_pre_save, Orm.number_set_number).
  exists (fresh (dom t)), (Orm.pre_save now true obj').
  split; [| split; [done |]].
  - apply save_base_insert. intros k r Hkr.
    rewrite Orm.unique_clash_number, Hrow. apply String.eqb_neq. intros E.
    destruct (Hinv (Orm.number r)) as [(j & Hj & Hs) _].
    { split; [apply elem_of_numbers; eauto |].
      rewrite <- E. apply startswith_append. }
    rewrite Hs in E. apply append_inj_l, format_03d_inj in E; lia.
  - apply numbered_up_to_insert; [lia | apply fresh_key_unused | done | done].
Qed.

(** Saving the document after the first 1000 of the year: the greatest
    number in code-point order is still the one ending in 999. *)
Lemma save_numbered_overflow prefix now obj t :
  Orm.numbered_up_to prefix (dt_year now) 1000 t → Orm.number obj = EmptyString →
  Orm.save_numbered prefix now None obj t = Orm.Raise Orm.IntegrityError.
Proof.
  intros Hinv Hblank. unfold Orm.save_numbered.
  rewrite (assign_number_after _ _ _ _ 1000 999 Hinv); try done; try lia.
  2: { intros j Hj. apply (format_03d_facts j Hj). }
  unfold Orm.save_base.
  destruct (Orm.clashes _ _ t) eqn:E; [done |]. exfalso.
  destruct (Hinv (Orm.year_prefix prefix (dt_year now) +:+ Py.format_03d 1000))
    as [_ [(k & r & Hkr & Hs)%elem_of_numbers _]].
  { exists 1000. split; [lia | done]. }
  assert (Orm.clashes (fresh (dom t))
            (Orm.pre_save now true
               (Orm.set_number
                  (Orm.year_prefix prefix (dt_year now)
                   +:+ Py.format_03d (999 + 1)) obj)) t = true) as Hc.
  { apply clashes_true_iff. exists k, r. split; [done |]. split.
    - intros ->. by rewrite fresh_key_unused in Hkr.
    - rewrite Orm.unique_clash_number, Orm.number_pre_save,
        Orm.number_set_number, Hs.
      by apply String.eqb_eq. }
  simpl in E. rewrite fresh_key_unused in E. by rewrite Hc in E.
Qed.
End numbering_facts.

(** ** Sequential creation *)

Section creation_facts.
Context {R : Type} `{Orm.Numbered R}.
Implicit Types (t : gmap positive R) (objs : list (datetime * R)).

Lemma no_number_up_to_0 prefix year t :
  Orm.no_number_of_year prefix year t → Orm.numbered_up_to prefix year 0 t.
Proof.
  intros Hno s. split.
  - intros [Hs Hpre]. by rewrite (Hno s Hs) in Hpre.
  - intros (j & Hj & _). lia.
Qed.

Lemma create_all_app save objs1 objs2 t :
  Orm.create_all save (objs1 ++ objs2) t
  = match Orm.create_all save objs1 t with
    | Orm.Ok (t', saved1) =>
        match Orm.create_all save objs2 t' with
        | Orm.Ok (t'', saved2) => Orm.Ok (t'', saved1 ++ saved2)
        | Orm.Raise e => Orm.Raise e
        end
    | Orm.Raise e => Orm.Raise e
    end.
Proof.
  revert t. induction objs1 as [|[now obj] objs1 IH]; intros t; simpl.
  - by destruct (Orm.create_all save objs2 t) as [[t' saved]|e].
  - destruct (save now None obj t) as [[[t1 key] row]|e]; [| done].
    rewrite IH. destruct (Orm.create_all save objs1 t1) as [[t2 s1]|e];
      [| done].
    by destruct (Orm.create_all save objs2 t2) as [[t3 s2]|e].
Qed.

Lemma create_all_ext save1 save2 (f : R → R) objs t :
  (∀ now pk obj t', save1 now pk obj t' = save2 now pk (f obj) t') →
  Orm.create_all save1 objs t
  = Orm.create_all save2 (prod_map id f <$> objs) t.
Proof.
  intros Hsave. revert t. induction objs as [|[now obj] objs IH]; intros t;
    simpl; [done |].
  rewrite Hsave. destruct (save2 now None (f obj) t) as [[[t1 key] row]|e];
    [| done].
  by rewrite IH.
Qed.

Lemma create_all_numbered prefix year objs n t :
  0 ≤ n → n + Z.of_nat (length objs) ≤ 1000 →
  Orm.blank_in_year year objs → Orm.numbered_up_to prefix year n t →
  ∃ t' saved,
    Orm.create_all (Orm.save_numbered prefix) objs t = Orm.Ok (t', saved)
    ∧ Orm.number <$> saved
      = (λ j, Orm.year_prefix prefix year +:+ Py.format_03d j)
        <$> seqZ (n + 1) (Z.of_nat (length objs))
    ∧ Orm.numbered_up_to prefix year (n + Z.of_nat (length objs)) t'.
Proof.
  revert n t. induction objs as [|[now obj] objs IH]; intros n t Hn Hle Hblank Hinv.
  - exists t, []. simpl. rewrite Z.add_0_r. split; [done | split; [done | exact Hinv]].
  - apply Forall_cons in Hblank as [[Hyear Hno] Hblank]. simpl in Hyear, Hno.
    simpl length in *. subst year.
    destruct (save_numbered_next prefix now obj t n ltac:(lia) Hinv Hno)
      as (key & row & Hsave & Hrow & Hinv').
    destruct (IH (n + 1) (<[key := row]> t) ltac:(lia) ltac:(lia) Hblank Hinv')
      as (t' & saved & Hall & Hnums & Hinv'').
    exists t', (row :: saved). split; [| split].
    + cbn [Orm.create_all]. by rewrite Hsave, Hall.
    + rewrite seqZ_cons by lia. rewrite !fmap_cons, Hrow, Hnums.
      f_equal. f_equal; f_equal; lia.
    + by replace (n + Z.of_nat (S (length objs)))
        with (n + 1 + Z.of_nat (length objs)) by lia.
Qed.

Lemma year_sequence_NoDup prefix year (n : nat) :
  (n ≤ 1000)%nat → NoDup (Orm.year_sequence prefix year n).
Proof.
  intros Hn. apply NoDup_fmap_2_strong; [| apply NoDup_seqZ].
  intros j k Hj%elem_of_seqZ Hk%elem_of_seqZ E.
  apply append_inj_l, format_03d_inj in E; lia.
Qed.

(** The number block gives the sequence for up to 1000 documents a year. *)
Lemma save_numbered_in_sequence prefix year :
  Orm.numbers_in_sequence (Orm.save_numbered prefix) prefix year 1000.
Proof.
  intros objs t Hlen Hblank Hno.
  destruct (create_all_numbered prefix year objs 0 t ltac:(lia)
              ltac:(lia) Hblank (no_number_up_to_0 _ _ _ Hno))
    as (t' & saved & Hall & Hnums & _).
  exists t', saved. split; [done |].
  assert (Orm.number <$> saved = Orm.year_sequence prefix year (length objs))
    as Hseq by done.
  split; [done |]. rewrite Hseq. by apply year_sequence_NoDup.
Qed.

(** The 1001st document of a year cannot be saved. *)
Lemma create_all_overflow prefix year objs t :
  length objs = 1001%nat → Orm.blank_in_year year objs →
  Orm.no_number_of_year prefix year t →
  Orm.create_all (Orm.save_numbered prefix) objs t
  = Orm.Raise Orm.IntegrityError.
Proof.
  intros Hlen Hblank Hno.
  rewrite <- (take_drop 1000 objs) in Hblank |- *.
  apply Forall_app in Hblank as [Hblank1 Hblank2].
  assert (length (take 1000 objs) = 1000%nat) as Hlen1
    by (rewrite length_take; lia).
  destruct (create_all_numbered prefix year (take 1000 objs) 0 t ltac:(lia)
              ltac:(lia) Hblank1 (no_number_up_to_0 _ _ _ Hno))
    as (t' & saved & Hall & _ & Hinv).
  rewrite Hlen1 in Hinv. simpl in Hinv.
  rewrite create_all_app, Hall.
  destruct (drop 1000 objs) as [|[now obj] rest] eqn:E.
  { apply (f_equal length) in E. rewrite length_drop in E. simpl in E. lia. }
  apply Forall_cons in Hblank2 as [[Hyear Hblank] _]. simpl in Hyear, Hblank.
  subst year. simpl. by rewrite (save_numbered_overflow _ _ _ _ Hinv Hblank).
Qed.
End creation_facts.

(** ** The six [save] methods *)

Lemma numbers_in_sequence_le {R : Type} `{Orm.Numbered R} save prefix year
    (limit limit' : nat) :
  (limit ≤ limit')%nat →
  Orm.numbers_in_sequence save prefix year limit' →
  Orm.numbers_in_sequence save prefix year limit.
Proof. intros Hle Hseq objs t Hlen. apply Hseq. lia. Qed.

Lemma Order_save_numbered now pk (self : Order.t) table :
  Order.save now pk self table
  = Orm.save_numbered "ORD" now pk
      (Order.set_total_amount
         (Order.subtotal self + Order.tax_amount self
          + Order.shipping_amount self - Order.discount_amount self) self)
      table.
Proof.
  unfold Order.save, Orm.save_numbered, Orm.assign_number. simpl.
  destruct (String.eqb (Order.order_no self) EmptyString); [| done].
  destruct (Orm.first_desc _) as [last_no|]; [| done].
  by destruct (Py.int (Py.last_piece last_no)).
Qed.

Lemma Order_save_in_sequence year :
  Orm.numbers_in_sequence Order.save "ORD" year 1000.
Proof.
  intros objs t Hlen Hblank Hno.
  rewrite (create_all_ext Order.save (Orm.save_numbered "ORD")
             (λ self, Order.set_total_amount
                        (Order.subtotal self + Order.tax_amount self
                         + Order.shipping_amount self
                         - Order.discount_amount self) self))
    by apply Order_save_numbered.
  destruct (save_numbered_in_sequence "ORD" year
              (prod_map id
                 (λ self, Order.set_total_amount
                            (Order.subtotal self + Order.tax_amount self
                             + Order.shipping_amount self
                             - Order.discount_amount self) self) <$> objs) t)
    as (t' & saved & Hall & Hnums & Hdup).
  - by rewrite length_fmap.
  - unfold Orm.blank_in_year in *. rewrite Forall_fmap.
    eapply Forall_impl; [exact Hblank |]. by intros [now self].
  - done.
  - exists t', saved. rewrite length_fmap in Hnums. done.
Qed.

Lemma Order_save_follows_highest year :
  Orm.numbers_follow_highest Order.save "ORD" year.
Proof.
  intros now obj t m Hyear Hm Hhigh Hblank. rewrite Order_save_numbered.
  by apply (save_numbered_after_highest "ORD" year).
Qed.

(** C1 (amended). For each of the six document models and every year:
    creating up to 1000 documents one after the other, none with a number
    assigned beforehand, in a table that holds no document of that prefix
    and year, assigns PREFIX-YYYY-001, PREFIX-YYYY-002, ... in order (the
    thousandth is PREFIX-YYYY-1000), without gaps or duplicates; and a new
    document gets the number one greater than the highest one stored for
    its prefix and year, as long as that is below 1000. *)
Theorem document_numbers_sequential (year : Z) (limit : nat) :
  (limit ≤ 1000)%nat →
  (Orm.numbers_in_sequence Adjustment.save "ADJ" year limit
   ∧ Orm.numbers_in_sequence Transfer.save "TRF" year limit
   ∧ Orm.numbers_in_sequence Receiving.save "RCV" year limit
   ∧ Orm.numbers_in_sequence Shipment.save "SHP" year limit
   ∧ Orm.numbers_in_sequence Return.save "RTN" year limit
   ∧ Orm.numbers_in_sequence Order.save "ORD" year limit)
  ∧ (Orm.numbers_follow_highest Adjustment.save "ADJ" year
     ∧ Orm.numbers_follow_highest Transfer.save "TRF" year
     ∧ Orm.numbers_follow_highest Receiving.save "RCV" year
     ∧ Orm.numbers_follow_highest Shipment.save "SHP" year
     ∧ Orm.numbers_follow_highest Return.save "RTN" year
     ∧ Orm.numbers_follow_highest Order.save "ORD" year).
Proof.
  intros Hle. split.
  - repeat split;
      apply (numbers_in_sequence_le _ _ _ limit 1000 Hle);
      first [apply Order_save_in_sequence | apply save_numbered_in_sequence].
  - repeat split;
      first [apply Order_save_follows_highest
            | apply save_numbered_after_highest].
Qed.

Lemma no_number_in_empty_table {R : Type} `{Orm.Numbered R} prefix year :
  Orm.no_number_of_year prefix year (∅ : gmap positive R).
Proof.
  intros s Hs. unfold Orm.numbers in Hs. rewrite map_to_list_empty in Hs.
  by apply elem_of_nil in Hs.
Qed.

(** Three adjustments created in 2025 in an empty table. *)
Lemma document_numbers_sequential_witness :
  ∃ t' saved,
    Orm.create_all Adjustment.save
      (replicate 3 (Sample.now, Sample.adjustment)) ∅ = Orm.Ok (t', saved)
    ∧ Adjustment.adjustment_no <$> saved
      = ["ADJ-2025-001"; "ADJ-2025-002"; "ADJ-2025-003"].
Proof.
  destruct (document_numbers_sequential 2025 3 ltac:(lia)) as [[Hadj _] _].
  destruct (Hadj (replicate 3 (Sample.now, Sample.adjustment)) ∅)
    as (t' & saved & Hall & Hnums & _).
  - simpl. lia.
  - repeat constructor.
  - apply no_number_in_empty_table.
  - exists t', saved. split; [exact Hall | exact Hnums].
Defined.

(** C1, as stated, fails: the 1001st adjustment of a year cannot be created,
    because the greatest stored number in text order is still the one
    ending in 999 and the number ending in 1000 is assigned a second time. *)
Lemma document_numbers_break_at_1001 :
  Orm.create_all Adjustment.save
    (replicate 1001 (Sample.now, Sample.adjustment)) ∅
  = Orm.Raise Orm.IntegrityError
  ∧ ¬ Orm.numbers_in_sequence Adjustment.save "ADJ" 2025 1001.
Proof.
  assert (length (replicate 1001 (Sample.now, Sample.adjustment)) = 1001%nat)
    as Hlen by apply length_replicate.
  assert (Orm.blank_in_year 2025
            (replicate 1001 (Sample.now, Sample.adjustment))) as Hblank
    by (apply Forall_replicate; split; reflexivity).
  pose proof (create_all_overflow (R := Adjustment.t) "ADJ" 2025
                (replicate 1001 (Sample.now, Sample.adjustment)) ∅
                Hlen Hblank (no_number_in_empty_table _ _)) as Hraise.
  split; [exact Hraise |]. intros Hseq.
  destruct (Hseq (replicate 1001 (Sample.now, Sample.adjustment)) ∅
              ltac:(rewrite Hlen; lia) Hblank (no_number_in_empty_table _ _))
    as (t' & saved & Hall & _).
  change (Orm.create_all (Orm.save_numbered "ADJ")
            (replicate 1001 (Sample.now, Sample.adjustment)) ∅
          = Orm.Ok (t', saved)) in Hall.
  rewrite Hraise in Hall. discriminate Hall.
Qed.

(** ** Saving a stored document again *)

Section update_facts.
Context {R : Type} `{Orm.Numbered R}.
Implicit Types (t : gmap positive R) (obj old : R).


Lemma assign_number_cases prefix now obj obj' t :
  Orm.assign_number prefix now obj t = Orm.Ok obj' →
  obj' = obj ∨ ∃ s, obj' = Orm.set_number s obj.
Proof.
  unfold Orm.assign_number. destruct (String.eqb (Orm.number obj) EmptyString).
  - destruct (Orm.first_desc _) as [last_no|].
    + destruct (Py.int (Py.last_piece last_no)); [| done].
      intros [= <-]. eauto.
    + intros [= <-]. eauto.
  - intros [= <-]. by left.
Qed.

(** What a successful [save] of the instance under [pk] leaves behind. *)
Lemma save_numbered_inv prefix now pk obj t t' key row :
  Orm.save_numbered prefix now (Some pk) obj t = Orm.Ok (t', key, row) →
  ∃ obj' adding,
    (obj' = obj ∨ ∃ s, obj' = Orm.set_number s obj)
    ∧ row = Orm.pre_save now adding obj' ∧ key = pk ∧ t' = <[pk := row]> t.
Proof.
  unfold Orm.save_numbered.
  destruct (Orm.assign_number prefix now obj t) as [obj'|e] eqn:E; [| done].
  apply assign_number_cases in E. unfold Orm.save_base.
  destruct (Orm.clashes _ _ t); [done |]. intros [= <- <- <-].
  eexists obj', _. by repeat split.
Qed.

Lemma save_and_respond_frame (saved : Orm.result (gmap positive R * positive * R))
    (store : gmap positive R → DB → DB) (db : DB) (P : DB → Prop) :
  P db → (∀ table key row, saved = Orm.Ok (table, key, row) → P (store table db)) →
  P (snd (save_and_respond saved store db)).
Proof.
  intros Hdb Hstore. destruct saved as [[[table key] row]|e]; simpl; auto.
  by eapply Hstore.
Qed.
End update_facts.


(** ** inventory/views.py: the transitions *)





Lemma adjustment_approve_rejected now request pk db adjustment approver :
  adjustments db !! pk = Some adjustment →
  Adjustment.approved_by adjustment = Some approver →
  AdjustmentViewSet.approve now request pk db
  = (HTTP_400 "Adjustment already approved", db).
Proof.
  intros Hrow Hby. unfold AdjustmentViewSet.approve. by rewrite Hrow, Hby.
Qed.




(** C4. [execute] on a transfer and [approve] on an adjustment write to the
    document's own row only: the stock rows (and every other table, and
    every other row of the document's table) are as before. *)
Theorem transitions_leave_stock_unchanged now request pk db :
  (same_ledger db (snd (TransferViewSet.execute now request pk db))
   ∧ same_operations db (snd (TransferViewSet.execute now request pk db))
   ∧ adjustments (snd (TransferViewSet.execute now request pk db))
     = adjustments db
   ∧ ∀ k, k ≠ pk →
       transfers (snd (TransferViewSet.execute now request pk db)) !! k
       = transfers db !! k)
  ∧ (same_ledger db (snd (AdjustmentViewSet.approve now request pk db))
     ∧ same_operations db (snd (AdjustmentViewSet.approve now request pk db))
     ∧ transfers (snd (AdjustmentViewSet.approve now request pk db))
       = transfers db
     ∧ ∀ k, k ≠ pk →
         adjustments (snd (AdjustmentViewSet.approve now request pk db)) !! k
         = adjustments db !! k).
Proof.
  split.
  - unfold TransferViewSet.execute.
    destruct (transfers db !! pk) as [transfer|]; [| by repeat split].
    destruct (negb _); [by repeat split |].
    apply (save_and_respond_frame _ _ _
             (λ db', same_ledger db db' ∧ same_operations db db'
                     ∧ adjustments db' = adjustments db
                     ∧ ∀ k, k ≠ pk → transfers db' !! k = transfers db !! k));
      [by repeat split |].
    intros table key row Hsave.
    apply save_numbered_inv in Hsave as (_ & _ & _ & _ & _ & ->).
    repeat split. intros k Hk. simpl. by rewrite lookup_insert_ne.
  - unfold AdjustmentViewSet.approve.
    destruct (adjustments db !! pk) as [adjustment|]; [| by repeat split].
    destruct (Adjustment.approved_by adjustment); [by repeat split |].
    apply (save_and_respond_frame _ _ _
             (λ db', same_ledger db db' ∧ same_operations db db'
                     ∧ transfers db' = transfers db
                     ∧ ∀ k, k ≠ pk →
                         adjustments db' !! k = adjustments db !! k));
      [by repeat split |].
    intros table key row Hsave.
    apply save_numbered_inv in Hsave as (_ & _ & _ & _ & _ & ->).
    repeat split. intros k Hk. simpl. by rewrite lookup_insert_ne.
Qed.





(** After a first successful [approve], every later one is rejected and the
    first approver stays. *)
Lemma adjustment_approve_after_success now request now' request' pk db saved db1 :
  AdjustmentViewSet.approve now request pk db = (HTTP_200 saved, db1) →
  AdjustmentViewSet.approve now' request' pk db1
  = (HTTP_400 "Adjustment already approved", db1)
  ∧ Adjustment.approved_by <$> adjustments db1 !! pk
    = Some (Some (user request)).
Proof.
  unfold AdjustmentViewSet.approve at 1.
  destruct (adjustments db !! pk) as [adjustment|]; [| done].
  destruct (Adjustment.approved_by adjustment); [done |].
  unfold save_and_respond.
  destruct (Adjustment.save _ _ _ _) as [[[table key] row]|e] eqn:E; [| done].
  intros [= <- <-].
  apply save_numbered_inv in E as (obj' & adding & Hobj & -> & _ & ->).
  assert (Adjustment.approved_by (Orm.pre_save now adding obj')
          = Some (user request)) as Hby
    by (destruct Hobj as [->|[s ->]]; reflexivity).
  assert (adjustments
            (set_adjustments
               (<[pk := Orm.pre_save now adding obj']> (adjustments db)) db)
          !! pk = Some (Orm.pre_save now adding obj')) as Hrow
    by (simpl; by rewrite lookup_insert_eq).
  split.
  - by apply (adjustment_approve_rejected _ _ _ _ _ (user request) Hrow).
  - by rewrite Hrow, <- Hby.
Qed.



(** ** Amounts *)

(** C9. After every [save] of an order the stored total is subtotal + tax +
    shipping - discount, whatever total the instance carried before. *)
Theorem order_total_recomputed now pk self table table' key saved :
  Order.save now pk self table = Orm.Ok (table', key, saved) →
  table' !! key = Some saved
  ∧ Order.total_amount saved
    = Order.subtotal self + Order.tax_amount self
      + Order.shipping_amount self - Order.discount_amount self
  ∧ Order.subtotal saved = Order.subtotal self
  ∧ Order.tax_amount saved = Order.tax_amount self
  ∧ Order.shipping_amount saved = Order.shipping_amount self
  ∧ Order.discount_amount saved = Order.discount_amount self.
Proof.
  rewrite Order_save_numbered. unfold Orm.save_numbered.
  destruct (Orm.assign_number _ _ _ _) as [obj'|e] eqn:E; [| done].
  intros ([adding ->] & -> & _)%save_base_inv.
  split; [by rewrite lookup_insert_eq |].
  by destruct (assign_number_cases _ _ _ _ _ E) as [->|[s ->]].
Qed.

(** Subtotal 100, tax 8, shipping 5, discount 10: the total is 103. *)
Lemma order_total_recomputed_witness :
  ∃ table' key saved,
    Order.save Sample.now None Sample.order ∅ = Orm.Ok (table', key, saved)
    ∧ Order.total_amount saved = 10300.
Proof.
  assert (∃ table' key saved,
            Order.save Sample.now None Sample.order ∅
            = Orm.Ok (table', key, saved)) as (table' & key & saved & Hsave)
    by (do 3 eexists; vm_compute; reflexivity).
  exists table', key, saved. split; [exact Hsave |].
  destruct (order_total_recomputed _ _ _ _ _ _ _ Hsave) as (_ & -> & _).
  reflexivity.
Defined.

(** C5 (amended). After a [save] of a stock row whose unit cost is set and
    not zero and whose total quantity is not zero, the stored total value
    is unit cost times total quantity; when the total quantity (or the
    cost) is zero, [save] leaves the total value as it was. *)
Theorem stock_total_value_on_save now pk self table table' key saved cost :
  Stock.save now pk self table = Orm.Ok (table', key, saved) →
  Stock.unit_cost self = Some cost →
  table' !! key = Some saved
  ∧ Stock.unit_cost saved = Some cost
  ∧ Stock.quantity_total saved = Stock.quantity_total self
  ∧ (cost ≠ 0 → Stock.quantity_total self ≠ 0 →
     Stock.total_value saved = Some (cost * Stock.quantity_total saved))
  ∧ (cost = 0 ∨ Stock.quantity_total self = 0 →
     Stock.total_value saved = Stock.total_value self).
Proof.
  unfold Stock.save. intros ([adding ->] & -> & _)%save_base_inv Hcost.
  rewrite Hcost. split; [by rewrite lookup_insert_eq |].
  destruct (Z.eqb_spec cost 0) as [Hc|Hc];
    destruct (Z.eqb_spec (Stock.quantity_total self) 0) as [Hq|Hq]; simpl;
    (split; [exact Hcost |]); (split; [reflexivity |]);
    (split; [intros ? ?; try done; reflexivity
            | intros [?|?]; try done; reflexivity]).
Qed.

(** Five pieces at 2.50 and no total value yet: the save stores 12.50. *)
Lemma stock_total_value_on_save_witness :
  ∃ table' key saved,
    Stock.save Sample.now None (Stock.set_total_value None Sample.stock) ∅
    = Orm.Ok (table', key, saved)
    ∧ Stock.total_value saved = Some 1250.
Proof.
  assert (∃ table' key saved,
            Stock.save Sample.now None
              (Stock.set_total_value None Sample.stock) ∅
            = Orm.Ok (table', key, saved)) as (table' & key & saved & Hsave)
    by (do 3 eexists; vm_compute; reflexivity).
  exists table', key, saved. split; [exact Hsave |].
  destruct (stock_total_value_on_save _ _ _ _ _ _ _ 250 Hsave eq_refl)
    as (_ & _ & Hq & Hv & _).
  rewrite Hv, Hq; [reflexivity | discriminate | discriminate].
Defined.

(** C5, as stated, fails: a row with a unit cost and no quantity keeps the
    total value it had, here 10.00 instead of zero. *)
Lemma stock_total_value_stale_at_zero :
  ∃ table' key saved,
    Stock.save Sample.now None Sample.empty_stock ∅
    = Orm.Ok (table', key, saved)
    ∧ table' !! key = Some saved
    ∧ Stock.unit_cost saved = Some 250
    ∧ Stock.quantity_total saved = 0
    ∧ Stock.total_value saved = Some 1000
    ∧ Stock.total_value saved ≠ Some (250 * Stock.quantity_total saved).
Proof. do 3 eexists. vm_compute. by repeat split. Qed.

(** ** Low stock *)

Lemma elem_of_low_stock_items db item :
  item ∈ Analytics.low_stock_items db
  ↔ stocks db !! Analytics.stock_pk item = Some (Analytics.stock item)
    ∧ products db !! Stock.product (Analytics.stock item)
      = Some (Analytics.product item)
    ∧ warehouses db !! Stock.warehouse (Analytics.stock item)
      = Some (Analytics.warehouse item)
    ∧ Stock.quantity_available (Analytics.stock item)
      ≤ Product.reorder_point (Analytics.product item).
Proof.
  unfold Analytics.low_stock_items.
  rewrite merge_sort_Permutation, list_elem_of_In, filter_In.
  rewrite <- list_elem_of_In, list_elem_of_omap, Z.leb_le.
  split.
  - intros [([k s] & Hin%elem_of_map_to_list & Hjoin) Hle].
    unfold Analytics.join in Hjoin. simpl in Hjoin.
    destruct (products db !! Stock.product s) as [p|] eqn:Hp; [| done].
    destruct (warehouses db !! Stock.warehouse s) as [w|] eqn:Hw; [| done].
    simpl in Hjoin. injection Hjoin as <-. by simpl in *.
  - intros (Hs & Hp & Hw & Hle). split; [| done].
    exists (Analytics.stock_pk item, Analytics.stock item).
    split; [by apply elem_of_map_to_list |].
    unfold Analytics.join. simpl. rewrite Hp. simpl. rewrite Hw. simpl.
    by destruct item.
Qed.

(** C8 (amended). A stock row appears in the low-stock report exactly when
    its available quantity is at or below the reorder point of its product;
    the report does not consult stock buffers. *)
Theorem low_stock_report_by_reorder_point db k s p w :
  stocks db !! k = Some s →
  products db !! Stock.product s = Some p →
  warehouses db !! Stock.warehouse s = Some w →
  ({| Analytics.stock_pk := k; Analytics.stock := s;
      Analytics.product := p; Analytics.warehouse := w |}
     ∈ Analytics.low_stock_items db
   ↔ Stock.quantity_available s ≤ Product.reorder_point p)
  ∧ Analytics.low_stock_report db
    = HTTP_200 (Analytics.report_row_of <$> Analytics.low_stock_items db).
Proof.
  intros Hs Hp Hw. split; [| done].
  rewrite elem_of_low_stock_items. simpl. tauto.
Qed.

(** Two pieces available against a reorder point of 3: the row is reported. *)
Lemma low_stock_report_by_reorder_point_witness :
  {| Analytics.stock_pk := 1%positive; Analytics.stock := Sample.low_stock;
     Analytics.product := Sample.product;
     Analytics.warehouse := Sample.warehouse |}
    ∈ Analytics.low_stock_items Sample.db_low.
Proof.
  destruct (low_stock_report_by_reorder_point Sample.db_low 1%positive
              Sample.low_stock Sample.product Sample.warehouse
              eq_refl eq_refl eq_refl) as [Hiff _].
  apply Hiff. simpl. lia.
Defined.

(** C8, as stated, fails: five pieces available, a reorder point of 3 and a
    stock buffer of the product with a minimum of 10; the row is at or
    below the buffer minimum and the report is empty. *)
Lemma low_stock_report_ignores_buffer :
  stocks Sample.db !! 1%positive = Some Sample.stock
  ∧ stock_buffers Sample.db !! 1%positive = Some Sample.stock_buffer
  ∧ StockBuffer.product Sample.stock_buffer = Stock.product Sample.stock
  ∧ Stock.quantity_available Sample.stock
    ≤ StockBuffer.minimum_quantity Sample.stock_buffer
  ∧ Analytics.low_stock_items Sample.db = []
  ∧ Analytics.low_stock_report Sample.db = HTTP_200 [].
Proof. vm_compute. repeat split; try done. Qed.

(** [low_stock] names a relation that [Stock] does not have. *)
Lemma low_stock_unresolved db :
  StockViewSet.low_stock db = HTTP_500 (Orm.FieldError "stock_buffers").
Proof. reflexivity. Qed.

(** ** operations/views.py: the transitions *)



















(** * Further properties *)

(** ** Digits *)

Lemma digit_not_space (c : ascii) (d : Z) :
  Py.digit_value c = Some d → Py.isspace c = false.
Proof.
  destruct c as [[] [] [] [] [] [] [] []]; vm_compute; congruence.
Qed.

Lemma digit_not_dash (c : ascii) (d : Z) :
  Py.digit_value c = Some d → Ascii.eqb c "-" = false.
Proof.
  destruct c as [[] [] [] [] [] [] [] []]; vm_compute; congruence.
Qed.

Lemma digit_value_range (c : ascii) (d : Z) :
  Py.digit_value c = Some d → 0 ≤ d ≤ 9.
Proof.
  destruct c as [[] [] [] [] [] [] [] []]; vm_compute;
    intros [= <-]; split; discriminate.
Qed.

Lemma string_of_uint_all_digits (d : Decimal.uint) :
  PyStr.all_digits (NilEmpty.string_of_uint d) = true.
Proof. induction d; simpl; done. Qed.

Lemma isdigit_string_of_uint (d : Decimal.uint) :
  PyStr.isdigit (NilZero.string_of_uint d) = true.
Proof.
  destruct d; [done | ..]; simpl; apply string_of_uint_all_digits.
Qed.

Lemma str_isdigit (n : Z) : 0 ≤ n → PyStr.isdigit (Py.str n) = true.
Proof.
  intros Hn. unfold Py.str. destruct n as [|p|p]; [done | | lia].
  cbn [Z.to_int NilZero.string_of_int]. apply isdigit_string_of_uint.
Qed.

Lemma to_int_not_nil (n : Z) :
  Z.to_int n ≠ Decimal.Pos Decimal.Nil ∧ Z.to_int n ≠ Decimal.Neg Decimal.Nil.
Proof.
  destruct n as [|p|p]; simpl; split; try done; intros [= E];
    by apply DecimalPos.Unsigned.to_uint_nonnil in E.
Qed.

Lemma str_inj (m n : Z) : Py.str m = Py.str n → m = n.
Proof.
  unfold Py.str. intros E. apply (f_equal NilZero.int_of_string) in E.
  destruct (to_int_not_nil m) as [Hm1 Hm2].
  destruct (to_int_not_nil n) as [Hn1 Hn2].
  rewrite !NilZero.isi in E by done. injection E as E.
  by apply DecimalZ.to_int_inj.
Qed.

Lemma all_digits_append (a b : string) :
  PyStr.all_digits (a +:+ b) = PyStr.all_digits a && PyStr.all_digits b.
Proof.
  induction a as [|c a IH]; [done |]. rewrite append_cons. simpl.
  by destruct (Py.digit_value c).
Qed.

Lemma all_digits_zeros (k : nat) :
  PyStr.all_digits (String.string_of_list_ascii (repeat "0"%char k)) = true.
Proof. induction k; simpl; done. Qed.

Lemma length_append (a b : string) :
  String.length (a +:+ b) = (String.length a + String.length b)%nat.
Proof.
  induction a as [|c a IH]; [done |]. rewrite append_cons. simpl. by rewrite IH.
Qed.

Lemma length_zeros (k : nat) :
  String.length (String.string_of_list_ascii (repeat "0"%char k)) = k.
Proof. induction k; simpl; [done | by f_equal]. Qed.

Lemma format_03d_digits (n : Z) :
  0 ≤ n →
  PyStr.all_digits (Py.format_03d n) = true
  ∧ (3 ≤ String.length (Py.format_03d n))%nat.
Proof.
  intros Hn. unfold Py.format_03d, Py.zfill.
  destruct (Z.ltb_spec n 0) as [?|_]; [lia |].
  pose proof (str_isdigit n Hn) as Hd. unfold PyStr.isdigit in Hd.
  split.
  - rewrite all_digits_append, all_digits_zeros. simpl.
    by destruct (Py.str n).
  - rewrite length_append, length_zeros. lia.
Qed.

(** ** [int] on digits *)

Lemma lstrip_digits (s : string) :
  PyStr.isdigit s = true → Py.lstrip s = s.
Proof.
  destruct s as [|c s]; [done |]. simpl.
  destruct (Py.digit_value c) as [d|] eqn:E; [| done]. intros _.
  by rewrite (digit_not_space c d E).
Qed.

Lemma rstrip_digits (s : string) :
  PyStr.all_digits s = true → Py.rstrip s = s.
Proof.
  induction s as [|c s IH]; [done |]. simpl.
  destruct (Py.digit_value c) as [d|] eqn:E; [| done]. intros Hs.
  rewrite (IH Hs). destruct s; [| done].
  by rewrite (digit_not_space c d E).
Qed.

Lemma digits_of_all_digits (s : string) (acc : Z) (after_digit : bool) :
  PyStr.all_digits s = true → 0 ≤ acc →
  s ≠ EmptyString ∨ after_digit = true →
  ∃ n, Py.digits s acc after_digit = Some n ∧ 0 ≤ n.
Proof.
  revert acc after_digit. induction s as [|c s IH]; intros acc b Hs Hacc Hne.
  - destruct Hne as [Hne | ->]; [done |]. by exists acc.
  - simpl in *. destruct (Py.digit_value c) as [d|] eqn:E; [| done].
    apply digit_value_range in E. apply IH; [done | lia | by right].
Qed.

Lemma int_of_digits (s : string) :
  PyStr.isdigit s = true → ∃ n, Py.int s = Some n ∧ 0 ≤ n.
Proof.
  intros Hs. unfold Py.int. rewrite (lstrip_digits s Hs).
  destruct s as [|c s]; [done |]. unfold PyStr.isdigit in Hs.
  rewrite (rstrip_digits _ Hs).
  destruct (digits_of_all_digits (String c s) 0 false Hs ltac:(lia)
              ltac:(by left)) as (n & Hn & Hpos).
  exists n. split; [| done]. rewrite <- Hn.
  simpl in Hs. destruct (Py.digit_value c) as [d|] eqn:E; [| done].
  clear -E. destruct c as [[] [] [] [] [] [] [] []]; try done;
    vm_compute in E; congruence.
Qed.

(** ** Pieces *)

Lemma split_no_separator (sep : ascii) (s : string) :
  PyStr.contains sep s = false → Py.split sep s = [s].
Proof.
  induction s as [|c s IH]; [done |]. simpl.
  destruct (Ascii.eqb c sep); [done |]. simpl. intros Hs. by rewrite (IH Hs).
Qed.

Lemma all_digits_no_dash (s : string) :
  PyStr.all_digits s = true → PyStr.contains "-" s = false.
Proof.
  induction s as [|c s IH]; [done |]. simpl.
  destruct (Py.digit_value c) as [d|] eqn:E; [| done]. intros Hs.
  by rewrite (digit_not_dash c d E), (IH Hs).
Qed.

Lemma last_piece_no_dash (s : string) :
  PyStr.contains "-" s = false → Py.last_piece s = s.
Proof. intros Hs. unfold Py.last_piece. by rewrite split_no_separator. Qed.

(** ** The number block: shape of the numbers *)

Lemma digits_nonneg (s : string) (acc : Z) (after_digit : bool) (n : Z) :
  0 ≤ acc → Py.digits s acc after_digit = Some n → 0 ≤ n.
Proof.
  revert acc after_digit. induction s as [|c s IH]; intros acc b Hacc; simpl.
  - destruct b; [| done]. by intros [= <-].
  - destruct (Py.digit_value c) as [d|] eqn:E.
    + apply digit_value_range in E. apply IH. lia.
    + destruct (Ascii.eqb c "_" && b); [| done]. by apply IH.
Qed.

Lemma contains_lstrip (sep : ascii) (s : string) :
  PyStr.contains sep s = false → PyStr.contains sep (Py.lstrip s) = false.
Proof.
  induction s as [|c s IH]; [done |]. simpl.
  intros [Hc Hs]%orb_false_elim.
  destruct (Py.isspace c); [by apply IH |]. simpl. by rewrite Hc, Hs.
Qed.

Lemma contains_rstrip (sep : ascii) (s : string) :
  PyStr.contains sep s = false → PyStr.contains sep (Py.rstrip s) = false.
Proof.
  induction s as [|c s IH]; [done |]. simpl.
  intros [Hc Hs]%orb_false_elim. specialize (IH Hs).
  destruct (Py.rstrip s) as [|c' r].
  - destruct (Py.isspace c); [done |]. simpl. by rewrite Hc.
  - simpl in *. by rewrite Hc, IH.
Qed.

Lemma int_no_dash_nonneg (s : string) (n : Z) :
  PyStr.contains "-" s = false → Py.int s = Some n → 0 ≤ n.
Proof.
  intros Hs. unfold Py.int.
  pose proof (contains_rstrip "-" _ (contains_lstrip "-" _ Hs)) as Hs'.
  destruct (Py.rstrip (Py.lstrip s)) as [|c body]; [done |].
  simpl in Hs'. apply orb_false_elim in Hs' as [Hc _].
  destruct c as [[] [] [] [] [] [] [] []]; try discriminate Hc;
    by apply digits_nonneg.
Qed.

Lemma split_pieces_no_separator (sep : ascii) (s : string) :
  Forall (λ piece, PyStr.contains sep piece = false) (Py.split sep s).
Proof.
  induction s as [|c s IH]; simpl; [by repeat constructor |].
  destruct (Ascii.eqb c sep) eqn:E; [by constructor |].
  destruct (Py.split sep s) as [|piece pieces].
  { constructor; [simpl; by rewrite E | constructor]. }
  apply Forall_cons in IH as [Hp Hps]. constructor; [| done].
  simpl. by rewrite E, Hp.
Qed.

Lemma last_in_list {A : Type} (l : list A) (d : A) :
  l ≠ [] → List.last l d ∈ l.
Proof.
  induction l as [|x l IH]; [done |]. intros _. destruct l as [|y l].
  - left.
  - right. by apply IH.
Qed.

Lemma last_piece_contains_no_dash (s : string) :
  PyStr.contains "-" (Py.last_piece s) = false.
Proof.
  pose proof (split_pieces_no_separator "-" s) as Hall.
  rewrite Forall_forall in Hall. apply Hall.
  apply last_in_list, split_nonempty.
Qed.

Lemma generated_next prefix year (n : Z) :
  0 ≤ n →
  Numbering.generated prefix year
    (Orm.year_prefix prefix year +:+ Py.format_03d n).
Proof.
  intros Hn. exists (Py.format_03d n). split; [done |].
  by apply format_03d_digits.
Qed.

Section shape_facts.
Context {R : Type} `{Orm.Numbered R}.
Implicit Types (t : gmap positive R) (obj : R).

Lemma assign_number_generated prefix now obj obj' t :
  Orm.assign_number prefix now obj t = Orm.Ok obj' →
  (Orm.number obj ≠ EmptyString → obj' = obj)
  ∧ (Orm.number obj = EmptyString →
     Numbering.generated prefix (dt_year now) (Orm.number obj')).
Proof.
  unfold Orm.assign_number.
  destruct (String.eqb_spec (Orm.number obj) EmptyString) as [Hb|Hb].
  - intros Hok. split; [done |]. intros _.
    destruct (Orm.first_desc _) as [last_no|].
    + destruct (Py.int (Py.last_piece last_no)) as [n|] eqn:E; [| done].
      injection Hok as <-. rewrite Orm.number_set_number.
      apply generated_next.
      pose proof (int_no_dash_nonneg _ _ (last_piece_contains_no_dash last_no) E).
      lia.
    + injection Hok as <-. rewrite Orm.number_set_number.
      by apply generated_next.
  - intros [= <-]. split; [done |]. by intros ?.
Qed.

Lemma save_numbered_numbers_every_document prefix :
  Numbering.numbers_every_document (Orm.save_numbered prefix) prefix.
Proof.
  intros now pk obj t t' key saved. unfold Orm.save_numbered.
  destruct (Orm.assign_number prefix now obj t) as [obj'|e] eqn:E; [| done].
  intros ([adding ->] & -> & _)%save_base_inv.
  destruct (assign_number_generated _ _ _ _ _ E) as [Hkeep Hgen].
  split; [by rewrite lookup_insert_eq |]. rewrite Orm.number_pre_save.
  split; [intros Hne; by rewrite (Hkeep Hne) | done].
Qed.

Lemma numbers_insert_fresh t key (row : R) s :
  t !! key = None →
  s ∈ Orm.numbers (<[key := row]> t) ↔ s = Orm.number row ∨ s ∈ Orm.numbers t.
Proof.
  intros Hfree. rewrite !elem_of_numbers. split.
  - intros (k & r & Hkr & <-). destruct (decide (k = key)) as [->|Hne].
    + rewrite lookup_insert_eq in Hkr. injection Hkr as ->. by left.
    + rewrite lookup_insert_ne in Hkr by done. right. eauto.
  - intros [->|(k & r & Hkr & <-)].
    + exists key, row. by rewrite lookup_insert_eq.
    + exists k, r. split; [| done]. rewrite lookup_insert_ne; [done |].
      intros <-. by rewrite Hfree in Hkr.
Qed.

Lemma save_numbered_never_unparsable prefix :
  Numbering.never_unparsable (Orm.save_numbered prefix) prefix.
Proof.
  intros now obj t Hwell Hblank. unfold Orm.save_numbered.
  destruct (Orm.assign_number prefix now obj t) as [obj'|e] eqn:E.
  - destruct (assign_number_generated _ _ _ _ _ E) as [_ Hgen].
    specialize (Hgen Hblank). unfold Orm.save_base.
    rewrite fresh_key_unused. destruct (Orm.clashes _ _ t); [by left |].
    right. do 3 eexists. split; [done |].
    intros s [->|Hs]%numbers_insert_fresh Hpre;
      [| by apply Hwell | apply fresh_key_unused].
    by rewrite Orm.number_pre_save.
  - exfalso. revert E. unfold Orm.assign_number. rewrite Hblank. simpl.
    destruct (Orm.first_desc _) as [last_no|] eqn:Hlast; [| done].
    apply first_desc_greatest in Hlast as [Hin _].
    apply list_elem_of_In, filter_In in Hin as [Hin Hpre].
    apply list_elem_of_In in Hin.
    destruct (Hwell _ Hin Hpre) as (d & -> & Hd & Hlen).
    rewrite last_piece_year_prefix,
      (last_piece_no_dash d (all_digits_no_dash d Hd)).
    destruct (int_of_digits d) as (n & -> & _); [| done].
    unfold PyStr.isdigit. destruct d; [simpl in Hlen; lia | done].
Qed.

Lemma save_numbered_blocked_by_unparsable prefix :
  Numbering.blocked_by_unparsable (Orm.save_numbered prefix) prefix.
Proof.
  intros now obj t s Hin Hpre Hint Hmax Hblank.
  unfold Orm.save_numbered, Orm.assign_number. rewrite Hblank. simpl.
  rewrite (first_desc_unique _ s).
  - by rewrite Hint.
  - apply list_elem_of_In, filter_In. split; [by apply list_elem_of_In | done].
  - intros s' [Hs' Hpre']%list_elem_of_In%filter_In.
    apply Hmax; [by apply list_elem_of_In | done].
Qed.
End shape_facts.

(** ** The number block: one sequence per year *)

Lemma prefix_append_cancel (p u v : string) :
  String.prefix (p +:+ u) (p +:+ v) = String.prefix u v.
Proof.
  induction p as [|c p IH]; [done |]. rewrite !append_cons.
  change (String.prefix (String c (p +:+ u)) (String c (p +:+ v)))
    with (if ascii_dec c c then String.prefix (p +:+ u) (p +:+ v) else false).
  destruct (ascii_dec c c) as [_|Hne]; [exact IH | by destruct Hne].
Qed.

Lemma prefix_cons_cons (c c' : ascii) (a b : string) :
  String.prefix (String c a) (String c' b)
  = if ascii_dec c c' then String.prefix a b else false.
Proof. reflexivity. Qed.

Lemma prefix_digits_dash (a b x : string) :
  PyStr.all_digits a = true → PyStr.all_digits b = true →
  String.prefix (a +:+ "-") (b +:+ String "-" x) = true → a = b.
Proof.
  revert b. induction a as [|c a IH]; intros [|c' b] Ha Hb; simpl in Ha, Hb.
  - done.
  - rewrite append_nil, append_cons.
    change ("-" : string) with (String "-" EmptyString).
    rewrite prefix_cons_cons.
    destruct (Py.digit_value c') as [d|] eqn:E; [| done].
    apply digit_not_dash in E. apply Ascii.eqb_neq in E.
    destruct (ascii_dec "-" c') as [<-|]; done.
  - rewrite append_nil, append_cons, prefix_cons_cons.
    destruct (Py.digit_value c) as [d|] eqn:E; [| done].
    apply digit_not_dash in E. apply Ascii.eqb_neq in E.
    destruct (ascii_dec c "-") as [->|]; done.
  - rewrite !append_cons, prefix_cons_cons.
    destruct (Py.digit_value c); [| done].
    destruct (Py.digit_value c'); [| done].
    destruct (ascii_dec c c') as [->|]; [| done].
    intros Hp. f_equal. by apply IH.
Qed.

Lemma year_prefix_other_year prefix (y y' : Z) (x : string) :
  0 ≤ y → 0 ≤ y' → y ≠ y' →
  Py.startswith (Orm.year_prefix prefix y) (Orm.year_prefix prefix y' +:+ x)
  = false.
Proof.
  intros Hy Hy' Hne.
  destruct (Py.startswith _ _) eqn:E; [| done]. exfalso. apply Hne.
  unfold Py.startswith, Orm.year_prefix in E.
  rewrite !append_assoc, prefix_append_cancel in E.
  change ("-" +:+ Py.str y +:+ "-") with (String "-" (Py.str y +:+ "-")) in E.
  change ("-" +:+ Py.str y' +:+ "-" +:+ x)
    with (String "-" (Py.str y' +:+ String "-" x)) in E.
  rewrite prefix_cons_cons in E. destruct (ascii_dec "-" "-"); [| done].
  pose proof (str_isdigit y Hy) as Hd. pose proof (str_isdigit y' Hy') as Hd'.
  apply str_inj, (prefix_digits_dash _ _ x); [| | done].
  - by destruct (Py.str y).
  - by destruct (Py.str y').
Qed.

Section rollover_facts.
Context {R : Type} `{Orm.Numbered R}.
Implicit Types (t : gmap positive R) (objs : list (datetime * R)).

Lemma save_base_new now (obj : R) t t' key row :
  Orm.save_base now None obj t = Orm.Ok (t', key, row) →
  t !! key = None ∧ t' = <[key := row]> t.
Proof.
  unfold Orm.save_base. destruct (Orm.clashes _ _ t); [done |].
  intros [= <- <- <-]. split; [apply fresh_key_unused | done].
Qed.

Lemma create_all_numbers prefix objs t t' saved s :
  Orm.create_all (Orm.save_numbered prefix) objs t = Orm.Ok (t', saved) →
  s ∈ Orm.numbers t' ↔ s ∈ Orm.numbers t ∨ s ∈ Orm.number <$> saved.
Proof.
  revert t saved. induction objs as [|[now obj] objs IH]; intros t saved; simpl.
  - intros [= <- <-]. rewrite fmap_nil, elem_of_nil. tauto.
  - destruct (Orm.save_numbered prefix now None obj t)
      as [[[t1 key] row]|e] eqn:E; [| done].
    destruct (Orm.create_all _ objs t1) as [[t2 l]|e] eqn:E'; [| done].
    intros [= <- <-]. rewrite (IH _ _ E'), fmap_cons, elem_of_cons.
    unfold Orm.save_numbered in E.
    destruct (Orm.assign_number prefix now obj t) as [obj'|e]; [| done].
    apply save_base_new in E as [Hfree ->].
    rewrite (numbers_insert_fresh _ _ _ _ Hfree). tauto.
Qed.

Lemma save_numbered_restarts_each_year prefix :
  Numbering.restarts_each_year (Orm.save_numbered prefix) prefix.
Proof.
  intros y y' objs objs' t Hy Hy' Hne Hlen Hlen' Hblank Hblank' Hno Hno'.
  destruct (save_numbered_in_sequence prefix y objs t Hlen Hblank Hno)
    as (t1 & saved & Hall & Hnums & _).
  assert (Orm.no_number_of_year prefix y' t1) as Hno1.
  { intros s [Hs|Hs]%(create_all_numbers _ _ _ _ _ _ Hall); [by apply Hno' |].
    rewrite Hnums in Hs. unfold Orm.year_sequence in Hs.
    apply list_elem_of_fmap in Hs as (j & -> & _).
    apply year_prefix_other_year; [done | done | congruence]. }
  destruct (save_numbered_in_sequence prefix y' objs' t1 Hlen' Hblank' Hno1)
    as (t2 & saved' & Hall' & Hnums' & _).
  by exists t1, saved, t2, saved'.
Qed.
End rollover_facts.

(** ** The number block in the six [save] methods *)

Lemma Order_numbers_every_document :
  Numbering.numbers_every_document Order.save "ORD".
Proof.
  intros now pk obj t t' key saved. rewrite Order_save_numbered.
  intros Hsave.
  exact (save_numbered_numbers_every_document "ORD" now pk _ t t' key saved
           Hsave).
Qed.

Lemma Order_never_unparsable : Numbering.never_unparsable Order.save "ORD".
Proof.
  intros now obj t Hwell Hblank.
  destruct (save_numbered_never_unparsable "ORD" now
              (Order.set_total_amount
                 (Order.subtotal obj + Order.tax_amount obj
                  + Order.shipping_amount obj - Order.discount_amount obj) obj)
              t Hwell Hblank) as [Hraise|(t' & key & saved & Hsave & Hwell')].
  - left. by rewrite Order_save_numbered.
  - right. exists t', key, saved. by rewrite Order_save_numbered.
Qed.

Lemma Order_blocked_by_unparsable :
  Numbering.blocked_by_unparsable Order.save "ORD".
Proof.
  intros now obj t s Hin Hpre Hint Hmax Hblank. rewrite Order_save_numbered.
  by apply (save_numbered_blocked_by_unparsable "ORD" now _ t s).
Qed.

Lemma Order_restarts_each_year : Numbering.restarts_each_year Order.save "ORD".
Proof.
  intros y y' objs objs' t Hy Hy' Hne Hlen Hlen' Hblank Hblank' Hno Hno'.
  pose (f := λ self : Order.t,
          Order.set_total_amount
            (Order.subtotal self + Order.tax_amount self
             + Order.shipping_amount self - Order.discount_amount self) self).
  destruct (save_numbered_restarts_each_year "ORD" y y'
              (prod_map id f <$> objs) (prod_map id f <$> objs') t)
    as (t1 & saved & t2 & saved' & Hall & Hall' & Hnums & Hnums');
    try done; try (by rewrite length_fmap).
  - unfold Orm.blank_in_year in *. rewrite Forall_fmap.
    eapply Forall_impl; [exact Hblank |]. by intros [now self].
  - unfold Orm.blank_in_year in *. rewrite Forall_fmap.
    eapply Forall_impl; [exact Hblank' |]. by intros [now self].
  - exists t1, saved, t2, saved'. rewrite length_fmap in Hnums, Hnums'.
    rewrite !(create_all_ext Order.save (Orm.save_numbered "ORD") f)
      by apply Order_save_numbered.
    done.
Qed.

Ltac six_models :=
  split; [| split; [| split; [| split; [| split]]]].

(** X1. After every successful [save] of a document of the six models the
    document is stored with a number: the one it had, if it had one (so
    saving a stored document again never renumbers it), and otherwise
    PREFIX-YYYY- followed by three or more digits and nothing else. *)
Theorem saved_documents_are_numbered :
  Numbering.numbers_every_document Adjustment.save "ADJ"
  ∧ Numbering.numbers_every_document Transfer.save "TRF"
  ∧ Numbering.numbers_every_document Receiving.save "RCV"
  ∧ Numbering.numbers_every_document Shipment.save "SHP"
  ∧ Numbering.numbers_every_document Return.save "RTN"
  ∧ Numbering.numbers_every_document Order.save "ORD".
Proof.
  six_models;
    first [apply Order_numbers_every_document
          | apply save_numbered_numbers_every_document].
Qed.

(** The sample transfer, saved again under its key, keeps TRF-2025-001; the
    sample order, saved for the first time, gets a generated number. *)
Lemma saved_documents_are_numbered_witness :
  (∃ t' key saved,
     Transfer.save Sample.now (Some 1%positive) Sample.approved_transfer
       (transfers Sample.db) = Orm.Ok (t', key, saved)
     ∧ Transfer.transfer_no saved = "TRF-2025-001")
  ∧ ∃ t' key saved,
      Order.save Sample.now None Sample.order ∅ = Orm.Ok (t', key, saved)
      ∧ Numbering.generated "ORD" 2025 (Order.order_no saved).
Proof.
  destruct saved_documents_are_numbered as (_ & Htrf & _ & _ & _ & Hord).
  split.
  - assert (∃ t' key saved,
              Transfer.save Sample.now (Some 1%positive)
                Sample.approved_transfer (transfers Sample.db)
              = Orm.Ok (t', key, saved)) as (t' & key & saved & Hsave)
      by (do 3 eexists; vm_compute; reflexivity).
    exists t', key, saved. split; [exact Hsave |].
    destruct (Htrf _ _ _ _ _ _ _ Hsave) as (_ & Hkeep & _).
    apply Hkeep. discriminate.
  - assert (∃ t' key saved,
              Order.save Sample.now None Sample.order ∅
              = Orm.Ok (t', key, saved)) as (t' & key & saved & Hsave)
      by (do 3 eexists; vm_compute; reflexivity).
    exists t', key, saved. split; [exact Hsave |].
    destruct (Hord _ _ _ _ _ _ _ Hsave) as (_ & _ & Hgen).
    apply Hgen. reflexivity.
Defined.

(** X2. In a table where every number of the year is PREFIX-YYYY- followed
    by digits, creating a document without a number never fails in [int]:
    it succeeds and leaves the table in that shape, or it fails on the
    unique constraint. *)
Theorem creation_never_unparsable :
  Numbering.never_unparsable Adjustment.save "ADJ"
  ∧ Numbering.never_unparsable Transfer.save "TRF"
  ∧ Numbering.never_unparsable Receiving.save "RCV"
  ∧ Numbering.never_unparsable Shipment.save "SHP"
  ∧ Numbering.never_unparsable Return.save "RTN"
  ∧ Numbering.never_unparsable Order.save "ORD".
Proof.
  six_models;
    first [apply Order_never_unparsable | apply save_numbered_never_unparsable].
Qed.

(** The first adjustment of an empty table. *)
Lemma creation_never_unparsable_witness :
  Adjustment.save Sample.now None Sample.adjustment ∅
  = Orm.Raise Orm.IntegrityError
  ∨ ∃ t' key saved,
      Adjustment.save Sample.now None Sample.adjustment ∅
      = Orm.Ok (t', key, saved)
      ∧ Numbering.well_numbered "ADJ" 2025 t'.
Proof.
  destruct creation_never_unparsable as (Hadj & _).
  apply (Hadj Sample.now Sample.adjustment ∅); [| reflexivity].
  intros s Hs. unfold Orm.numbers in Hs. rewrite map_to_list_empty in Hs.
  by apply elem_of_nil in Hs.
Defined.

(** X3. If the greatest number of the year in text order has a last piece
    that [int] rejects, every creation of a document without a number in
    that year raises ValueError. *)
Theorem creation_blocked_by_unparsable_number :
  Numbering.blocked_by_unparsable Adjustment.save "ADJ"
  ∧ Numbering.blocked_by_unparsable Transfer.save "TRF"
  ∧ Numbering.blocked_by_unparsable Receiving.save "RCV"
  ∧ Numbering.blocked_by_unparsable Shipment.save "SHP"
  ∧ Numbering.blocked_by_unparsable Return.save "RTN"
  ∧ Numbering.blocked_by_unparsable Order.save "ORD".
Proof.
  six_models;
    first [apply Order_blocked_by_unparsable
          | apply save_numbered_blocked_by_unparsable].
Qed.

(** With ADJ-2025-A01 stored, no adjustment can be created in 2025. *)
Lemma creation_blocked_by_unparsable_number_witness :
  Adjustment.save Sample.now None Sample.adjustment
    {[1%positive := Fixture.hand_numbered_adjustment]}
  = Orm.Raise Orm.ValueError.
Proof.
  destruct creation_blocked_by_unparsable_number as (Hadj & _).
  apply (Hadj Sample.now Sample.adjustment _ "ADJ-2025-A01").
  - apply elem_of_numbers. exists 1%positive, Fixture.hand_numbered_adjustment.
    split; [apply lookup_singleton_eq | reflexivity].
  - reflexivity.
  - reflexivity.
  - intros s' (k & r & Hkr & <-)%elem_of_numbers _.
    apply lookup_singleton_Some in Hkr as [_ <-]. apply str_lt_irrefl.
  - reflexivity.
Defined.

(** X4. Documents of one year do not count for another: after up to 1000
    documents created in one year, up to 1000 documents created in another
    year are numbered from 001 again. *)
Theorem numbering_restarts_each_year :
  Numbering.restarts_each_year Adjustment.save "ADJ"
  ∧ Numbering.restarts_each_year Transfer.save "TRF"
  ∧ Numbering.restarts_each_year Receiving.save "RCV"
  ∧ Numbering.restarts_each_year Shipment.save "SHP"
  ∧ Numbering.restarts_each_year Return.save "RTN"
  ∧ Numbering.restarts_each_year Order.save "ORD".
Proof.
  six_models;
    first [apply Order_restarts_each_year
          | apply save_numbered_restarts_each_year].
Qed.

(** Two adjustments in 2025, then two in 2026. *)
Lemma numbering_restarts_each_year_witness :
  ∃ t1 saved t2 saved',
    Orm.create_all Adjustment.save
      (replicate 2 (Sample.now, Sample.adjustment)) ∅ = Orm.Ok (t1, saved)
    ∧ Orm.create_all Adjustment.save
        (replicate 2 (Fixture.next_year, Sample.adjustment)) t1
      = Orm.Ok (t2, saved')
    ∧ Adjustment.adjustment_no <$> saved = ["ADJ-2025-001"; "ADJ-2025-002"]
    ∧ Adjustment.adjustment_no <$> saved' = ["ADJ-2026-001"; "ADJ-2026-002"].
Proof.
  destruct numbering_restarts_each_year as (Hadj & _).
  apply (Hadj 2025 2026 (replicate 2 (Sample.now, Sample.adjustment))
           (replicate 2 (Fixture.next_year, Sample.adjustment)) ∅).
  - lia.
  - lia.
  - lia.
  - simpl. lia.
  - simpl. lia.
  - repeat constructor.
  - repeat constructor.
  - apply no_number_in_empty_table.
  - apply no_number_in_empty_table.
Defined.

(** ** inventory/views.py: the life cycle of a transfer *)








(** ** inventory/views.py: the pending lists *)

Lemma newer_first_total : Total Pending.newer_first.
Proof.
  intros [| | | |x] [| | | |y]; simpl; first [left; exact I | lia].
Qed.

#[global] Instance adjustment_order_total : Total Pending.adjustment_order.
Proof. intros a b. apply newer_first_total. Qed.

#[global] Instance transfer_order_total : Total Pending.transfer_order.
Proof. intros a b. apply newer_first_total. Qed.







(** ** operations/views.py: what the transitions leave alone *)

Lemma Order_save_inv now pk order table table' key row :
  Order.save now (Some pk) order table = Orm.Ok (table', key, row) →
  key = pk ∧ table' = <[pk := row]> table.
Proof.
  rewrite Order_save_numbered.
  by intros (_ & _ & _ & _ & -> & ->)%save_numbered_inv.
Qed.

Ltac frame_of_view only_row :=
  match goal with
  | |- only_row ?pk ?db (snd (?view _ _ _ _)) => unfold view
  end;
  match goal with
  | |- context [match ?table !! ?pk with _ => _ end] =>
      destruct (table !! pk); [| by repeat split]
  end;
  match goal with
  | |- only_row ?pk ?db _ =>
      apply (save_and_respond_frame _ _ _ (only_row pk db));
        [by repeat split |]
  end;
  let Hsave := fresh "Hsave" in
  intros ? ? ? Hsave;
  first [apply save_numbered_inv in Hsave as (_ & _ & _ & _ & _ & ->)
        | apply Order_save_inv in Hsave as [_ ->]];
  repeat split; intros k Hk; simpl; by rewrite lookup_insert_ne.

(** X9. Every transition endpoint on receivings, shipments, returns and
    orders writes at most the row of its own document: stock rows, stock
    buffers, products, warehouses, the documents of the other kinds and the
    other documents of the same kind are as before, on every path. *)
Theorem operations_transitions_frame now request pk db :
  (Frame.only_receiving pk db (snd (ReceivingViewSet.inspect now request pk db))
   ∧ Frame.only_receiving pk db
       (snd (ReceivingViewSet.approve now request pk db))
   ∧ Frame.only_receiving pk db
       (snd (ReceivingViewSet.reject now request pk db)))
  ∧ (Frame.only_shipment pk db (snd (ShipmentViewSet.pack now request pk db))
     ∧ Frame.only_shipment pk db (snd (ShipmentViewSet.ship now request pk db))
     ∧ Frame.only_shipment pk db
         (snd (ShipmentViewSet.deliver now request pk db)))
  ∧ (Frame.only_return pk db (snd (ReturnViewSet.inspect now request pk db))
     ∧ Frame.only_return pk db (snd (ReturnViewSet.approve now request pk db))
     ∧ Frame.only_return pk db (snd (ReturnViewSet.process now request pk db)))
  ∧ (Frame.only_order pk db (snd (OrderViewSet.confirm now request pk db))
     ∧ Frame.only_order pk db (snd (OrderViewSet.process now request pk db))
     ∧ Frame.only_order pk db (snd (OrderViewSet.ship now request pk db))
     ∧ Frame.only_order pk db (snd (OrderViewSet.deliver now request pk db))).
Proof.
  split; [| split; [| split]].
  - split; [| split]; frame_of_view Frame.only_receiving.
  - split; [| split]; frame_of_view Frame.only_shipment.
  - split; [| split]; frame_of_view Frame.only_return.
  - split; [| split; [| split]]; frame_of_view Frame.only_order.
Qed.

(** ** The reports and summaries *)

#[global] Instance shortage_le_total : Total Analytics.shortage_le.
Proof. intros a b. unfold Analytics.shortage_le. lia. Qed.

(** X10. The low-stock report answers 200 with its rows in ascending order of
    shortage; every row is a stock row at or below the reorder point of its
    product, so its shortage is the reorder point minus the quantity and is
    never negative: the clamp [max(0, shortage)] changes no row. *)
Theorem low_stock_report_sorted db :
  ∃ rows,
    Analytics.low_stock_report db = HTTP_200 rows
    ∧ Sorted (λ a b, Analytics.row_shortage a ≤ Analytics.row_shortage b) rows
    ∧ rows = Analytics.report_row_of <$> Analytics.low_stock_items db
    ∧ Forall
        (λ item,
           Analytics.row_shortage (Analytics.report_row_of item)
           = Product.reorder_point (Analytics.product item)
             - Stock.quantity_available (Analytics.stock item)
           ∧ 0 ≤ Analytics.row_shortage (Analytics.report_row_of item))
        (Analytics.low_stock_items db).
Proof.
  eexists. split; [reflexivity |].
  assert (Hitems : Forall (λ item, 0 ≤ Analytics.shortage item)
                          (Analytics.low_stock_items db)).
  { apply Forall_forall. intros item Hitem.
    apply elem_of_low_stock_items in Hitem as (_ & _ & _ & Hle).
    unfold Analytics.shortage. lia. }
  split; [| split; [reflexivity |]].
  - assert (Hsorted : Sorted Analytics.shortage_le (Analytics.low_stock_items db))
      by apply (Sorted_merge_sort Analytics.shortage_le).
    revert Hitems Hsorted.
    generalize (Analytics.low_stock_items db). intros items Hitems Hsorted.
    induction Hsorted as [| item items Hsorted IH Hhd];
      [constructor |].
    apply Forall_cons in Hitems as [Hitem Hitems].
    rewrite fmap_cons. constructor; [by apply IH |].
    destruct Hhd as [| item' items' Hle]; [constructor |].
    apply Forall_cons in Hitems as [Hitem' _].
    rewrite fmap_cons. constructor. simpl.
    unfold Analytics.shortage_le in Hle. lia.
  - eapply Forall_impl; [exact Hitems |].
    intros item Hitem. simpl. unfold Analytics.shortage in *. lia.
Qed.

Lemma low_stock_rows_length db :
  (∀ k stock, stocks db !! k = Some stock →
     is_Some (products db !! Stock.product stock) →
     is_Some (warehouses db !! Stock.warehouse stock)) →
  length (Analytics.low_stock_items db)
  = length (List.filter (Summary.at_reorder_point db) (Summary.stock_rows db)).
Proof.
  intros Hjoin. unfold Analytics.low_stock_items, Summary.stock_rows.
  rewrite (Permutation_length (merge_sort_Permutation _ _)).
  assert (Hrows : ∀ ks, ks ∈ map_to_list (stocks db) →
                        is_Some (products db !! Stock.product ks.2) →
                        is_Some (warehouses db !! Stock.warehouse ks.2)).
  { intros [k stock] Hks. apply elem_of_map_to_list in Hks.
    exact (Hjoin k stock Hks). }
  clear Hjoin. revert Hrows.
  generalize (map_to_list (stocks db)). intros rows Hrows.
  induction rows as [| ks rows IH]; [done |].
  rewrite fmap_cons. cbn [omap list_omap List.filter].
  assert (IH' := IH (λ ks' Hks', Hrows ks' (list_elem_of_further _ _ _ Hks'))).
  assert (Hks := Hrows ks (list_elem_of_here _ _)).
  unfold Summary.at_reorder_point at 1, StockViewSet.product_reorder_point.
  unfold Analytics.join at 1.
  fold (omap (Analytics.join db) rows).
  destruct (products db !! Stock.product ks.2) as [p |] eqn:Hp; simpl.
  - destruct Hks as [w Hw]; [by eexists |]. rewrite Hw. simpl.
    destruct (Stock.quantity_available ks.2 <=? Product.reorder_point p);
      simpl; by rewrite IH'.
  - done.
Qed.

(** X11. When every stock row points to a stored warehouse, the counter
    [low_stock_items] of the stock summary and of the inventory summary is the
    number of rows of the low-stock report. *)
Theorem low_stock_count_matches_report db rows :
  (∀ k stock, stocks db !! k = Some stock →
     is_Some (warehouses db !! Stock.warehouse stock)) →
  Analytics.low_stock_report db = HTTP_200 rows →
  Summary.low_stock_items (Summary.StockViewSet_summary db)
  = Z.of_nat (length rows)
  ∧ Summary.inv_low_stock_items (Summary.inventory_summary db)
    = Z.of_nat (length rows).
Proof.
  intros Hjoin [= <-]. rewrite length_fmap, low_stock_rows_length; [done |].
  intros k stock Hk _. exact (Hjoin k stock Hk).
Qed.

Lemma low_stock_count_matches_report_witness :
  Summary.low_stock_items (Summary.StockViewSet_summary Sample.db_low) = 1
  ∧ Summary.inv_low_stock_items (Summary.inventory_summary Sample.db_low) = 1.
Proof.
  apply (low_stock_count_matches_report Sample.db_low
           [Analytics.report_row_of
              {| Analytics.stock_pk := 1; Analytics.stock := Sample.low_stock;
                 Analytics.product := Sample.product;
                 Analytics.warehouse := Sample.warehouse |}]).
  - intros k stock Hk. simpl in Hk.
    apply lookup_singleton_Some in Hk as [_ <-]. by eexists.
  - reflexivity.
Defined.

Lemma size_list_to_set_le (keys : list positive) :
  (size (list_to_set keys : gset positive) ≤ length keys)%nat.
Proof.
  induction keys as [| k keys IH].
  - by rewrite list_to_set_nil, size_empty.
  - rewrite list_to_set_cons, size_union_alt, size_singleton. simpl length.
    assert ((size (list_to_set keys ∖ {[k]} : gset positive)
             ≤ size (list_to_set keys : gset positive))%nat)
      by (apply subseteq_size; intros x [Hx _]%elem_of_difference; done).
    lia.
Qed.

Lemma count_distinct_le_length (keys : list positive) :
  0 ≤ Aggregate.count_distinct keys ≤ Z.of_nat (length keys).
Proof.
  unfold Aggregate.count_distinct. pose proof (size_list_to_set_le keys). lia.
Qed.

Lemma fmap_nil_iff {A B : Type} (f : A → B) (rows : list A) :
  f <$> rows = [] ↔ rows = [].
Proof. by destruct rows. Qed.

Lemma count_distinct_zero (keys : list positive) :
  Aggregate.count_distinct keys = 0 ↔ keys = [].
Proof.
  unfold Aggregate.count_distinct. split.
  - intros Hsize. destruct keys as [| k keys]; [done |].
    assert (Hempty : (list_to_set (k :: keys) : gset positive) ≡ ∅)
      by (apply size_empty_iff; lia).
    set_solver.
  - intros ->. by rewrite list_to_set_nil, size_empty.
Qed.

Lemma count_distinct_filter {A : Type} (f : A → positive) (g : A → bool)
    (rows : list A) :
  Aggregate.count_distinct (f <$> List.filter g rows)
  ≤ Aggregate.count_distinct (f <$> rows).
Proof.
  unfold Aggregate.count_distinct. apply inj_le, subseteq_size.
  intros k. rewrite !elem_of_list_to_set, !list_elem_of_fmap.
  intros (row & -> & Hrow). exists row. split; [done |].
  apply list_elem_of_In. apply list_elem_of_In, filter_In in Hrow. tauto.
Qed.

Lemma count_bounds {A : Type} (f : A → bool) (rows : list A) :
  0 ≤ Aggregate.count f rows ≤ Z.of_nat (length rows).
Proof.
  unfold Aggregate.count. pose proof (filter_length_le f rows). lia.
Qed.

Lemma length_stock_rows db : length (Summary.stock_rows db) = size (stocks db).
Proof.
  unfold Summary.stock_rows. by rewrite length_fmap, length_map_to_list.
Qed.

Lemma stock_rows_nil db : Summary.stock_rows db = [] ↔ stocks db = ∅.
Proof.
  unfold Summary.stock_rows. rewrite fmap_nil_iff.
  apply map_to_list_empty_iff.
Qed.

Lemma sum_some_none {A : Type} (f : A → Z) (rows : list A) :
  Aggregate.sum ((λ row, Some (f row)) <$> rows) = None ↔ rows = [].
Proof. destruct rows; simpl; split; done. Qed.

Lemma sum_none (values : list (option Z)) :
  Aggregate.sum values = None ↔ Forall (λ v, v = None) values.
Proof.
  unfold Aggregate.sum. induction values as [| [x |] values IH]; simpl.
  - split; [constructor | done].
  - split; [done |]. by intros [[=] _]%Forall_cons.
  - rewrite IH. split; [by constructor |]. by intros [_ ?]%Forall_cons.
Qed.

(** X12. Bounds of the inventory summary: the products in stock are among the
    products counted, and no counter exceeds the number of stock rows. The
    product counter is 0, and the total quantity null, exactly when there is
    no stock row; the total value is null exactly when no row has a value. *)
Theorem inventory_summary_bounds db :
  let summary := Summary.inventory_summary db in
  let rows := Z.of_nat (size (stocks db)) in
  0 ≤ Summary.inv_active_products summary
    ≤ Summary.inv_total_products summary
  ∧ Summary.inv_total_products summary ≤ rows
  ∧ 0 ≤ Summary.inv_total_warehouses summary ≤ rows
  ∧ 0 ≤ Summary.inv_total_locations summary ≤ rows
  ∧ 0 ≤ Summary.inv_low_stock_items summary ≤ rows
  ∧ (Summary.inv_total_products summary = 0 ↔ stocks db = ∅)
  ∧ (Summary.inv_total_quantity summary = None ↔ stocks db = ∅)
  ∧ (Summary.inv_total_stock_value summary = None
     ↔ ∀ k stock, stocks db !! k = Some stock → Stock.total_value stock = None).
Proof.
  simpl. rewrite <- length_stock_rows.
  pose proof (count_distinct_le_length
                (Stock.product <$> Summary.stock_rows db)) as Hp.
  pose proof (count_distinct_le_length
                (Stock.warehouse <$> Summary.stock_rows db)) as Hw.
  pose proof (count_distinct_le_length
                (Stock.location <$> Summary.stock_rows db)) as Hl.
  pose proof (count_distinct_le_length
                (Stock.product
                 <$> List.filter (λ s, 0 <? Stock.quantity_available s)
                       (Summary.stock_rows db))) as Ha.
  pose proof (count_distinct_filter Stock.product
                (λ s, 0 <? Stock.quantity_available s)
                (Summary.stock_rows db)) as Haf.
  pose proof (count_bounds (Summary.at_reorder_point db)
                (Summary.stock_rows db)) as Hc.
  rewrite !length_fmap in *.
  repeat (split; [lia |]).
  split; [| split].
  - rewrite count_distinct_zero, fmap_nil_iff. apply stock_rows_nil.
  - rewrite sum_some_none. apply stock_rows_nil.
  - rewrite sum_none, Forall_fmap, Forall_forall. unfold Summary.stock_rows.
    split.
    + intros Hall k stock Hk. apply (Hall stock).
      apply list_elem_of_fmap. exists (k, stock).
      split; [done |]. by apply elem_of_map_to_list.
    + intros Hall stock ([k stock'] & -> & Hk)%list_elem_of_fmap.
      apply elem_of_map_to_list in Hk. exact (Hall k stock' Hk).
Qed.

Lemma count_cons {A : Type} (f : A → bool) (row : A) (rows : list A) :
  Aggregate.count f (row :: rows)
  = (if f row then 1 else 0) + Aggregate.count f rows.
Proof.
  unfold Aggregate.count. simpl. destruct (f row); simpl length; lia.
Qed.


(** X13. In the order summary the four status counters never exceed
    [total_orders], which counts every order: the difference is the number of
    orders in a status other than pending, processing, shipped and delivered
    (a confirmed order, for one). *)
Theorem order_summary_buckets db :
  let summary := Summary.OrderViewSet_summary db in
  Summary.total_orders summary = Z.of_nat (size (orders db))
  ∧ Summary.total_orders summary
    = Summary.pending_orders summary + Summary.processing_orders summary
      + Summary.shipped_orders summary + Summary.delivered_orders summary
      + Aggregate.count Summary.uncounted (Summary.order_rows db)
  ∧ Summary.pending_orders summary + Summary.processing_orders summary
    + Summary.shipped_orders summary + Summary.delivered_orders summary
    ≤ Summary.total_orders summary.
Proof.
  simpl.
  assert (Hsum : Aggregate.count (λ _, true) (Summary.order_rows db)
    = Aggregate.count (Summary.has_status "pending") (Summary.order_rows db)
      + Aggregate.count (Summary.has_status "processing") (Summary.order_rows db)
      + Aggregate.count (Summary.has_status "shipped") (Summary.order_rows db)
      + Aggregate.count (Summary.has_status "delivered") (Summary.order_rows db)
      + Aggregate.count Summary.uncounted (Summary.order_rows db)).
  { induction (Summary.order_rows db) as [| order rows IH]; [done |].
    rewrite !count_cons, IH. unfold Summary.uncounted, Summary.has_status.
    destruct (String.eqb_spec (Order.status order) "pending") as [E | _];
      [rewrite ?E; simpl; lia |].
    destruct (String.eqb_spec (Order.status order) "processing") as [E | _];
      [rewrite ?E; simpl; lia |].
    destruct (String.eqb_spec (Order.status order) "shipped") as [E | _];
      [rewrite ?E; simpl; lia |].
    destruct (String.eqb_spec (Order.status order) "delivered");
      simpl; lia. }
  split; [| split; [exact Hsum |]].
  - unfold Aggregate.count, Summary.order_rows.
    rewrite (forallb_filter_id (λ _ : Order.t, true)).
    + by rewrite length_fmap, length_map_to_list.
    + by apply forallb_forall.
  - pose proof (count_bounds Summary.uncounted (Summary.order_rows db)). lia.
Qed.





(** ** Numbers as text *)

Lemma int_isdigit (s : string) :
  PyStr.isdigit s = true → Py.int s = Py.digits s 0 false.
Proof.
  intros Hs. unfold Py.int. rewrite (lstrip_digits s Hs).
  destruct s as [|c s]; [done |]. unfold PyStr.isdigit in Hs.
  rewrite (rstrip_digits _ Hs).
  simpl in Hs. destruct (Py.digit_value c) as [d|] eqn:E; [| done].
  clear -E. destruct c as [[] [] [] [] [] [] [] []]; try done;
    vm_compute in E; congruence.
Qed.

Lemma digits_of_uint_acc (d : Decimal.uint) (p : positive) :
  Py.digits (NilEmpty.string_of_uint d) (Z.pos p) true
  = Some (Z.pos (Pos.of_uint_acc d p)).
Proof.
  revert p. induction d as [| d IH | d IH | d IH | d IH | d IH | d IH | d IH
                            | d IH | d IH | d IH]; intros p; [done | ..];
    cbn [NilEmpty.string_of_uint Py.digits Pos.of_uint_acc];
    match goal with
    | |- context [Py.digit_value ?c] =>
        change (Py.digit_value c) with (Some (Z.of_N (N_of_ascii c) - 48))
    end;
    cbn [N_of_ascii N_of_digits]; rewrite <- IH; f_equal; lia.
Qed.

Lemma digits_of_uint (d : Decimal.uint) :
  Py.digits (NilEmpty.string_of_uint d) 0 true = Some (Z.of_N (Pos.of_uint d)).
Proof.
  induction d as [| d IH | d IH | d IH | d IH | d IH | d IH | d IH
                  | d IH | d IH | d IH]; [done | exact IH | ..];
    cbn [NilEmpty.string_of_uint Py.digits Pos.of_uint];
    match goal with
    | |- context [Py.digit_value ?c] =>
        change (Py.digit_value c) with (Some (Z.of_N (N_of_ascii c) - 48))
    end;
    cbn [N_of_ascii N_of_digits Z.of_N]; rewrite <- digits_of_uint_acc;
    f_equal.
Qed.

(** [int(str(n))] is [n]. *)
Lemma int_str (n : Z) : 0 ≤ n → Py.int (Py.str n) = Some n.
Proof.
  intros Hn. rewrite int_isdigit by by apply str_isdigit.
  unfold Py.str. destruct n as [| p | p]; [done | | lia].
  cbn [Z.to_int NilZero.string_of_int].
  pose proof (DecimalPos.Unsigned.of_to p) as Hp.
  pose proof (DecimalPos.Unsigned.to_uint_nonnil p) as Hnil.
  destruct (Pos.to_uint p) as [| d | d | d | d | d | d | d | d | d | d];
    [done | ..];
    match goal with
    | |- Py.digits (NilZero.string_of_uint ?u) 0 false = _ =>
        change (Py.digits (NilZero.string_of_uint u) 0 false)
          with (Py.digits (NilEmpty.string_of_uint u) 0 true);
        rewrite (digits_of_uint u), Hp
    end; done.
Qed.

(** ** operations/models.py: order lines *)



(** ** master/models.py: location codes *)

Lemma contains_append (sep : ascii) (a b : string) :
  PyStr.contains sep (a +:+ b) = PyStr.contains sep a || PyStr.contains sep b.
Proof.
  induction a as [| c a IH]; [done |].
  rewrite append_cons. simpl. rewrite IH. by rewrite orb_assoc.
Qed.

Lemma split_join (parts : list string) :
  parts ≠ [] →
  Forall (λ part, PyStr.contains "-" part = false) parts →
  Py.split "-" (PyStr.join "-" parts) = parts.
Proof.
  induction parts as [| part parts IH]; [done |]. intros _ Hparts.
  apply Forall_cons in Hparts as [Hpart Hparts].
  destruct parts as [| part' parts].
  - simpl. by apply split_no_separator.
  - change (PyStr.join "-" (part :: part' :: parts))
      with (part +:+ "-" +:+ PyStr.join "-" (part' :: parts)).
    change ("-" +:+ PyStr.join "-" (part' :: parts))
      with (String "-" (PyStr.join "-" (part' :: parts))).
    rewrite split_append, IH by done.
    by rewrite split_no_separator.
Qed.

Lemma Location_save_inv now pk (self : Location.t) table table' key saved :
  Location.save now pk self table = Orm.Ok (table', key, saved) →
  table' = <[key := saved]> table
  ∧ Location.code saved
    = (if String.eqb (Location.code self) EmptyString
       then PyStr.join "-" (Location.parts self)
       else Location.code self)
  ∧ Location.aisle saved = Location.aisle self
  ∧ Location.rack saved = Location.rack self
  ∧ Location.bin saved = Location.bin self
  ∧ Location.level saved = Location.level self
  ∧ Location.warehouse saved = Location.warehouse self
  ∧ ∀ k row, table !! k = Some row → k ≠ key →
      Location.code row ≠ Location.code saved.
Proof.
  unfold Location.save, Orm.save_base.
  match goal with
  | |- context [Orm.clashes ?k ?r table] =>
      destruct (Orm.clashes k r table) eqn:Hclash; [done |]
  end.
  intros [= <- <- <-]. split; [done |].
  repeat (split; [by destruct (String.eqb (Location.code self) EmptyString) |]).
  intros k row Hk Hne Hcode.
  apply not_true_iff_false in Hclash. apply Hclash.
  apply clashes_true_iff. exists k, row. split; [done |]. split; [done |].
  simpl. apply orb_true_iff. left. apply String.eqb_eq. by rewrite Hcode.
Qed.

(** X16. What [save] stores as the code of a location: a code given by the
    caller is kept, a missing one is made of the parts joined by dashes, and
    no other location of the table has the code stored. When the aisle, the
    rack and the bin hold no dash (and the level is not negative), a derived
    code splits at its dashes into the aisle (unless missing or empty), the
    rack, the bin and the level (unless missing or 0). *)
Theorem location_code_on_save now pk (self : Location.t) table table' key saved :
  Location.save now pk self table = Orm.Ok (table', key, saved) →
  table' !! key = Some saved
  ∧ (Location.code self ≠ EmptyString →
     Location.code saved = Location.code self)
  ∧ (Location.code self = EmptyString →
     Location.code saved = PyStr.join "-" (Location.parts self)
     ∧ (from_option (λ aisle, PyStr.contains "-" aisle = false) True
          (Location.aisle self) →
        PyStr.contains "-" (Location.rack self) = false →
        PyStr.contains "-" (Location.bin self) = false →
        from_option (λ level, 0 ≤ level) True (Location.level self) →
        Py.split "-" (Location.code saved) = Location.parts self))
  ∧ (∀ k row, table' !! k = Some row → k ≠ key →
       Location.code row ≠ Location.code saved).
Proof.
  intros (-> & Hcode & _ & _ & _ & _ & _ & Huniq)%Location_save_inv.
  split; [by rewrite lookup_insert_eq |]. split; [| split].
  - intros Hgiven. apply String.eqb_neq in Hgiven. by rewrite Hgiven in Hcode.
  - intros Hnone. rewrite Hnone in Hcode. simpl in Hcode.
    split; [done |]. intros Haisle Hrack Hbin Hlevel. rewrite Hcode.
    apply split_join.
    + unfold Location.parts. by destruct (Location.aisle self) as [a |];
        [destruct (String.eqb a EmptyString) |].
    + unfold Location.parts. rewrite !Forall_app. split; [| split].
      * destruct (Location.aisle self) as [a |]; [| constructor].
        destruct (String.eqb a EmptyString); by repeat constructor.
      * by repeat constructor.
      * destruct (Location.level self) as [n |]; [| constructor].
        destruct (n =? 0); repeat constructor.
        apply all_digits_no_dash.
        pose proof (str_isdigit n Hlevel) as Hn.
        unfold PyStr.isdigit in Hn. by destruct (Py.str n).
  - intros k row Hk Hne. rewrite lookup_insert_ne in Hk by done.
    by apply (Huniq k).
Qed.

(** A-01-02-1 for aisle A, rack 01, bin 02, level 1. *)
Lemma location_code_on_save_witness :
  ∃ table' key saved,
    Location.save Sample.now None (Fixture2.location 1) ∅
    = Orm.Ok (table', key, saved)
    ∧ Location.code saved = "A-01-02-1"
    ∧ Py.split "-" (Location.code saved) = ["A"; "01"; "02"; "1"].
Proof.
  assert (∃ table' key saved,
            Location.save Sample.now None (Fixture2.location 1) ∅
            = Orm.Ok (table', key, saved)) as (table' & key & saved & Hsave)
    by (do 3 eexists; vm_compute; reflexivity).
  exists table', key, saved. split; [exact Hsave |].
  destruct (location_code_on_save _ _ _ _ _ _ _ Hsave)
    as (_ & _ & Hderived & _).
  destruct (Hderived eq_refl) as [Hcode Hsplit]. split; [exact Hcode |].
  apply Hsplit; simpl; (reflexivity || lia).
Defined.

(** X17. The derived code leaves the warehouse out, and a level of 0 like a
    missing level: once a location without a code is stored, creating
    another one without a code whose parts are the same raises
    [IntegrityError] on the unique code, whatever its warehouse. *)
Theorem location_derived_code_clash now now' (a b : Location.t)
    table table' key saved :
  Location.code a = EmptyString → Location.code b = EmptyString →
  Location.parts a = Location.parts b →
  Location.save now None a table = Orm.Ok (table', key, saved) →
  Location.save now' None b table' = Orm.Raise Orm.IntegrityError.
Proof.
  intros Ha Hb Hparts Hsave.
  assert (Hnew : table !! key = None ∧ table' = <[key := saved]> table).
  { unfold Location.save in Hsave. by apply save_base_new in Hsave. }
  apply Location_save_inv in Hsave as (_ & Hcode & _).
  rewrite Ha in Hcode. simpl in Hcode. destruct Hnew as [_ ->].
  unfold Location.save, Orm.save_base. rewrite Hb. simpl String.eqb. cbv iota.
  match goal with
  | |- context [Orm.clashes ?k ?r ?t] =>
      assert (Hclash : Orm.clashes k r t = true)
  end.
  { apply clashes_true_iff. exists key, saved.
    split; [by rewrite lookup_insert_eq |]. split.
    - intros Hfresh.
      pose proof (fresh_key_unused (<[key := saved]> table)) as Hunused.
      by rewrite <- Hfresh, lookup_insert_eq in Hunused.
    - simpl. apply orb_true_iff. left. apply String.eqb_eq.
      by rewrite Hcode, Hparts. }
  by rewrite Hclash.
Qed.

(** The same aisle, rack, bin and level in warehouses 1 and 2. *)
Lemma location_derived_code_clash_witness :
  ∃ table' key saved,
    Location.save Sample.now None (Fixture2.location 1) ∅
    = Orm.Ok (table', key, saved)
    ∧ Location.save Sample.now None (Fixture2.location 2) table'
      = Orm.Raise Orm.IntegrityError.
Proof.
  assert (∃ table' key saved,
            Location.save Sample.now None (Fixture2.location 1) ∅
            = Orm.Ok (table', key, saved)) as (table' & key & saved & Hsave)
    by (do 3 eexists; vm_compute; reflexivity).
  exists table', key, saved. split; [exact Hsave |].
  by apply (location_derived_code_clash Sample.now Sample.now
              (Fixture2.location 1) (Fixture2.location 2) ∅ table' key saved).
Defined.

(** ** inventory/views.py: the buffer of a product *)

Lemma filter_sole {A : Type} (f : A → bool) (l : list A) (x : A) :
  NoDup l → x ∈ l → f x = true → (∀ y, y ∈ l → f y = true → y = x) →
  List.filter f l = [x].
Proof.
  intros Hnodup Hx Hfx Hsole.
  assert (Hin : x ∈ List.filter f l)
    by (apply list_elem_of_In, filter_In; by rewrite <- list_elem_of_In).
  assert (Hall : ∀ y, y ∈ List.filter f l → y = x).
  { intros y [Hy Hfy]%list_elem_of_In%filter_In.
    apply Hsole; [by apply list_elem_of_In | done]. }
  apply NoDup_ListNoDup, (List.NoDup_filter f), NoDup_ListNoDup in Hnodup.
  destruct (List.filter f l) as [| a [| b rest]].
  - by apply elem_of_nil in Hin.
  - by rewrite (Hall a (list_elem_of_here _ _)).
  - rewrite (Hall a (list_elem_of_here _ _)) in Hnodup.
    rewrite (Hall b (list_elem_of_further _ _ _ (list_elem_of_here _ _)))
      in Hnodup.
    apply NoDup_cons in Hnodup as [Hnotin _].
    destruct Hnotin. apply list_elem_of_here.
Qed.

Lemma filter_nil {A : Type} (f : A → bool) (l : list A) :
  (∀ y, y ∈ l → f y = false) → List.filter f l = [].
Proof.
  induction l as [| a l IH]; [done |]. intros Hall. simpl.
  rewrite (Hall a (list_elem_of_here _ _)).
  apply IH. intros y Hy. apply Hall. by apply list_elem_of_further.
Qed.

Lemma str_not_empty (n : Z) : 0 ≤ n → String.eqb (Py.str n) EmptyString = false.
Proof.
  intros Hn. pose proof (str_isdigit n Hn) as Hdigit.
  by destruct (Py.str n).
Qed.

(** X18. [by_product] of the stock buffers: without the parameter, or with
    an empty one, the answer is 400; with the number of a product, it is 200
    with the buffer of that product, or 404 when the product has none; a
    parameter that [int] does not read ends in an uncaught [ValueError]. *)
Theorem buffer_by_product db (product : positive) :
  one_buffer_per_product db →
  StockBufferViewSet.by_product None db
  = StockBufferViewSet.Reply_400 "product_id parameter required"
  ∧ StockBufferViewSet.by_product (Some EmptyString) db
    = StockBufferViewSet.Reply_400 "product_id parameter required"
  ∧ (∀ k buffer,
       stock_buffers db !! k = Some buffer →
       StockBuffer.product buffer = product →
       StockBufferViewSet.by_product (Some (Py.str (Z.pos product))) db
       = StockBufferViewSet.Reply_200 k buffer)
  ∧ ((∀ k buffer, stock_buffers db !! k = Some buffer →
                  StockBuffer.product buffer ≠ product) →
     StockBufferViewSet.by_product (Some (Py.str (Z.pos product))) db
     = StockBufferViewSet.Reply_404 "Stock buffer not found")
  ∧ (∀ param, param ≠ EmptyString → Py.int param = None →
       StockBufferViewSet.by_product (Some param) db
       = StockBufferViewSet.Reply_500 StockBufferViewSet.ValueError).
Proof.
  intros Hone. split; [done |]. split; [done |].
  unfold StockBufferViewSet.by_product.
  rewrite str_not_empty, int_str by lia.
  split; [| split].
  - intros k buffer Hk Hproduct.
    rewrite (filter_sole _ _ (k, buffer)); [done | | | |].
    + apply NoDup_map_to_list.
    + by apply elem_of_map_to_list.
    + simpl. rewrite Hproduct. apply Pos.eqb_refl.
    + intros [k' buffer'] Hk' Hsame. apply elem_of_map_to_list in Hk'.
      simpl in Hsame. apply Pos.eqb_eq in Hsame.
      assert (Hkeys : k' = k)
        by (apply (Hone k' k buffer' buffer Hk' Hk); congruence).
      subst k'. congruence.
  - intros Hnone. rewrite filter_nil; [done |].
    intros [k buffer] Hk. apply elem_of_map_to_list in Hk. simpl.
    apply Pos.eqb_neq. intros Hsame. by apply (Hnone k buffer Hk).
  - intros param Hparam Hint. apply String.eqb_neq in Hparam.
    by rewrite Hparam, Hint.
Qed.

(** The sample tables hold one buffer, of product 1: it is found under
    [product_id=1], and [product_id=abc] is no number. *)
Lemma buffer_by_product_witness :
  StockBufferViewSet.by_product (Some "1") Sample.db
  = StockBufferViewSet.Reply_200 1 Sample.stock_buffer
  ∧ StockBufferViewSet.by_product (Some "abc") Sample.db
    = StockBufferViewSet.Reply_500 StockBufferViewSet.ValueError.
Proof.
  assert (Hone : one_buffer_per_product Sample.db).
  { intros k k' buffer buffer' Hk Hk' _. simpl in Hk, Hk'.
    apply lookup_singleton_Some in Hk as [<- _].
    by apply lookup_singleton_Some in Hk' as [<- _]. }
  destruct (buffer_by_product Sample.db 1 Hone)
    as (_ & _ & Hfound & _ & Hvalue).
  split.
  - by apply (Hfound 1%positive Sample.stock_buffer).
  - by apply (Hvalue "abc").
Defined.


(** ** inventory/models.py: saving a stock row again *)

Lemma Stock_save_inv now pk (self : Stock.t) table table' key saved :
  Stock.save now pk self table = Orm.Ok (table', key, saved) →
  table' = <[key := saved]> table
  ∧ Stock.unit_cost saved = Stock.unit_cost self
  ∧ Stock.quantity_total saved = Stock.quantity_total self
  ∧ (∀ cost, Stock.unit_cost self = Some cost → cost ≠ 0 →
       Stock.quantity_total self ≠ 0 →
       Stock.total_value saved = Some (cost * Stock.quantity_total self))
  ∧ ∀ k row, table !! k = Some row → k ≠ key →
      Stock.unique_clash saved row = false.
Proof.
  unfold Stock.save, Orm.save_base.
  match goal with
  | |- context [Orm.clashes ?k ?r table] =>
      destruct (Orm.clashes k r table) eqn:Hclash; [done |]
  end.
  intros [= <- <- <-]. split; [done |].
  split; [| split; [| split]].
  - simpl. destruct (Stock.unit_cost self) as [cost |] eqn:E; [| done].
    by destruct (negb (cost =? 0) && negb (Stock.quantity_total self =? 0)).
  - simpl. destruct (Stock.unit_cost self) as [cost |] eqn:E; [| done].
    by destruct (negb (cost =? 0) && negb (Stock.quantity_total self =? 0)).
  - intros cost E Hcost Htotal. rewrite E.
    apply Z.eqb_neq in Hcost, Htotal. by rewrite Hcost, Htotal.
  - intros k row Hk Hne.
    match goal with
    | |- Stock.unique_clash ?r row = false =>
        destruct (Stock.unique_clash r row) eqn:Hrow; [| done]
    end.
    apply not_true_iff_false in Hclash. destruct Hclash.
    apply clashes_true_iff. by exists k, row.
Qed.

(** X19. Saving a stock row is repeatable: the row a successful [save]
    returns can be saved again under its key, the second [save] succeeds,
    and it changes nothing but the time stamps: the total value and every
    other column are the ones stored the first time. *)
Theorem stock_save_again now now' pk (self : Stock.t) table table' key saved :
  Stock.save now pk self table = Orm.Ok (table', key, saved) →
  ∃ again,
    Stock.save now' (Some key) saved table'
    = Orm.Ok (<[key := again]> table', key, again)
    ∧ again
      = Stock.set_audit (AuditFields.pre_save now' false (Stock.audit saved))
          saved
    ∧ Stock.total_value again = Stock.total_value saved.
Proof.
  intros (-> & Hcost & Htotal & Hvalue & Huniq)%Stock_save_inv.
  eexists. split; [| split; reflexivity].
  unfold Stock.save.
  assert (Hsame :
    match Stock.unit_cost saved with
    | Some cost =>
        if negb (cost =? 0) && negb (Stock.quantity_total saved =? 0)
        then Stock.set_total_value
               (Some (cost * Stock.quantity_total saved)) saved
        else saved
    | None => saved
    end = saved).
  { destruct (Stock.unit_cost saved) as [cost |] eqn:Hsaved; [| done].
    destruct (Z.eqb_spec cost 0) as [| Hne]; [done |].
    destruct (Z.eqb_spec (Stock.quantity_total saved) 0) as [| Hqt]; [done |].
    simpl. rewrite Htotal in Hqt.
    pose proof (Hvalue cost (eq_sym Hcost) Hne Hqt) as Hstored.
    rewrite Htotal. destruct saved. simpl in *. by rewrite Hstored. }
  rewrite Hsame.
  rewrite (save_base_update now' key saved _ saved); [reflexivity | |].
  - by rewrite lookup_insert_eq.
  - intros k row Hk Hne. rewrite lookup_insert_ne in Hk by done.
    exact (Huniq k row Hk Hne).
Qed.

(** The sample stock row, saved and saved again a year later. *)
Lemma stock_save_again_witness :
  ∃ table' key saved again,
    Stock.save Sample.now None Sample.stock ∅ = Orm.Ok (table', key, saved)
    ∧ Stock.save Fixture.next_year (Some key) saved table'
      = Orm.Ok (<[key := again]> table', key, again)
    ∧ Stock.total_value again = Stock.total_value saved.
Proof.
  assert (∃ table' key saved,
            Stock.save Sample.now None Sample.stock ∅
            = Orm.Ok (table', key, saved)) as (table' & key & saved & Hsave)
    by (do 3 eexists; vm_compute; reflexivity).
  destruct (stock_save_again Sample.now Fixture.next_year None Sample.stock
              ∅ table' key saved Hsave) as (again & Hagain & _ & Hvalue).
  by exists table', key, saved, again.
Defined.

